(** * Theme transition controller and anchor scrolling of the landing page

    A shallow embedding of [src/index.tsx]: the light/dark theme logic
    ([updateToggleButtonState], [setVisualThemeOnBody],
    [resetTransitionOverlay], [applyTheme], the three phase handlers and the
    failsafe timer), [initComponents], the click handler of the same-page
    anchors, the [load] listener and the scroll-reveal observer.

    The script is single-threaded and event driven.  Its mutable variables and
    the parts of the DOM it touches are gathered in one record [State]; every
    function of the script is a state transformer, and the browser is a
    function [step] that delivers one event (a click on the toggle, an
    animation frame, a [transitionend] notification, a timer) to the
    callbacks the script has registered.  What the browser does between two
    events (painting, running a CSS transition for its duration) is not
    modelled.  The [load] listener with the preloader and the scroll-reveal
    observer are modelled around it, in [Window].

    The file has three parts: the program, the vocabulary of its properties,
    and the properties. *)

From Stdlib Require Import String Ascii List ZArith Bool Lia Floats.
From stdpp Require Import base strings gmap list pretty.

Open Scope string_scope.
Open Scope list_scope.

(** * The program *)

(** ** Values *)

(** [type ThemeSetting = 'light' | 'dark'] *)
Inductive ThemeSetting : Type := light | dark.

Definition theme_str (t : ThemeSetting) : string :=
  match t with light => "light" | dark => "dark" end.

(** [a === b] on theme settings. *)
Definition theme_eqb (a b : ThemeSetting) : bool :=
  match a, b with
  | light, light | dark, dark => true
  | _, _ => false
  end.

(** [currentThemeSetting === 'light' ? 'dark' : 'light'] *)
Definition other_theme (t : ThemeSetting) : ThemeSetting :=
  match t with light => dark | dark => light end.

(** *** [DOMTokenList]: the ordered set of class names of an element *)
Module ClassList.

Definition contains (c : string) (l : list string) : bool :=
  existsb (String.eqb c) l.

Definition add (c : string) (l : list string) : list string :=
  if contains c l then l else l ++ [c].

Definition remove (c : string) (l : list string) : list string :=
  List.filter (fun x => negb (String.eqb c x)) l.

(** [classList.toggle(c, force)] *)
Definition toggle (c : string) (force : bool) (l : list string) : list string :=
  if force then add c l else remove c l.

End ClassList.

(** *** Numbers read back from style strings

    [parseFloat] is used on [themeOverlay.style.opacity] only.  The result is
    [NaN] or a signed decimal [mantissa / 10^scale]; exponents and [Infinity]
    are not parsed (the script writes the strings '0' and '1' only). *)
Inductive JSNumber : Type :=
| NaN
| Decimal (negative : bool) (mantissa : N) (scale : nat).

Definition is_whitespace (a : ascii) : bool :=
  let n := nat_of_ascii a in
  (n =? 32)%nat || ((9 <=? n)%nat && (n <=? 13)%nat).

Definition digit_of (a : ascii) : option N :=
  let n := N_of_ascii a in
  if ((48 <=? n) && (n <=? 57))%N then Some (n - 48)%N else None.

Fixpoint skip_whitespace (s : list ascii) : list ascii :=
  match s with
  | a :: r => if is_whitespace a then skip_whitespace r else s
  | [] => []
  end.

(** Reads a run of digits: accumulated value, number of digits, rest. *)
Fixpoint read_digits (acc : N) (count : nat) (s : list ascii) : N * nat * list ascii :=
  match s with
  | a :: r =>
      match digit_of a with
      | Some d => read_digits (10 * acc + d)%N (S count) r
      | None => (acc, count, s)
      end
  | [] => (acc, count, [])
  end.

Definition parse_unsigned (negative : bool) (s : list ascii) : JSNumber :=
  let '(int_part, int_digits, rest) := read_digits 0%N 0%nat s in
  match rest with
  | "."%char :: frac =>
      let '(all, frac_digits, _) := read_digits int_part 0%nat frac in
      match int_digits, frac_digits with
      | O, O => NaN
      | _, _ => Decimal negative all frac_digits
      end
  | _ =>
      match int_digits with
      | O => NaN
      | _ => Decimal negative int_part 0
      end
  end.

Definition parseFloat (s : string) : JSNumber :=
  match skip_whitespace (list_ascii_of_string s) with
  | "-"%char :: r => parse_unsigned true r
  | "+"%char :: r => parse_unsigned false r
  | r => parse_unsigned false r
  end.

Definition numerator (negative : bool) (mantissa : N) : Z :=
  if negative then (- Z.of_N mantissa)%Z else Z.of_N mantissa.

(** [a < b]; a comparison with [NaN] is false. *)
Definition js_lt (a b : JSNumber) : bool :=
  match a, b with
  | Decimal na ma sa, Decimal nb mb sb =>
      (numerator na ma * 10 ^ Z.of_nat sb <? numerator nb mb * 10 ^ Z.of_nat sa)%Z
  | _, _ => false
  end.

(** [a > b] *)
Definition js_gt (a b : JSNumber) : bool := js_lt b a.

Definition js_of_N (n : N) : JSNumber := Decimal false n 0.

(** [String.prototype.trim] on the ASCII white space characters. *)
Definition trim (s : string) : string :=
  string_of_list_ascii
    (rev (skip_whitespace (rev (skip_whitespace (list_ascii_of_string s))))).

(** ** The document *)

(** The elements the script looks up once, when the module is loaded, and
    the two colour custom properties of the root element. *)
Record Document : Type := {
  has_theme_toggle : bool;     (* document.querySelector('.theme-toggle') *)
  has_sun_icon : bool;         (* '.sun-icon' inside the toggle *)
  has_moon_icon : bool;        (* '.moon-icon' inside the toggle *)
  has_theme_overlay : bool;    (* #theme-transition-overlay *)
  css_bg_color : string;       (* computed --bg-color of the root *)
  css_dark_bg_color : string   (* computed --dark-bg-color of the root *)
}.

Definition themeToggleButton (d : Document) : bool := has_theme_toggle d.

(** [themeToggleButton ? themeToggleButton.querySelector('.sun-icon') : null] *)
Definition sunIcon (d : Document) : bool :=
  if themeToggleButton d then has_sun_icon d else false.

Definition moonIcon (d : Document) : bool :=
  if themeToggleButton d then has_moon_icon d else false.

Definition themeOverlay (d : Document) : bool := has_theme_overlay d.

(** The inline style of the overlay, as far as the script writes it. *)
Record Style : Type := {
  backgroundColor : string;
  opacity : string;
  transition : string;
  pointerEvents : string
}.

(** The closures [applyTheme] creates: the three phase handlers.  The first captures
    [actualThemeToApply] and [targetBgColor]. *)
Inductive Handler : Type :=
| Phase1End (actualThemeToApply : ThemeSetting) (targetBgColor : string)
| Phase2End
| Phase3End.

(** A registered [transitionend] listener of the overlay.  [closure] is the
    number of the [applyTheme] call that created the function object: two
    listeners are the same one when they are the same handler of the same
    call. *)
Record Listener : Type := {
  closure : nat;
  handler : Handler;
  once : bool
}.

(** Callbacks passed to [requestAnimationFrame]. *)
Inductive FrameCallback : Type :=
| setOpacity (value : string)
| setBackgroundColor (value : string).

(** Callbacks passed to [window.setTimeout] by the theme logic. *)
Inductive TimerCallback : Type := failsafe.

Record Timer : Type := {
  handle : positive;
  delay : N;
  callback : TimerCallback
}.

(** What the script does to its environment, in the order it does it. *)
Inductive Effect : Type :=
| StorageSetItem (key value : string)
| BodyClassToggle (c : string) (force : bool)
| BodyClassAdd (c : string)
| BodyClassRemove (c : string)
| LayoutRead
| OverlayStyleSet (property value : string)
| RequestAnimationFrame (cb : FrameCallback)
| SetTimeout (h : positive) (ms : N)
| ClearTimeout (h : positive)
| ConsoleWarn (message : string).

#[global] Instance ThemeSetting_eq_dec : EqDecision ThemeSetting.
Proof. solve_decision. Defined.
#[global] Instance Handler_eq_dec : EqDecision Handler.
Proof. solve_decision. Defined.
#[global] Instance Listener_eq_dec : EqDecision Listener.
Proof. solve_decision. Defined.

(** ** The state *)

Record State : Type := {
  (* module variables *)
  isTransitioning : bool;
  transitionFailsafeTimeoutId : option positive;
  currentThemeSetting : ThemeSetting;
  (* localStorage *)
  localStorage : gmap string string;
  (* DOM *)
  body_classList : list string;
  sun_classList : list string;
  moon_classList : list string;
  toggle_ariaLabel : option string;
  overlay_style : Style;
  overlay_listeners : list Listener;
  (* browser queues *)
  frame_callbacks : list FrameCallback;
  timers : list Timer;
  next_handle : positive;
  next_closure : nat;
  (* log *)
  trace : list Effect
}.

(** Field updates. *)
Definition set_isTransitioning (v : bool) (st : State) : State :=
  {| isTransitioning := v;
     transitionFailsafeTimeoutId := transitionFailsafeTimeoutId st;
     currentThemeSetting := currentThemeSetting st;
     localStorage := localStorage st; body_classList := body_classList st;
     sun_classList := sun_classList st; moon_classList := moon_classList st;
     toggle_ariaLabel := toggle_ariaLabel st;
     overlay_style := overlay_style st;
     overlay_listeners := overlay_listeners st;
     frame_callbacks := frame_callbacks st; timers := timers st;
     next_handle := next_handle st; next_closure := next_closure st;
     trace := trace st |}.

Definition set_transitionFailsafeTimeoutId (v : option positive) (st : State) : State :=
  {| isTransitioning := isTransitioning st;
     transitionFailsafeTimeoutId := v;
     currentThemeSetting := currentThemeSetting st;
     localStorage := localStorage st; body_classList := body_classList st;
     sun_classList := sun_classList st; moon_classList := moon_classList st;
     toggle_ariaLabel := toggle_ariaLabel st;
     overlay_style := overlay_style st;
     overlay_listeners := overlay_listeners st;
     frame_callbacks := frame_callbacks st; timers := timers st;
     next_handle := next_handle st; next_closure := next_closure st;
     trace := trace st |}.

Definition set_currentThemeSetting (v : ThemeSetting) (st : State) : State :=
  {| isTransitioning := isTransitioning st;
     transitionFailsafeTimeoutId := transitionFailsafeTimeoutId st;
     currentThemeSetting := v; localStorage := localStorage st;
     body_classList := body_classList st; sun_classList := sun_classList st;
     moon_classList := moon_classList st;
     toggle_ariaLabel := toggle_ariaLabel st;
     overlay_style := overlay_style st;
     overlay_listeners := overlay_listeners st;
     frame_callbacks := frame_callbacks st; timers := timers st;
     next_handle := next_handle st; next_closure := next_closure st;
     trace := trace st |}.

Definition set_localStorage (v : gmap string string) (st : State) : State :=
  {| isTransitioning := isTransitioning st;
     transitionFailsafeTimeoutId := transitionFailsafeTimeoutId st;
     currentThemeSetting := currentThemeSetting st; localStorage := v;
     body_classList := body_classList st; sun_classList := sun_classList st;
     moon_classList := moon_classList st;
     toggle_ariaLabel := toggle_ariaLabel st;
     overlay_style := overlay_style st;
     overlay_listeners := overlay_listeners st;
     frame_callbacks := frame_callbacks st; timers := timers st;
     next_handle := next_handle st; next_closure := next_closure st;
     trace := trace st |}.

Definition set_body_classList (v : list string) (st : State) : State :=
  {| isTransitioning := isTransitioning st;
     transitionFailsafeTimeoutId := transitionFailsafeTimeoutId st;
     currentThemeSetting := currentThemeSetting st;
     localStorage := localStorage st; body_classList := v;
     sun_classList := sun_classList st; moon_classList := moon_classList st;
     toggle_ariaLabel := toggle_ariaLabel st;
     overlay_style := overlay_style st;
     overlay_listeners := overlay_listeners st;
     frame_callbacks := frame_callbacks st; timers := timers st;
     next_handle := next_handle st; next_closure := next_closure st;
     trace := trace st |}.

Definition set_sun_classList (v : list string) (st : State) : State :=
  {| isTransitioning := isTransitioning st;
     transitionFailsafeTimeoutId := transitionFailsafeTimeoutId st;
     currentThemeSetting := currentThemeSetting st;
     localStorage := localStorage st; body_classList := body_classList st;
     sun_classList := v; moon_classList := moon_classList st;
     toggle_ariaLabel := toggle_ariaLabel st;
     overlay_style := overlay_style st;
     overlay_listeners := overlay_listeners st;
     frame_callbacks := frame_callbacks st; timers := timers st;
     next_handle := next_handle st; next_closure := next_closure st;
     trace := trace st |}.

Definition set_moon_classList (v : list string) (st : State) : State :=
  {| isTransitioning := isTransitioning st;
     transitionFailsafeTimeoutId := transitionFailsafeTimeoutId st;
     currentThemeSetting := currentThemeSetting st;
     localStorage := localStorage st; body_classList := body_classList st;
     sun_classList := sun_classList st; moon_classList := v;
     toggle_ariaLabel := toggle_ariaLabel st;
     overlay_style := overlay_style st;
     overlay_listeners := overlay_listeners st;
     frame_callbacks := frame_callbacks st; timers := timers st;
     next_handle := next_handle st; next_closure := next_closure st;
     trace := trace st |}.

Definition set_toggle_ariaLabel (v : option string) (st : State) : State :=
  {| isTransitioning := isTransitioning st;
     transitionFailsafeTimeoutId := transitionFailsafeTimeoutId st;
     currentThemeSetting := currentThemeSetting st;
     localStorage := localStorage st; body_classList := body_classList st;
     sun_classList := sun_classList st; moon_classList := moon_classList st;
     toggle_ariaLabel := v; overlay_style := overlay_style st;
     overlay_listeners := overlay_listeners st;
     frame_callbacks := frame_callbacks st; timers := timers st;
     next_handle := next_handle st; next_closure := next_closure st;
     trace := trace st |}.

Definition set_overlay_style (v : Style) (st : State) : State :=
  {| isTransitioning := isTransitioning st;
     transitionFailsafeTimeoutId := transitionFailsafeTimeoutId st;
     currentThemeSetting := currentThemeSetting st;
     localStorage := localStorage st; body_classList := body_classList st;
     sun_classList := sun_classList st; moon_classList := moon_classList st;
     toggle_ariaLabel := toggle_ariaLabel st; overlay_style := v;
     overlay_listeners := overlay_listeners st;
     frame_callbacks := frame_callbacks st; timers := timers st;
     next_handle := next_handle st; next_closure := next_closure st;
     trace := trace st |}.

Definition set_overlay_listeners (v : list Listener) (st : State) : State :=
  {| isTransitioning := isTransitioning st;
     transitionFailsafeTimeoutId := transitionFailsafeTimeoutId st;
     currentThemeSetting := currentThemeSetting st;
     localStorage := localStorage st; body_classList := body_classList st;
     sun_classList := sun_classList st; moon_classList := moon_classList st;
     toggle_ariaLabel := toggle_ariaLabel st;
     overlay_style := overlay_style st; overlay_listeners := v;
     frame_callbacks := frame_callbacks st; timers := timers st;
     next_handle := next_handle st; next_closure := next_closure st;
     trace := trace st |}.

Definition set_frame_callbacks (v : list FrameCallback) (st : State) : State :=
  {| isTransitioning := isTransitioning st;
     transitionFailsafeTimeoutId := transitionFailsafeTimeoutId st;
     currentThemeSetting := currentThemeSetting st;
     localStorage := localStorage st; body_classList := body_classList st;
     sun_classList := sun_classList st; moon_classList := moon_classList st;
     toggle_ariaLabel := toggle_ariaLabel st;
     overlay_style := overlay_style st;
     overlay_listeners := overlay_listeners st; frame_callbacks := v;
     timers := timers st; next_handle := next_handle st;
     next_closure := next_closure st; trace := trace st |}.

Definition set_timers (v : list Timer) (st : State) : State :=
  {| isTransitioning := isTransitioning st;
     transitionFailsafeTimeoutId := transitionFailsafeTimeoutId st;
     currentThemeSetting := currentThemeSetting st;
     localStorage := localStorage st; body_classList := body_classList st;
     sun_classList := sun_classList st; moon_classList := moon_classList st;
     toggle_ariaLabel := toggle_ariaLabel st;
     overlay_style := overlay_style st;
     overlay_listeners := overlay_listeners st;
     frame_callbacks := frame_callbacks st; timers := v;
     next_handle := next_handle st; next_closure := next_closure st;
     trace := trace st |}.

Definition set_next_handle (v : positive) (st : State) : State :=
  {| isTransitioning := isTransitioning st;
     transitionFailsafeTimeoutId := transitionFailsafeTimeoutId st;
     currentThemeSetting := currentThemeSetting st;
     localStorage := localStorage st; body_classList := body_classList st;
     sun_classList := sun_classList st; moon_classList := moon_classList st;
     toggle_ariaLabel := toggle_ariaLabel st;
     overlay_style := overlay_style st;
     overlay_listeners := overlay_listeners st;
     frame_callbacks := frame_callbacks st; timers := timers st;
     next_handle := v; next_closure := next_closure st; trace := trace st |}.

Definition set_next_closure (v : nat) (st : State) : State :=
  {| isTransitioning := isTransitioning st;
     transitionFailsafeTimeoutId := transitionFailsafeTimeoutId st;
     currentThemeSetting := currentThemeSetting st;
     localStorage := localStorage st; body_classList := body_classList st;
     sun_classList := sun_classList st; moon_classList := moon_classList st;
     toggle_ariaLabel := toggle_ariaLabel st;
     overlay_style := overlay_style st;
     overlay_listeners := overlay_listeners st;
     frame_callbacks := frame_callbacks st; timers := timers st;
     next_handle := next_handle st; next_closure := v; trace := trace st |}.

Definition set_trace (v : list Effect) (st : State) : State :=
  {| isTransitioning := isTransitioning st;
     transitionFailsafeTimeoutId := transitionFailsafeTimeoutId st;
     currentThemeSetting := currentThemeSetting st;
     localStorage := localStorage st; body_classList := body_classList st;
     sun_classList := sun_classList st; moon_classList := moon_classList st;
     toggle_ariaLabel := toggle_ariaLabel st;
     overlay_style := overlay_style st;
     overlay_listeners := overlay_listeners st;
     frame_callbacks := frame_callbacks st; timers := timers st;
     next_handle := next_handle st; next_closure := next_closure st;
     trace := v |}.

Definition style_set_backgroundColor (v : string) (s : Style) : Style :=
  {| backgroundColor := v; opacity := opacity s; transition := transition s; pointerEvents := pointerEvents s |}.

Definition style_set_opacity (v : string) (s : Style) : Style :=
  {| backgroundColor := backgroundColor s; opacity := v; transition := transition s; pointerEvents := pointerEvents s |}.

Definition style_set_transition (v : string) (s : Style) : Style :=
  {| backgroundColor := backgroundColor s; opacity := opacity s; transition := v; pointerEvents := pointerEvents s |}.

Definition style_set_pointerEvents (v : string) (s : Style) : Style :=
  {| backgroundColor := backgroundColor s; opacity := opacity s; transition := transition s; pointerEvents := v |}.

(** ** Browser primitives

    Each primitive changes the state and appends what it did to [trace]. *)

Definition log (e : Effect) (st : State) : State :=
  set_trace (trace st ++ [e]) st.

Definition localStorage_getItem (key : string) (st : State) : option string :=
  localStorage st !! key.

Definition localStorage_setItem (key value : string) (st : State) : State :=
  log (StorageSetItem key value)
      (set_localStorage (<[key := value]> (localStorage st)) st).

Definition body_classList_toggle (c : string) (force : bool) (st : State) : State :=
  log (BodyClassToggle c force)
      (set_body_classList (ClassList.toggle c force (body_classList st)) st).

Definition body_classList_add (c : string) (st : State) : State :=
  log (BodyClassAdd c) (set_body_classList (ClassList.add c (body_classList st)) st).

Definition body_classList_remove (c : string) (st : State) : State :=
  log (BodyClassRemove c)
      (set_body_classList (ClassList.remove c (body_classList st)) st).

(** [void body.offsetHeight]: a synchronous layout read. *)
Definition body_offsetHeight (st : State) : State := log LayoutRead st.

Definition overlay_set_backgroundColor (v : string) (st : State) : State :=
  log (OverlayStyleSet "background-color" v)
      (set_overlay_style (style_set_backgroundColor v (overlay_style st)) st).

Definition overlay_set_opacity (v : string) (st : State) : State :=
  log (OverlayStyleSet "opacity" v)
      (set_overlay_style (style_set_opacity v (overlay_style st)) st).

Definition overlay_set_transition (v : string) (st : State) : State :=
  log (OverlayStyleSet "transition" v)
      (set_overlay_style (style_set_transition v (overlay_style st)) st).

Definition overlay_set_pointerEvents (v : string) (st : State) : State :=
  log (OverlayStyleSet "pointer-events" v)
      (set_overlay_style (style_set_pointerEvents v (overlay_style st)) st).

Definition requestAnimationFrame (cb : FrameCallback) (st : State) : State :=
  log (RequestAnimationFrame cb)
      (set_frame_callbacks (frame_callbacks st ++ [cb]) st).

(** [window.setTimeout] returns a handle, which the browser takes greater
    than zero: a handle is a [positive], and [if (transitionFailsafeTimeoutId)]
    is the test that the variable is not [null]. *)
Definition setTimeout (cb : TimerCallback) (ms : N) (st : State) : positive * State :=
  let h := next_handle st in
  (h, log (SetTimeout h ms)
        (set_next_handle (Pos.succ h)
           (set_timers (timers st ++ [{| handle := h; delay := ms; callback := cb |}]) st))).

Definition clearTimeout (h : positive) (st : State) : State :=
  log (ClearTimeout h)
      (set_timers (List.filter (fun t => negb (Pos.eqb (handle t) h)) (timers st)) st).

Definition console_warn (message : string) (st : State) : State :=
  log (ConsoleWarn message) st.

(** Two listeners of the same event type are the same one when their
    callbacks are the same function object. *)
Definition same_callback (a b : Listener) : bool :=
  Nat.eqb (closure a) (closure b) && bool_decide (handler a = handler b).

Definition addEventListener (l : Listener) (st : State) : State :=
  if existsb (same_callback l) (overlay_listeners st) then st
  else set_overlay_listeners (overlay_listeners st ++ [l]) st.

Definition removeEventListener (l : Listener) (st : State) : State :=
  set_overlay_listeners
    (List.filter (fun x => negb (same_callback l x)) (overlay_listeners st)) st.

(** ** Transition events *)

(** Where a [transitionend] event was fired: on the overlay, on an element
    inside it (the event bubbles to the overlay), or elsewhere in the page
    (the overlay's listeners are not called). *)
Inductive Target : Type := OverlayElement | InsideOverlay | OtherElement.

Record TransitionEvent : Type := {
  target : Target;
  propertyName : string
}.

(** [event.target !== themeOverlay] *)
Definition target_is_not_overlay (t : Target) : bool :=
  match t with OverlayElement => false | _ => true end.

(** ** The theme logic *)

Definition phase1Duration : N := 500.
Definition phase2Duration : N := 700.
Definition phase3Duration : N := 500.
Definition failsafeDuration : N :=
  phase1Duration + phase2Duration + phase3Duration + 500.

Definition label_light : string := "Tema atual: Claro. Mudar para tema escuro.".
Definition label_dark : string := "Tema atual: Escuro. Mudar para tema claro.".

(** [body.classList.contains('dark-mode') ? 'dark' : 'light'] *)
Definition visible_theme (st : State) : ThemeSetting :=
  if ClassList.contains "dark-mode" (body_classList st) then dark else light.

Section Script.

Variable doc : Document.

Definition updateToggleButtonState (setting : ThemeSetting) (st : State) : State :=
  if negb (sunIcon doc) || negb (moonIcon doc) || negb (themeToggleButton doc) then st
  else
    let st := set_sun_classList
                (ClassList.toggle "active" (theme_eqb setting light) (sun_classList st)) st in
    let st := set_sun_classList
                (ClassList.toggle "inactive" (negb (theme_eqb setting light)) (sun_classList st)) st in
    let st := set_moon_classList
                (ClassList.toggle "active" (theme_eqb setting dark) (moon_classList st)) st in
    let st := set_moon_classList
                (ClassList.toggle "inactive" (negb (theme_eqb setting dark)) (moon_classList st)) st in
    let ariaLabel := if theme_eqb setting light then label_light else label_dark in
    set_toggle_ariaLabel (Some ariaLabel) st.

Definition setVisualThemeOnBody (actualTheme : ThemeSetting) (st : State) : State :=
  body_classList_toggle "dark-mode" (theme_eqb actualTheme dark) st.

Definition resetTransitionOverlay (st : State) : State :=
  let st :=
    if themeOverlay doc then
      let st := overlay_set_pointerEvents "none" st in
      let st := overlay_set_transition "none" st in
      overlay_set_opacity "0" st
    else st in
  let st := set_isTransitioning false st in
  let st :=
    match transitionFailsafeTimeoutId st with
    | Some h => set_transitionFailsafeTimeoutId None (clearTimeout h st)
    | None => st
    end in
  body_classList_remove "theme-transition-active" st.

(** The callback of the failsafe timer. *)
Definition failsafeCallback (st : State) : State :=
  if isTransitioning st then
    let st := console_warn "Theme transition (multi-phase) failsafe triggered." st in
    let st := resetTransitionOverlay st in
    let finalActualTheme := currentThemeSetting st in
    let st :=
      if negb (theme_eqb (visible_theme st) finalActualTheme)
      then setVisualThemeOnBody finalActualTheme st
      else st in
    updateToggleButtonState (currentThemeSetting st) st
  else st.

(** The three [transitionend] handlers; [c] is the [applyTheme] call whose
    closures they are. *)
Definition handlePhase3End (c : nat) (event : TransitionEvent) (st : State) : State :=
  if target_is_not_overlay (target event)
     || negb (String.eqb (propertyName event) "opacity")
     || js_gt (parseFloat (opacity (overlay_style st))) (js_of_N 0)
  then st
  else resetTransitionOverlay st.

Definition handlePhase2End (c : nat) (event : TransitionEvent) (st : State) : State :=
  if target_is_not_overlay (target event)
     || negb (String.eqb (propertyName event) "background-color")
  then st
  else
    let st := removeEventListener {| closure := c; handler := Phase2End; once := true |} st in
    let st := overlay_set_transition
                ("opacity " +:+ pretty phase3Duration +:+ "ms ease-in-out") st in
    let st := requestAnimationFrame (setOpacity "0") st in
    addEventListener {| closure := c; handler := Phase3End; once := true |} st.

Definition handlePhase1End (c : nat) (actualThemeToApply : ThemeSetting)
    (targetBgColor : string) (event : TransitionEvent) (st : State) : State :=
  if target_is_not_overlay (target event)
     || negb (String.eqb (propertyName event) "opacity")
     || js_lt (parseFloat (opacity (overlay_style st))) (js_of_N 1)
  then st
  else
    let st := removeEventListener
                {| closure := c; handler := Phase1End actualThemeToApply targetBgColor;
                   once := true |} st in
    let st := body_classList_add "theme-transition-active" st in
    let st := body_offsetHeight st in
    let st := setVisualThemeOnBody actualThemeToApply st in
    let st := body_offsetHeight st in
    let st := body_classList_remove "theme-transition-active" st in
    let st := overlay_set_transition
                ("background-color " +:+ pretty phase2Duration +:+ "ms ease-in-out") st in
    let st := requestAnimationFrame (setBackgroundColor targetBgColor) st in
    addEventListener {| closure := c; handler := Phase2End; once := true |} st.

Definition applyTheme (newSetting : ThemeSetting) (isInitialLoad : bool)
    (st : State) : State :=
  if negb (themeOverlay doc) || negb (sunIcon doc) || negb (moonIcon doc) then
    let st := set_currentThemeSetting newSetting st in
    let st := localStorage_setItem "themeSetting" (theme_str newSetting) st in
    let st := setVisualThemeOnBody newSetting st in
    if themeToggleButton doc then updateToggleButtonState newSetting st else st
  else
    let st := set_currentThemeSetting newSetting st in
    let st := localStorage_setItem "themeSetting" (theme_str newSetting) st in
    let st := updateToggleButtonState newSetting st in
    let actualThemeToApply := newSetting in
    let currentActualBodyTheme := visible_theme st in
    if isInitialLoad then setVisualThemeOnBody actualThemeToApply st
    else if isTransitioning st || theme_eqb actualThemeToApply currentActualBodyTheme
    then st
    else
      let st := set_isTransitioning true st in
      let currentBgColor :=
        if theme_eqb currentActualBodyTheme dark
        then trim (css_dark_bg_color doc) else trim (css_bg_color doc) in
      let targetBgColor :=
        if theme_eqb actualThemeToApply dark
        then trim (css_dark_bg_color doc) else trim (css_bg_color doc) in
      let st := overlay_set_backgroundColor currentBgColor st in
      let st := overlay_set_opacity "0" st in
      let st := overlay_set_transition
                  ("opacity " +:+ pretty phase1Duration +:+ "ms ease-in-out") st in
      let st := overlay_set_pointerEvents "auto" st in
      let st := requestAnimationFrame (setOpacity "1") st in
      let st :=
        match transitionFailsafeTimeoutId st with
        | Some h => clearTimeout h st
        | None => st
        end in
      let '(h, st) := setTimeout failsafe failsafeDuration st in
      let st := set_transitionFailsafeTimeoutId (Some h) st in
      let c := next_closure st in
      let st := set_next_closure (S c) st in
      addEventListener
        {| closure := c; handler := Phase1End actualThemeToApply targetBgColor;
           once := true |} st.

(** The theme part of [initComponents]; [currentThemeSetting] is declared
    without a value and assigned here before it is read. *)
Definition initComponents (st : State) : State :=
  let storedSetting := localStorage_getItem "themeSetting" st in
  let st :=
    if bool_decide (storedSetting = Some "dark") then
      set_currentThemeSetting dark st
    else
      let st := set_currentThemeSetting light st in
      if negb (bool_decide (storedSetting = Some "light"))
      then localStorage_setItem "themeSetting" "light" st
      else st in
  applyTheme (currentThemeSetting st) true st.

(** The click listener [initComponents] puts on the toggle, if there is one. *)
Definition toggle_click (st : State) : State :=
  if themeToggleButton doc then
    let newTheme := if theme_eqb (currentThemeSetting st) light then dark else light in
    applyTheme newTheme false st
  else st.

(** ** The browser delivering events *)

Definition call_listener (l : Listener) (event : TransitionEvent) (st : State) : State :=
  match handler l with
  | Phase1End actualThemeToApply targetBgColor =>
      handlePhase1End (closure l) actualThemeToApply targetBgColor event st
  | Phase2End => handlePhase2End (closure l) event st
  | Phase3End => handlePhase3End (closure l) event st
  end.

(** One listener of the list the event found on the overlay: skipped if it
    has been removed in the meantime; a [once] listener is taken off the
    element before its callback runs. *)
Definition invoke (event : TransitionEvent) (st : State) (l : Listener) : State :=
  if existsb (same_callback l) (overlay_listeners st) then
    let st := if once l then removeEventListener l st else st in
    call_listener l event st
  else st.

Definition dispatch_transitionend (event : TransitionEvent) (st : State) : State :=
  match target event with
  | OtherElement => st
  | _ => fold_left (invoke event) (overlay_listeners st) st
  end.

Definition run_frame_callback (st : State) (cb : FrameCallback) : State :=
  match cb with
  | setOpacity v => overlay_set_opacity v st
  | setBackgroundColor v => overlay_set_backgroundColor v st
  end.

Definition animation_frame (st : State) : State :=
  fold_left run_frame_callback (frame_callbacks st) (set_frame_callbacks [] st).

Definition timer_fires (h : positive) (st : State) : State :=
  match List.find (fun t => Pos.eqb (handle t) h) (timers st) with
  | Some t =>
      let st := set_timers
                  (List.filter (fun t => negb (Pos.eqb (handle t) h)) (timers st)) st in
      match callback t with
      | failsafe => failsafeCallback st
      end
  | None => st
  end.

Inductive Event : Type :=
| ToggleClick
| AnimationFrame
| TransitionEnd (event : TransitionEvent)
| TimerFires (h : positive).

Definition step (st : State) (e : Event) : State :=
  match e with
  | ToggleClick => toggle_click st
  | AnimationFrame => animation_frame st
  | TransitionEnd event => dispatch_transitionend event st
  | TimerFires h => timer_fires h st
  end.

Definition run (events : list Event) (st : State) : State :=
  fold_left step events st.

End Script.

(** ** Same-page anchors

    The click listener [initComponents] puts on every [a[href^="#"]].
    Lengths are JavaScript numbers, that is binary64 floats. *)
Module Anchor.

(** What [document.querySelector(href)] does: it throws on a selector it
    cannot parse, returns [null], or returns an element, of which the
    handler reads [getBoundingClientRect().top]. *)
Inductive Lookup : Type :=
| SelectorError
| NoElement
| Found (rect_top : float).

Record Header : Type := {
  position : string;      (* getComputedStyle(header).position *)
  offsetHeight : float
}.

Record Page : Type := {
  querySelector : string -> Lookup;
  header : option Header; (* document.querySelector('header') *)
  pageYOffset : float
}.

Record ScrollToOptions : Type := {
  top : float;
  behavior : string
}.

(** What a click has done when the handler returns. *)
Record Outcome : Type := {
  defaultPrevented : bool;
  scrolledTo : option ScrollToOptions
}.

Definition nothing : Outcome :=
  {| defaultPrevented := false; scrolledTo := None |}.

(** How a block of statements ends. *)
Inductive Completion : Type :=
| Normal (o : Outcome)
| Throw (o : Outcome).

(** The body of the [try] block. *)
Definition try_block (page : Page) (href : string) : Completion :=
  match querySelector page href with
  | SelectorError => Throw nothing
  | NoElement => Normal nothing
  | Found rect_top =>
      let headerStickyOffset := 15%float in
      let totalHeaderHeight :=
        match header page with
        | Some hd =>
            if String.eqb (position hd) "sticky" || String.eqb (position hd) "fixed"
            then (offsetHeight hd + headerStickyOffset)%float
            else offsetHeight hd
        | None => 0%float
        end in
      let elementPosition := (rect_top + pageYOffset page)%float in
      let offsetPosition := (elementPosition - totalHeaderHeight)%float in
      Normal {| defaultPrevented := true;
                scrolledTo := Some {| top := offsetPosition; behavior := "smooth" |} |}
  end.

(** The listener; [href] is [this.getAttribute('href')]. *)
Definition anchor_click (page : Page) (href : option string) : Completion :=
  match href with
  | None => Normal nothing
  | Some h =>
      if String.eqb h "#" || String.eqb h "" || negb (String.prefix "#" h)
      then Normal nothing
      else
        match try_block page h with
        | Normal o => Normal o
        | Throw o => Normal o      (* catch (error) { } *)
        end
  end.

(** A page scrolled 300 px down, with a sticky header of 64 px and a
    section 1200.5 px below the top of the window; '#1' is a selector the
    lookup cannot parse. *)
Definition sample_page : Page :=
  {| querySelector :=
       fun sel => if String.eqb sel "#services" then Found 1200.5%float
                  else if String.eqb sel "#1" then SelectorError
                  else NoElement;
     header := Some {| position := "sticky"; offsetHeight := 64%float |};
     pageYOffset := 300%float |}.

End Anchor.

(** ** The page being loaded: preloader and scroll reveal

    The [load] listener of the window and the rest of [initComponents].
    The state of the theme logic is one field of the state of the tab; the
    timers set here (the one that dismisses the preloader, those that reveal
    an element) are kept apart from the failsafe timers of the theme logic,
    and take their handles from the same counter.  [trace] stays the log of
    the theme logic and of the classes of the body: the timers set here are
    not written to it. *)
Module Window.

(** Elements are named by a number. *)
Definition Node : Type := nat.

(** What the script reads of the markup. *)
Record Markup : Type := {
  has_preloader : bool;                 (* document.getElementById('preloader') *)
  revealElements : list Node;           (* document.querySelectorAll('.reveal') *)
  parentElement : Node -> option Node;
  children : Node -> list Node          (* parent.children, in document order *)
}.

Record IntersectionObserverEntry : Type := {
  target : Node;
  isIntersecting : bool
}.

(** Callbacks passed to [setTimeout] outside the theme logic. *)
Inductive TimeoutCallback : Type :=
| hidePreloader
| addVisible (node : Node).

Record Timeout : Type := {
  id : positive;
  ms : Z;
  callback : TimeoutCallback
}.

Record Tab : Type := {
  theme : State;
  preloader_classList : list string;
  classList : gmap Node (list string);  (* of the other elements; no entry, no class *)
  observed : list Node;                 (* the targets of revealObserver *)
  timeouts : list Timeout
}.

Definition set_theme (v : State) (w : Tab) : Tab :=
  {| theme := v; preloader_classList := preloader_classList w;
     classList := classList w; observed := observed w; timeouts := timeouts w |}.

Definition set_preloader_classList (v : list string) (w : Tab) : Tab :=
  {| theme := theme w; preloader_classList := v;
     classList := classList w; observed := observed w; timeouts := timeouts w |}.

Definition set_classList (v : gmap Node (list string)) (w : Tab) : Tab :=
  {| theme := theme w; preloader_classList := preloader_classList w;
     classList := v; observed := observed w; timeouts := timeouts w |}.

Definition set_observed (v : list Node) (w : Tab) : Tab :=
  {| theme := theme w; preloader_classList := preloader_classList w;
     classList := classList w; observed := v; timeouts := timeouts w |}.

Definition set_timeouts (v : list Timeout) (w : Tab) : Tab :=
  {| theme := theme w; preloader_classList := preloader_classList w;
     classList := classList w; observed := observed w; timeouts := v |}.

(** [element.classList] *)
Definition classes (w : Tab) (node : Node) : list string := classList w !!! node.

Definition setTimeout (cb : TimeoutCallback) (delay : Z) (w : Tab) : positive * Tab :=
  let h := next_handle (theme w) in
  (h, set_timeouts (timeouts w ++ [{| id := h; ms := delay; callback := cb |}])
        (set_theme (set_next_handle (Pos.succ h) (theme w)) w)).

(** [Array.prototype.indexOf]: the first position, or -1. *)
Fixpoint indexOf_from (i : Z) (x : Node) (l : list Node) : Z :=
  match l with
  | [] => (-1)%Z
  | y :: r => if Nat.eqb y x then i else indexOf_from (i + 1)%Z x r
  end.

Definition indexOf (x : Node) (l : list Node) : Z := indexOf_from 0%Z x l.

Definition cardRevealDelayIncrement : Z := 100.

(** The body of [entries.forEach] in the callback of the observer. *)
Definition reveal (m : Markup) (w : Tab) (entry : IntersectionObserverEntry) : Tab :=
  if isIntersecting entry then
    let currentDelay :=
      if ClassList.contains "service-item" (classes w (target entry)) then
        match parentElement m (target entry) with
        | Some parent =>
            let itemIndex := indexOf (target entry) (children m parent) in
            (itemIndex * cardRevealDelayIncrement)%Z
        | None => 0%Z
        end
      else 0%Z in
    snd (setTimeout (addVisible (target entry)) currentDelay w)
  else w.

Definition observer_callback (m : Markup) (entries : list IntersectionObserverEntry)
    (w : Tab) : Tab :=
  fold_left (reveal m) entries w.

(** [revealObserver.observe(el)]; observing a target twice changes nothing. *)
Definition observe (w : Tab) (el : Node) : Tab :=
  if existsb (Nat.eqb el) (observed w) then w
  else set_observed (observed w ++ [el]) w.

(** [initComponents]: the theme, then the observer when there is something
    to reveal.  The click listener it puts on the toggle is [toggle_click],
    those it puts on the anchors are [Anchor.anchor_click]. *)
Definition initComponents (doc : Document) (m : Markup) (w : Tab) : Tab :=
  let w := set_theme (initComponents doc (theme w)) w in
  if (0 <? length (revealElements m))%nat then
    fold_left observe (revealElements m) (set_observed [] w)
  else w.

(** The [load] listener of the window. *)
Definition load (doc : Document) (m : Markup) (w : Tab) : Tab :=
  let w :=
    if has_preloader m then snd (setTimeout hidePreloader 250 w) else w in
  initComponents doc m w.

Definition run_callback (cb : TimeoutCallback) (w : Tab) : Tab :=
  match cb with
  | hidePreloader =>
      let w := set_preloader_classList
                 (ClassList.add "loaded" (preloader_classList w)) w in
      set_theme (body_classList_add "preloader-done" (theme w)) w
  | addVisible node =>
      set_classList
        (<[node := ClassList.add "visible" (classes w node)]> (classList w)) w
  end.

(** What the browser delivers: an event of the theme logic, or a batch of
    intersection changes. *)
Inductive Input : Type :=
| ThemeEvent (e : Event)
| Intersections (entries : list IntersectionObserverEntry).

(** The observer is told about its targets only. *)
Definition deliver (m : Markup) (entries : list IntersectionObserverEntry)
    (w : Tab) : Tab :=
  observer_callback m
    (List.filter (fun entry => existsb (Nat.eqb (target entry)) (observed w)) entries)
    w.

(** A timer is looked up among the timers of this part first. *)
Definition step (doc : Document) (m : Markup) (w : Tab) (i : Input) : Tab :=
  match i with
  | ThemeEvent (TimerFires h) =>
      match List.find (fun t => Pos.eqb (id t) h) (timeouts w) with
      | Some t =>
          run_callback (callback t)
            (set_timeouts
               (List.filter (fun t => negb (Pos.eqb (id t) h)) (timeouts w)) w)
      | None => set_theme (step doc (theme w) (TimerFires h)) w
      end
  | ThemeEvent e => set_theme (step doc (theme w) e) w
  | Intersections entries => deliver m entries w
  end.

Definition run (doc : Document) (m : Markup) (inputs : list Input) (w : Tab) : Tab :=
  fold_left (step doc m) inputs w.

End Window.

(** * The vocabulary of the properties *)

(** ** What a state shows *)

(** The value kept under the key [themeSetting]. *)
Definition persisted (st : State) : option string :=
  localStorage_getItem "themeSetting" st.

(** The control shows [s]: the icon of [s] is active, the other one
    inactive, and the label announces [s]. *)
Definition toggle_shows (s : ThemeSetting) (st : State) : Prop :=
  ClassList.contains "active" (sun_classList st) = theme_eqb s light
  /\ ClassList.contains "inactive" (sun_classList st) = negb (theme_eqb s light)
  /\ ClassList.contains "active" (moon_classList st) = theme_eqb s dark
  /\ ClassList.contains "inactive" (moon_classList st) = negb (theme_eqb s dark)
  /\ toggle_ariaLabel st = Some (if theme_eqb s light then label_light else label_dark).

(** The control is as it was. *)
Definition same_toggle_state (st st' : State) : Prop :=
  sun_classList st' = sun_classList st
  /\ moon_classList st' = moon_classList st
  /\ toggle_ariaLabel st' = toggle_ariaLabel st.

(** The overlay and the transition machinery are the same in both states. *)
Definition same_transition_state (st st' : State) : Prop :=
  isTransitioning st' = isTransitioning st
  /\ transitionFailsafeTimeoutId st' = transitionFailsafeTimeoutId st
  /\ overlay_style st' = overlay_style st
  /\ overlay_listeners st' = overlay_listeners st
  /\ frame_callbacks st' = frame_callbacks st
  /\ timers st' = timers st.

(** Guard, failsafe handle and pending timers are the same. *)
Definition guard_kept (st st' : State) : Prop :=
  isTransitioning st' = isTransitioning st
  /\ transitionFailsafeTimeoutId st' = transitionFailsafeTimeoutId st
  /\ timers st' = timers st.

(** Nothing is in flight, and nothing is left over from an earlier
    transition. *)
Definition at_rest (st : State) : Prop :=
  isTransitioning st = false
  /\ transitionFailsafeTimeoutId st = None
  /\ overlay_listeners st = []
  /\ frame_callbacks st = []
  /\ timers st = [].

(** A failsafe timer of 2200 ms is pending exactly while the guard is true,
    under the handle the script remembers, and no other timer is. *)
Definition one_failsafe (st : State) : Prop :=
  match transitionFailsafeTimeoutId st with
  | Some h =>
      isTransitioning st = true
      /\ timers st = [{| handle := h; delay := 2200; callback := failsafe |}]
  | None => isTransitioning st = false /\ timers st = []
  end.

(** The overlay or an icon is missing: [applyTheme] takes its fallback. *)
Definition degraded (doc : Document) : Prop :=
  themeOverlay doc = false \/ sunIcon doc = false \/ moonIcon doc = false.

(** ** Parts of [applyTheme] *)

(** The background colour [applyTheme] reads for a theme. *)
Definition css_background (doc : Document) (t : ThemeSetting) : string :=
  if theme_eqb t dark then trim (css_dark_bg_color doc) else trim (css_bg_color doc).

(** What every call does first when nothing is missing: lines 67 to 70. *)
Definition bookkeeping (doc : Document) (s : ThemeSetting) (st : State) : State :=
  updateToggleButtonState doc s
    (localStorage_setItem "themeSetting" (theme_str s)
       (set_currentThemeSetting s st)).

(** Line 108: [if (transitionFailsafeTimeoutId) clearTimeout(...)]. *)
Definition cancel_pending_failsafe (st : State) : State :=
  match transitionFailsafeTimeoutId st with
  | Some h => clearTimeout h st
  | None => st
  end.

(** A phase handler of call [c], registered with [{ once: true }]. *)
Definition listener (c : nat) (h : Handler) : Listener :=
  {| closure := c; handler := h; once := true |}.

(** The pending timers once the timer of handle [h] is cancelled. *)
Definition without_timer (h : positive) (ts : list Timer) : list Timer :=
  List.filter (fun t => negb (Pos.eqb (handle t) h)) ts.

(** The test at the head of each handler: [true] when the handler returns
    at once. *)
Definition rejects (h : Handler) (event : TransitionEvent) (st : State) : bool :=
  match h with
  | Phase1End _ _ =>
      target_is_not_overlay (target event)
      || negb (String.eqb (propertyName event) "opacity")
      || js_lt (parseFloat (opacity (overlay_style st))) (js_of_N 1)
  | Phase2End =>
      target_is_not_overlay (target event)
      || negb (String.eqb (propertyName event) "background-color")
  | Phase3End =>
      target_is_not_overlay (target event)
      || negb (String.eqb (propertyName event) "opacity")
      || js_gt (parseFloat (opacity (overlay_style st))) (js_of_N 0)
  end.

(** ** A transition in which no notification is lost *)

Definition opacity_end : TransitionEvent :=
  {| target := OverlayElement; propertyName := "opacity" |}.

Definition background_color_end : TransitionEvent :=
  {| target := OverlayElement; propertyName := "background-color" |}.

(** The browser events of such a transition. *)
Definition happy_path : list Event :=
  [ AnimationFrame; TransitionEnd opacity_end;
    AnimationFrame; TransitionEnd background_color_end;
    AnimationFrame; TransitionEnd opacity_end ].

(** Its effects, from theme [from] to theme [to] with failsafe handle [h],
    in the order they happen. *)
Definition happy_path_effects (doc : Document) (from to : ThemeSetting)
    (h : positive) : list Effect :=
  [ (* applyTheme *)
    StorageSetItem "themeSetting" (theme_str to);
    OverlayStyleSet "background-color" (css_background doc from);
    OverlayStyleSet "opacity" "0";
    OverlayStyleSet "transition" "opacity 500ms ease-in-out";
    OverlayStyleSet "pointer-events" "auto";
    RequestAnimationFrame (setOpacity "1");
    SetTimeout h 2200;
    (* next frame: phase 1 runs *)
    OverlayStyleSet "opacity" "1";
    (* handlePhase1End *)
    BodyClassAdd "theme-transition-active";
    LayoutRead;
    BodyClassToggle "dark-mode" (theme_eqb to dark);
    LayoutRead;
    BodyClassRemove "theme-transition-active";
    OverlayStyleSet "transition" "background-color 700ms ease-in-out";
    RequestAnimationFrame (setBackgroundColor (css_background doc to));
    (* next frame: phase 2 runs *)
    OverlayStyleSet "background-color" (css_background doc to);
    (* handlePhase2End *)
    OverlayStyleSet "transition" "opacity 500ms ease-in-out";
    RequestAnimationFrame (setOpacity "0");
    (* next frame: phase 3 runs *)
    OverlayStyleSet "opacity" "0";
    (* handlePhase3End *)
    OverlayStyleSet "pointer-events" "none";
    OverlayStyleSet "transition" "none";
    OverlayStyleSet "opacity" "0";
    ClearTimeout h;
    BodyClassRemove "theme-transition-active" ].

(** ** Store writes *)

(** A store write is valid when it puts 'light' or 'dark' under
    [themeSetting]; other effects are not store writes. *)
Definition valid_write (e : Effect) : Prop :=
  match e with
  | StorageSetItem key value =>
      key = "themeSetting" /\ (value = "light" \/ value = "dark")
  | _ => True
  end.

Definition valid_store (st : State) : Prop :=
  persisted st = Some "light" \/ persisted st = Some "dark".

(** From [st] to [st'] the script has only made valid writes. *)
Definition writes_valid (st st' : State) : Prop :=
  (exists t, trace st' = trace st ++ t /\ Forall valid_write t)
  /\ (persisted st' = persisted st \/ valid_store st').

(** ** The degraded path as the specification states it *)


(** ** Pages to compute on *)

(** A page with the toggle, both icons and the overlay. *)
Definition complete_doc : Document :=
  {| has_theme_toggle := true; has_sun_icon := true; has_moon_icon := true;
     has_theme_overlay := true;
     css_bg_color := " #F4EEFF"; css_dark_bg_color := " #1A1625" |}.

(** A page whose toggle has lost its sun icon. *)
Definition doc_without_sun_icon : Document :=
  {| has_theme_toggle := true; has_sun_icon := false; has_moon_icon := true;
     has_theme_overlay := true;
     css_bg_color := " #F4EEFF"; css_dark_bg_color := " #1A1625" |}.

(** A light page on which nothing is going on. *)
Definition quiet_light_page : State :=
  {| isTransitioning := false; transitionFailsafeTimeoutId := None;
     currentThemeSetting := light; localStorage := {["themeSetting" := "light"]};
     body_classList := []; sun_classList := ["sun-icon"; "active"];
     moon_classList := ["moon-icon"; "inactive"];
     toggle_ariaLabel := Some label_light;
     overlay_style := {| backgroundColor := ""; opacity := "";
                         transition := ""; pointerEvents := "" |};
     overlay_listeners := []; frame_callbacks := []; timers := [];
     next_handle := 1; next_closure := 0; trace := [] |}.

(** A [background-color] notification of the overlay, arriving during
    phase 1. *)
Definition stray_background_color_end : TransitionEvent :=
  {| target := OverlayElement; propertyName := "background-color" |}.

(** ** What a session keeps *)

(** The stored value is the setting in memory. *)
Definition stored_is_setting (st : State) : Prop :=
  persisted st = Some (theme_str (currentThemeSetting st)).

(** The setting [initComponents] takes from the store. *)
Definition setting_at_load (st0 : State) : ThemeSetting :=
  if bool_decide (persisted st0 = Some "dark") then dark else light.

(** The clicks on the toggle among the events. *)
Definition clicks (events : list Event) : nat :=
  length (List.filter (fun e => match e with ToggleClick => true | _ => false end)
            events).

(** The two classes the theme logic puts on the body, and the other
    classes of a class list. *)
Definition theme_class (c : string) : bool :=
  String.eqb c "dark-mode" || String.eqb c "theme-transition-active".

Definition other_classes (l : list string) : list string :=
  List.filter (fun c => negb (theme_class c)) l.

(** Relations between the state before and the state after. *)
Definition setting_kept (x y : State) : Prop :=
  currentThemeSetting y = currentThemeSetting x.



Definition other_classes_kept (x y : State) : Prop :=
  other_classes (body_classList y) = other_classes (body_classList x).

Definition marker_off_kept (x y : State) : Prop :=
  ClassList.contains "theme-transition-active" (body_classList x) = false ->
  ClassList.contains "theme-transition-active" (body_classList y) = false.

(** Nothing the theme logic looks up is missing. *)
Definition nothing_missing (doc : Document) : Prop :=
  themeOverlay doc = true /\ sunIcon doc = true /\ moonIcon doc = true.

(** The inline style of the overlay lets it take the pointer exactly while
    the guard is true, and the guard is true only in a page where nothing
    is missing. *)
Definition pointer_with_guard (doc : Document) (st : State) : Prop :=
  (pointerEvents (overlay_style st) = "auto" <-> isTransitioning st = true)
  /\ (isTransitioning st = true -> nothing_missing doc).

Definition pointer_kept (doc : Document) (x y : State) : Prop :=
  pointer_with_guard doc x -> pointer_with_guard doc y.

(** ** The timers of the tab *)

(** The handles of the pending timers are distinct, and the counter is
    past them. *)
Definition handles_fresh (w : Window.Tab) : Prop :=
  List.NoDup (map Window.id (Window.timeouts w))
  /\ Forall (fun t => (Window.id t < next_handle (Window.theme w))%positive)
       (Window.timeouts w).

(** What the callback of a timer leaves behind. *)
Definition callback_done (cb : Window.TimeoutCallback) (w : Window.Tab) : Prop :=
  match cb with
  | Window.hidePreloader =>
      ClassList.contains "loaded" (Window.preloader_classList w) = true
      /\ ClassList.contains "preloader-done" (body_classList (Window.theme w)) = true
  | Window.addVisible node =>
      ClassList.contains "visible" (Window.classes w node) = true
  end.

(** The input tells the observer that [node] intersects the viewport. *)
Definition reports (node : Window.Node) (i : Window.Input) : bool :=
  match i with
  | Window.Intersections entries =>
      existsb (fun entry => Nat.eqb (Window.target entry) node
                            && Window.isIntersecting entry) entries
  | Window.ThemeEvent _ => false
  end.

(** The counter of timer handles does not go back. *)
Definition handle_le (x y : State) : Prop :=
  (next_handle x <= next_handle y)%positive.

(** No timer that would reveal [node] is pending. *)
Definition no_reveal_pending (node : Window.Node) (w : Window.Tab) : Prop :=
  Forall (fun t => Window.callback t <> Window.addVisible node) (Window.timeouts w).

Definition no_dismissal_pending (w : Window.Tab) : Prop :=
  Forall (fun t => Window.callback t <> Window.hidePreloader) (Window.timeouts w).

(** ** What an abandoned transition leaves behind *)

(** The failsafe has ended a transition whose notifications did not come:
    the guard is false and no timer is pending, but a phase handler [l0] of
    an earlier call is still registered on the overlay, and the frame
    callbacks [fs0] may still be waiting. *)
Definition abandoned (l0 : Listener) (fs0 : list FrameCallback) (st : State) : Prop :=
  isTransitioning st = false
  /\ transitionFailsafeTimeoutId st = None
  /\ timers st = []
  /\ overlay_listeners st = [l0]
  /\ once l0 = true
  /\ (closure l0 < next_closure st)%nat
  /\ frame_callbacks st = fs0.

(** ** The opacity the guards read *)

(** The values the script writes to [style.opacity]. *)
Definition opacity_written (v : string) : Prop := v = "0" \/ v = "1".

Definition frame_opacity_written (cb : FrameCallback) : Prop :=
  match cb with
  | setOpacity v => opacity_written v
  | setBackgroundColor _ => True
  end.

(** The inline opacity is one the script wrote, and so will it be after the
    next frame. *)
Definition opacity_known (st : State) : Prop :=
  opacity_written (opacity (overlay_style st))
  /\ Forall frame_opacity_written (frame_callbacks st).

(** A handler is registered only once the script has written the opacity. *)
Definition guards_defined (st : State) : Prop :=
  (overlay_listeners st = [] \/ opacity_written (opacity (overlay_style st)))
  /\ Forall frame_opacity_written (frame_callbacks st).

Definition guards_kept (x y : State) : Prop :=
  guards_defined x -> guards_defined y.

Definition opacity_kept (x y : State) : Prop :=
  opacity_known x -> opacity_known y.

(** ** The handle of the failsafe *)

(** The handle the theme logic remembers was handed out already and is the
    handle of none of the timers of the tab. *)
Definition failsafe_id_apart (w : Window.Tab) : Prop :=
  forall h, transitionFailsafeTimeoutId (Window.theme w) = Some h ->
    (h < next_handle (Window.theme w))%positive
    /\ ~ In h (map Window.id (Window.timeouts w)).

(** From [x] to [y] the remembered handle stays, is forgotten, or becomes a
    handle handed out in between. *)
Definition failsafe_id_moves (x y : State) : Prop :=
  handle_le x y
  /\ (transitionFailsafeTimeoutId y = transitionFailsafeTimeoutId x
      \/ transitionFailsafeTimeoutId y = None
      \/ exists h, transitionFailsafeTimeoutId y = Some h
                   /\ (next_handle x <= h)%positive
                   /\ (h < next_handle y)%positive).

(** An element nothing is about to reveal. *)
Definition hidden (node : Window.Node) (w : Window.Tab) : Prop :=
  ClassList.contains "visible" (Window.classes w node) = false
  /\ no_reveal_pending node w.

(** ** A tab to compute on *)

(** A page with a preloader and one section (element 0) whose children are
    a heading (1) and three cards (2, 3, 4), all four to be revealed;
    element 5 is a paragraph that is not. *)
Definition sample_markup : Window.Markup :=
  {| Window.has_preloader := true;
     Window.revealElements := [1; 2; 3; 4]%nat;
     Window.parentElement :=
       fun node => if ((1 <=? node) && (node <=? 5))%nat then Some 0%nat else None;
     Window.children :=
       fun node => if (node =? 0)%nat then [1; 2; 3; 4; 5]%nat else [] |}.

(** The same page without the preloader. *)
Definition markup_without_preloader : Window.Markup :=
  {| Window.has_preloader := false;
     Window.revealElements := Window.revealElements sample_markup;
     Window.parentElement := Window.parentElement sample_markup;
     Window.children := Window.children sample_markup |}.

(** The tab before the [load] event; the store holds 'dark'. *)
Definition new_tab : Window.Tab :=
  {| Window.theme := set_localStorage {["themeSetting" := "dark"]} quiet_light_page;
     Window.preloader_classList := [];
     Window.classList :=
       {[ 1%nat := ["reveal"]; 2%nat := ["service-item"; "reveal"];
          3%nat := ["service-item"; "reveal"]; 4%nat := ["service-item"; "reveal"] ]};
     Window.observed := [];
     Window.timeouts := [] |}.

(** Everything to be revealed comes into view at once. *)
Definition all_in_view : list Window.IntersectionObserverEntry :=
  [ {| Window.target := 1%nat; Window.isIntersecting := true |};
    {| Window.target := 2%nat; Window.isIntersecting := true |};
    {| Window.target := 3%nat; Window.isIntersecting := true |};
    {| Window.target := 4%nat; Window.isIntersecting := true |} ].

(** [Anchor.sample_page] with a header that scrolls with the page. *)
Definition static_header_page : Anchor.Page :=
  {| Anchor.querySelector := Anchor.querySelector Anchor.sample_page;
     Anchor.header :=
       Some {| Anchor.position := "static"; Anchor.offsetHeight := 64%float |};
     Anchor.pageYOffset := Anchor.pageYOffset Anchor.sample_page |}.

(** * Properties *)

(** ** The program on small inputs *)

Example parseFloat_one : parseFloat "1" = Decimal false 1 0.
Proof. reflexivity. Qed.

Example parseFloat_fraction : parseFloat " -0.25px" = Decimal true 25 2.
Proof. reflexivity. Qed.

Example parseFloat_empty : parseFloat "" = NaN.
Proof. reflexivity. Qed.

(** [NaN < 1] and [NaN > 0] are both false: an overlay without inline
    opacity passes the tests of phase 1 and of phase 3. *)
Example nan_comparisons :
  js_lt (parseFloat "") (js_of_N 1) = false
  /\ js_gt (parseFloat "") (js_of_N 0) = false.
Proof. split; reflexivity. Qed.

Example half_below_one : js_lt (parseFloat "0.5") (js_of_N 1) = true.
Proof. reflexivity. Qed.

Example trim_colour : trim " #F4EEFF " = "#F4EEFF".
Proof. reflexivity. Qed.

Example toggle_adds_once :
  ClassList.toggle "dark-mode" true ["preloader-done"; "dark-mode"]
  = ["preloader-done"; "dark-mode"].
Proof. reflexivity. Qed.

Example toggle_removes :
  ClassList.toggle "dark-mode" false ["dark-mode"; "preloader-done"]
  = ["preloader-done"].
Proof. reflexivity. Qed.

(** A click on the toggle of the light page, then a transition in which
    nothing is lost: the body ends dark and the colour of the overlay is
    the dark background. *)
Example click_then_happy_path :
  let final := run complete_doc (ToggleClick :: happy_path) quiet_light_page in
  body_classList final = ["dark-mode"]
  /\ overlay_style final
     = {| backgroundColor := "#1A1625"; opacity := "0";
          transition := "none"; pointerEvents := "none" |}
  /\ currentThemeSetting final = dark
  /\ toggle_ariaLabel final = Some label_dark.
Proof. vm_compute. repeat split. Qed.

(** ** Class lists *)

Lemma contains_add_same (c : string) (l : list string) :
  ClassList.contains c (ClassList.add c l) = true.
Proof.
  unfold ClassList.add.
  destruct (ClassList.contains c l) eqn:E; [exact E|].
  unfold ClassList.contains. rewrite existsb_app. cbn.
  rewrite String.eqb_refl. now rewrite orb_true_r.
Qed.

Lemma contains_add_other (c c' : string) (l : list string) :
  c <> c' -> ClassList.contains c (ClassList.add c' l) = ClassList.contains c l.
Proof.
  intros Hne. unfold ClassList.add.
  destruct (ClassList.contains c' l); [reflexivity|].
  unfold ClassList.contains. rewrite existsb_app. cbn.
  apply String.eqb_neq in Hne. rewrite Hne. now rewrite !orb_false_r.
Qed.

Lemma contains_remove_same (c : string) (l : list string) :
  ClassList.contains c (ClassList.remove c l) = false.
Proof.
  unfold ClassList.contains, ClassList.remove.
  induction l as [|x l IH]; cbn; [reflexivity|].
  destruct (String.eqb c x) eqn:E; cbn; [exact IH|].
  now rewrite E, IH.
Qed.

Lemma contains_remove_other (c c' : string) (l : list string) :
  c <> c' -> ClassList.contains c (ClassList.remove c' l) = ClassList.contains c l.
Proof.
  intros Hne. unfold ClassList.contains, ClassList.remove.
  induction l as [|x l IH]; cbn; [reflexivity|].
  destruct (String.eqb c' x) eqn:E; cbn.
  - apply String.eqb_eq in E. subst x.
    apply String.eqb_neq in Hne. now rewrite Hne, IH.
  - now rewrite IH.
Qed.

Lemma contains_toggle_same (c : string) (force : bool) (l : list string) :
  ClassList.contains c (ClassList.toggle c force l) = force.
Proof.
  destruct force; cbn.
  - apply contains_add_same.
  - apply contains_remove_same.
Qed.

Lemma contains_toggle_other (c c' : string) (force : bool) (l : list string) :
  c <> c' -> ClassList.contains c (ClassList.toggle c' force l) = ClassList.contains c l.
Proof.
  intros Hne. destruct force; cbn.
  - now apply contains_add_other.
  - now apply contains_remove_other.
Qed.

Lemma same_callback_refl (l : Listener) : same_callback l l = true.
Proof.
  unfold same_callback. rewrite Nat.eqb_refl. cbn.
  now apply bool_decide_eq_true_2.
Qed.

Lemma theme_eqb_eq (a b : ThemeSetting) : theme_eqb a b = true <-> a = b.
Proof. destruct a, b; cbn; split; congruence. Qed.

Lemma theme_eqb_refl (a : ThemeSetting) : theme_eqb a a = true.
Proof. now destruct a. Qed.

Lemma transition_phase1 :
  "opacity " +:+ pretty phase1Duration +:+ "ms ease-in-out" = "opacity 500ms ease-in-out".
Proof. vm_compute. reflexivity. Qed.

Lemma transition_phase2 :
  "background-color " +:+ pretty phase2Duration +:+ "ms ease-in-out"
  = "background-color 700ms ease-in-out".
Proof. vm_compute. reflexivity. Qed.

Lemma transition_phase3 :
  "opacity " +:+ pretty phase3Duration +:+ "ms ease-in-out" = "opacity 500ms ease-in-out".
Proof. vm_compute. reflexivity. Qed.

(** ** Reading the state

    [simpl_state] computes the fields of a state built from the primitives;
    it leaves string comparisons and class-list operations alone. *)
Tactic Notation "simpl_state" :=
  cbn [isTransitioning transitionFailsafeTimeoutId currentThemeSetting localStorage
       body_classList sun_classList moon_classList toggle_ariaLabel overlay_style
       overlay_listeners frame_callbacks timers next_handle next_closure trace
       set_isTransitioning set_transitionFailsafeTimeoutId set_currentThemeSetting
       set_localStorage set_body_classList set_sun_classList set_moon_classList
       set_toggle_ariaLabel set_overlay_style set_overlay_listeners
       set_frame_callbacks set_timers set_next_handle set_next_closure set_trace
       backgroundColor opacity transition pointerEvents
       style_set_backgroundColor style_set_opacity style_set_transition
       style_set_pointerEvents
       log localStorage_setItem localStorage_getItem body_classList_toggle
       body_classList_add body_classList_remove body_offsetHeight
       overlay_set_backgroundColor overlay_set_opacity overlay_set_transition
       overlay_set_pointerEvents requestAnimationFrame setTimeout clearTimeout
       console_warn setVisualThemeOnBody fst snd negb orb andb existsb app].

Tactic Notation "simpl_state" "in" hyp(H) :=
  cbn [isTransitioning transitionFailsafeTimeoutId currentThemeSetting localStorage
       body_classList sun_classList moon_classList toggle_ariaLabel overlay_style
       overlay_listeners frame_callbacks timers next_handle next_closure trace
       set_isTransitioning set_transitionFailsafeTimeoutId set_currentThemeSetting
       set_localStorage set_body_classList set_sun_classList set_moon_classList
       set_toggle_ariaLabel set_overlay_style set_overlay_listeners
       set_frame_callbacks set_timers set_next_handle set_next_closure set_trace
       backgroundColor opacity transition pointerEvents
       style_set_backgroundColor style_set_opacity style_set_transition
       style_set_pointerEvents
       log localStorage_setItem localStorage_getItem body_classList_toggle
       body_classList_add body_classList_remove body_offsetHeight
       overlay_set_backgroundColor overlay_set_opacity overlay_set_transition
       overlay_set_pointerEvents requestAnimationFrame setTimeout clearTimeout
       console_warn setVisualThemeOnBody fst snd negb orb andb existsb app] in H.

(** [norm_state] goes all the way to a record of fields: the state a
    sequence of primitives leaves is then written once, not once per
    field. *)
Tactic Notation "norm_state" :=
  cbv beta iota zeta delta
      [isTransitioning transitionFailsafeTimeoutId currentThemeSetting localStorage
       body_classList sun_classList moon_classList toggle_ariaLabel overlay_style
       overlay_listeners frame_callbacks timers next_handle next_closure trace
       set_isTransitioning set_transitionFailsafeTimeoutId set_currentThemeSetting
       set_localStorage set_body_classList set_sun_classList set_moon_classList
       set_toggle_ariaLabel set_overlay_style set_overlay_listeners
       set_frame_callbacks set_timers set_next_handle set_next_closure set_trace
       backgroundColor opacity transition pointerEvents
       style_set_backgroundColor style_set_opacity style_set_transition
       style_set_pointerEvents
       log localStorage_setItem localStorage_getItem body_classList_toggle
       body_classList_add body_classList_remove body_offsetHeight
       overlay_set_backgroundColor overlay_set_opacity overlay_set_transition
       overlay_set_pointerEvents requestAnimationFrame setTimeout clearTimeout
       console_warn setVisualThemeOnBody fst snd existsb].

Tactic Notation "norm_state" "in" hyp(H) :=
  cbv beta iota zeta delta
      [isTransitioning transitionFailsafeTimeoutId currentThemeSetting localStorage
       body_classList sun_classList moon_classList toggle_ariaLabel overlay_style
       overlay_listeners frame_callbacks timers next_handle next_closure trace
       set_isTransitioning set_transitionFailsafeTimeoutId set_currentThemeSetting
       set_localStorage set_body_classList set_sun_classList set_moon_classList
       set_toggle_ariaLabel set_overlay_style set_overlay_listeners
       set_frame_callbacks set_timers set_next_handle set_next_closure set_trace
       backgroundColor opacity transition pointerEvents
       style_set_backgroundColor style_set_opacity style_set_transition
       style_set_pointerEvents
       log localStorage_setItem localStorage_getItem body_classList_toggle
       body_classList_add body_classList_remove body_offsetHeight
       overlay_set_backgroundColor overlay_set_opacity overlay_set_transition
       overlay_set_pointerEvents requestAnimationFrame setTimeout clearTimeout
       console_warn setVisualThemeOnBody fst snd existsb] in H.

Ltac simpl_state_in H :=
  cbn [isTransitioning transitionFailsafeTimeoutId currentThemeSetting localStorage
       body_classList sun_classList moon_classList toggle_ariaLabel overlay_style
       overlay_listeners frame_callbacks timers next_handle next_closure trace] in H.

(** Splits a state in its fields and uses the equations known about them. *)
Ltac open_state st :=
  destruct st;
  repeat match goal with
         | H : _ |- _ => progress simpl_state_in H
         end;
  subst.

Lemma inactive_neq_active : "active" <> "inactive".
Proof. discriminate. Qed.

Lemma icon_toggled (a b : bool) (l : list string) :
  let l' := ClassList.toggle "inactive" b (ClassList.toggle "active" a l) in
  ClassList.contains "active" l' = a /\ ClassList.contains "inactive" l' = b.
Proof.
  cbn zeta. split.
  - rewrite contains_toggle_other by exact inactive_neq_active.
    apply contains_toggle_same.
  - apply contains_toggle_same.
Qed.

Lemma persisted_setItem (v : string) (st : State) :
  persisted (localStorage_setItem "themeSetting" v st) = Some v.
Proof.
  unfold persisted. simpl_state. apply lookup_insert_eq.
Qed.

Lemma visible_theme_set (t : ThemeSetting) (st : State) :
  visible_theme (setVisualThemeOnBody t st) = t.
Proof.
  unfold visible_theme. simpl_state. rewrite contains_toggle_same.
  now destruct t.
Qed.

Lemma dark_mode_neq_active : "dark-mode" <> "theme-transition-active".
Proof. discriminate. Qed.

Lemma active_neq_dark_mode : "theme-transition-active" <> "dark-mode".
Proof. discriminate. Qed.

Lemma theme_of_flag (s : ThemeSetting) :
  (if theme_eqb s dark then dark else light) = s.
Proof. now destruct s. Qed.

(** ** With the toggle, its two icons and the overlay in the page *)

Section Complete.

Variable doc : Document.
Hypothesis overlay_present : themeOverlay doc = true.
Hypothesis sun_present : sunIcon doc = true.
Hypothesis moon_present : moonIcon doc = true.

Lemma button_present : themeToggleButton doc = true.
Proof using sun_present.
  unfold sunIcon in sun_present.
  destruct (themeToggleButton doc); [reflexivity | discriminate].
Qed.

Lemma updateToggleButtonState_present (s : ThemeSetting) (st : State) :
  updateToggleButtonState doc s st =
  set_toggle_ariaLabel (Some (if theme_eqb s light then label_light else label_dark))
    (set_moon_classList
       (ClassList.toggle "inactive" (negb (theme_eqb s dark))
          (ClassList.toggle "active" (theme_eqb s dark) (moon_classList st)))
       (set_sun_classList
          (ClassList.toggle "inactive" (negb (theme_eqb s light))
             (ClassList.toggle "active" (theme_eqb s light) (sun_classList st)))
          st)).
Proof using sun_present moon_present.
  unfold updateToggleButtonState.
  rewrite sun_present, moon_present, button_present. reflexivity.
Qed.

Lemma updateToggleButtonState_shows (s : ThemeSetting) (st : State) :
  toggle_shows s (updateToggleButtonState doc s st).
Proof using sun_present moon_present.
  rewrite updateToggleButtonState_present. unfold toggle_shows. simpl_state.
  pose proof (icon_toggled (theme_eqb s light) (negb (theme_eqb s light))
                (sun_classList st)) as [? ?].
  pose proof (icon_toggled (theme_eqb s dark) (negb (theme_eqb s dark))
                (moon_classList st)) as [? ?].
  cbn zeta in *. repeat split; assumption.
Qed.

Lemma bookkeeping_same_transition_state (s : ThemeSetting) (st : State) :
  same_transition_state st (bookkeeping doc s st).
Proof using sun_present moon_present.
  unfold bookkeeping. rewrite updateToggleButtonState_present.
  unfold same_transition_state. simpl_state. repeat split.
Qed.

Lemma bookkeeping_body (s : ThemeSetting) (st : State) :
  body_classList (bookkeeping doc s st) = body_classList st.
Proof using sun_present moon_present.
  unfold bookkeeping. rewrite updateToggleButtonState_present. reflexivity.
Qed.

Lemma bookkeeping_done (s : ThemeSetting) (st : State) :
  let st' := bookkeeping doc s st in
  currentThemeSetting st' = s
  /\ persisted st' = Some (theme_str s)
  /\ toggle_shows s st'
  /\ trace st' = trace st ++ [StorageSetItem "themeSetting" (theme_str s)].
Proof using sun_present moon_present.
  cbn zeta. split; [|split; [|split]].
  - unfold bookkeeping. rewrite updateToggleButtonState_present. reflexivity.
  - unfold bookkeeping. rewrite updateToggleButtonState_present.
    unfold persisted. simpl_state. apply lookup_insert_eq.
  - apply updateToggleButtonState_shows.
  - unfold bookkeeping. rewrite updateToggleButtonState_present. reflexivity.
Qed.

(** The three ways out of [applyTheme] when nothing is missing. *)
Lemma applyTheme_initial (s : ThemeSetting) (st : State) :
  applyTheme doc s true st = setVisualThemeOnBody s (bookkeeping doc s st).
Proof using overlay_present sun_present moon_present.
  unfold applyTheme. rewrite overlay_present, sun_present, moon_present.
  reflexivity.
Qed.

Lemma applyTheme_no_transition (s : ThemeSetting) (st : State) :
  isTransitioning st = true \/ visible_theme st = s ->
  applyTheme doc s false st = bookkeeping doc s st.
Proof using overlay_present sun_present moon_present.
  intros H. unfold applyTheme.
  rewrite overlay_present, sun_present, moon_present. cbn [negb orb].
  fold (bookkeeping doc s st).
  destruct (bookkeeping_same_transition_state s st) as [Ht _].
  rewrite Ht. unfold visible_theme. rewrite bookkeeping_body.
  fold (visible_theme st).
  destruct H as [H | H].
  - rewrite H. reflexivity.
  - rewrite H, theme_eqb_refl, orb_true_r. reflexivity.
Qed.

Lemma applyTheme_starts (s : ThemeSetting) (st : State) :
  isTransitioning st = false ->
  visible_theme st <> s ->
  applyTheme doc s false st =
  addEventListener (listener (next_closure st) (Phase1End s (css_background doc s)))
    (set_next_closure (S (next_closure st))
       (set_transitionFailsafeTimeoutId (Some (next_handle st))
          (snd (setTimeout failsafe 2200
                  (cancel_pending_failsafe
                     (requestAnimationFrame (setOpacity "1")
                        (overlay_set_pointerEvents "auto"
                           (overlay_set_transition "opacity 500ms ease-in-out"
                              (overlay_set_opacity "0"
                                 (overlay_set_backgroundColor
                                    (css_background doc (visible_theme st))
                                    (set_isTransitioning true
                                       (bookkeeping doc s st)))))))))))).
Proof using overlay_present sun_present moon_present.
  intros Ht Hv. unfold applyTheme.
  rewrite overlay_present, sun_present, moon_present. cbn [negb orb].
  fold (bookkeeping doc s st).
  destruct (bookkeeping_same_transition_state s st) as [Ht' _].
  rewrite Ht', Ht. unfold visible_theme at 1.
  rewrite bookkeeping_body.
  fold (visible_theme st).
  assert (E : theme_eqb s (visible_theme st) = false).
  { destruct (theme_eqb s (visible_theme st)) eqn:E; [|reflexivity].
    apply theme_eqb_eq in E. congruence. }
  rewrite E. cbn [orb]. rewrite transition_phase1.
  unfold cancel_pending_failsafe, bookkeeping.
  rewrite updateToggleButtonState_present.
  unfold visible_theme, css_background.
  destruct st as [tr id cur store body sun moon aria style ls fs ts h c log0].
  simpl_state_in Ht. subst tr.
  destruct id; reflexivity.
Qed.

(** A call that finds the guard true, or the body already showing [s],
    does the bookkeeping and nothing else. *)
Lemma call_without_transition (s : ThemeSetting) (st : State) :
  isTransitioning st = true \/ visible_theme st = s ->
  let st' := applyTheme doc s false st in
  same_transition_state st st'
  /\ body_classList st' = body_classList st
  /\ trace st' = trace st ++ [StorageSetItem "themeSetting" (theme_str s)]
  /\ currentThemeSetting st' = s
  /\ persisted st' = Some (theme_str s)
  /\ toggle_shows s st'.
Proof using overlay_present sun_present moon_present.
  intros H. cbn zeta. rewrite (applyTheme_no_transition s st H).
  destruct (bookkeeping_done s st) as (Hc & Hp & Hsh & Htr). cbn zeta in *.
  split; [apply bookkeeping_same_transition_state|].
  split; [apply bookkeeping_body|].
  split; [exact Htr|]. split; [exact Hc|]. split; [exact Hp | exact Hsh].
Qed.

End Complete.

(** ** The steps of a transition *)

Lemma frame_single (cb : FrameCallback) (st : State) :
  frame_callbacks st = [cb] ->
  animation_frame st = run_frame_callback (set_frame_callbacks [] st) cb.
Proof.
  intros H. unfold animation_frame. rewrite H. reflexivity.
Qed.

Lemma frame_none (st : State) :
  frame_callbacks st = [] -> animation_frame st = st.
Proof.
  intros H. unfold animation_frame. rewrite H. cbn [fold_left].
  open_state st. reflexivity.
Qed.

Lemma handlePhase1End_passes (c : nat) (s : ThemeSetting) (bg : string)
    (event : TransitionEvent) (st : State) :
  target event = OverlayElement ->
  propertyName event = "opacity" ->
  js_lt (parseFloat (opacity (overlay_style st))) (js_of_N 1) = false ->
  overlay_listeners st = [] ->
  handlePhase1End c s bg event st =
  set_overlay_listeners [listener c Phase2End]
    (requestAnimationFrame (setBackgroundColor bg)
       (overlay_set_transition "background-color 700ms ease-in-out"
          (body_classList_remove "theme-transition-active"
             (body_offsetHeight
                (setVisualThemeOnBody s
                   (body_offsetHeight
                      (body_classList_add "theme-transition-active" st))))))).
Proof.
  intros Ht Hp Ho Hl. unfold handlePhase1End.
  rewrite Ht, Hp, Ho, transition_phase2. cbn [target_is_not_overlay negb orb String.eqb].
  unfold removeEventListener, addEventListener.
  open_state st. reflexivity.
Qed.

Lemma handlePhase2End_passes (c : nat) (event : TransitionEvent) (st : State) :
  target event = OverlayElement ->
  propertyName event = "background-color" ->
  overlay_listeners st = [] ->
  handlePhase2End c event st =
  set_overlay_listeners [listener c Phase3End]
    (requestAnimationFrame (setOpacity "0")
       (overlay_set_transition "opacity 500ms ease-in-out" st)).
Proof.
  intros Ht Hp Hl. unfold handlePhase2End.
  rewrite Ht, Hp, transition_phase3.
  unfold removeEventListener, addEventListener.
  open_state st. reflexivity.
Qed.

Section Dispatch.

Variable doc : Document.

Lemma dispatch_single (l : Listener) (event : TransitionEvent) (st : State) :
  overlay_listeners st = [l] ->
  once l = true ->
  target event <> OtherElement ->
  dispatch_transitionend doc event st =
  call_listener doc l event (set_overlay_listeners [] st).
Proof.
  intros Hl Ho Ht. unfold dispatch_transitionend.
  rewrite Hl. cbn [fold_left]. unfold invoke. rewrite Hl, Ho.
  cbn [existsb]. rewrite same_callback_refl. cbn [orb].
  unfold removeEventListener. rewrite Hl. cbn [List.filter].
  rewrite same_callback_refl. cbn [negb].
  destruct (target event); [reflexivity | reflexivity | congruence].
Qed.

Lemma dispatch_none (event : TransitionEvent) (st : State) :
  overlay_listeners st = [] -> dispatch_transitionend doc event st = st.
Proof.
  intros Hl. unfold dispatch_transitionend. rewrite Hl.
  now destruct (target event).
Qed.

Lemma handlePhase3End_passes (c : nat) (event : TransitionEvent) (st : State) :
  target event = OverlayElement ->
  propertyName event = "opacity" ->
  js_gt (parseFloat (opacity (overlay_style st))) (js_of_N 0) = false ->
  handlePhase3End doc c event st = resetTransitionOverlay doc st.
Proof.
  intros Ht Hp Ho. unfold handlePhase3End. rewrite Ht, Hp, Ho. reflexivity.
Qed.

End Dispatch.

(** ** Following a transition step by step

    [forward doc] takes the innermost browser event of the goal whose input
    state is known and computes its output state. *)
Lemma cancel_only_timer (h : positive) (ms : N) (cb : TimerCallback) :
  List.filter (fun t => negb (Pos.eqb (handle t) h))
    [{| handle := h; delay := ms; callback := cb |}] = [].
Proof. cbn. rewrite Pos.eqb_refl. reflexivity. Qed.

Ltac side := first [reflexivity | discriminate | (cbn; discriminate)].

Ltac is_record X :=
  lazymatch X with Build_State _ _ _ _ _ _ _ _ _ _ _ _ _ _ _ => idtac end.

Ltac forward doc Ho :=
  match goal with
  | |- context [animation_frame ?X] =>
      is_record X;
      first [ erewrite (frame_single _ X) by reflexivity;
              cbn [run_frame_callback]
            | rewrite (frame_none X) by reflexivity ]
  | |- context [dispatch_transitionend doc ?ev ?X] =>
      is_record X;
      first [ erewrite (dispatch_single doc _ ev X) by side;
              cbn [call_listener listener handler closure];
              first [ erewrite handlePhase1End_passes by side
                    | erewrite handlePhase2End_passes by side
                    | erewrite (handlePhase3End_passes doc) by side;
                      unfold resetTransitionOverlay; rewrite Ho ]
            | rewrite (dispatch_none doc ev X) by reflexivity ]
  end;
  norm_state; rewrite ?cancel_only_timer.

(** C1. Full happy path.  On a page at rest with the overlay and both icons,
    a non-initial [applyTheme s] with [s] different from the visible theme,
    followed by the frames and the three completion notifications, does in
    this order: overlay opacity '0' with transition 'opacity 500ms', then
    '1'; in the handler of the first notification, with opacity still '1',
    marker class added, layout read, [dark-mode] set for [s], layout read,
    marker removed; transition 'background-color 700ms' to the colour of
    [s]; transition 'opacity 500ms' to '0'; teardown.  At the end the guard
    is false, opacity is '0', pointer-events 'none', the stored setting is
    [s], and the page is at rest again. *)
Theorem full_happy_path (doc : Document) (st : State) (s : ThemeSetting) :
  themeOverlay doc = true -> sunIcon doc = true -> moonIcon doc = true ->
  at_rest st ->
  visible_theme st <> s ->
  let started := applyTheme doc s false st in
  let faded_in := run doc [AnimationFrame] started in
  let swapped := run doc [TransitionEnd opacity_end] faded_in in
  let final := run doc happy_path started in
  (isTransitioning started = true
   /\ opacity (overlay_style started) = "0"
   /\ transition (overlay_style started) = "opacity 500ms ease-in-out"
   /\ pointerEvents (overlay_style started) = "auto")
  /\ (opacity (overlay_style faded_in) = "1"
      /\ visible_theme faded_in = visible_theme st)
  /\ (opacity (overlay_style swapped) = "1"
      /\ visible_theme swapped = s
      /\ ClassList.contains "theme-transition-active" (body_classList swapped) = false)
  /\ trace final
     = trace st ++ happy_path_effects doc (visible_theme st) s (next_handle st)
  /\ isTransitioning final = false
  /\ opacity (overlay_style final) = "0"
  /\ pointerEvents (overlay_style final) = "none"
  /\ persisted final = Some (theme_str s)
  /\ visible_theme final = s
  /\ at_rest final.
Proof.
  intros Ho Hs Hm (Ht & Hf & Hl & Hr & Hts) Hv.
  cbn zeta. unfold happy_path, run. cbn [fold_left step].
  destruct st as [tr id cur store body sun moon aria style ls fs ts h c log0].
  simpl_state_in Ht. simpl_state_in Hf. simpl_state_in Hl.
  simpl_state_in Hr. simpl_state_in Hts. subst tr id ls fs ts.
  match goal with
  | |- context [applyTheme doc s false ?X] =>
      rewrite (applyTheme_starts doc Ho Hs Hm s X eq_refl Hv)
  end.
  unfold bookkeeping. rewrite (updateToggleButtonState_present doc Hs Hm).
  unfold cancel_pending_failsafe, addEventListener.
  norm_state. rewrite !app_nil_l.
  repeat forward doc Ho.
  unfold persisted, localStorage_getItem, visible_theme, at_rest.
  simpl_state.
  rewrite ?contains_remove_same,
    ?(contains_remove_other _ _ _ dark_mode_neq_active),
    ?contains_toggle_same, ?theme_of_flag.
  rewrite <- !app_assoc. cbn [app].
  rewrite lookup_insert_eq.
  repeat split.
Qed.

(** ** Calls that start no transition *)


(** C6. Same-theme apply.  With nothing missing, a non-initial
    [applyTheme s] with [s] the visible theme leaves the guard, the failsafe
    handle, the overlay style, its listeners, the frame callbacks, the
    timers and the body classes as they were, and does the bookkeeping: the
    setting is stored, the control shows it, and the store write is the only
    effect. *)
Theorem same_theme_apply (doc : Document) (st : State) (s : ThemeSetting) :
  themeOverlay doc = true -> sunIcon doc = true -> moonIcon doc = true ->
  visible_theme st = s ->
  let st' := applyTheme doc s false st in
  same_transition_state st st'
  /\ (isTransitioning st = false -> isTransitioning st' = false)
  /\ body_classList st' = body_classList st
  /\ trace st' = trace st ++ [StorageSetItem "themeSetting" (theme_str s)]
  /\ currentThemeSetting st' = s
  /\ persisted st' = Some (theme_str s)
  /\ toggle_shows s st'.
Proof.
  intros Ho Hs Hm Hv.
  destruct (call_without_transition doc Ho Hs Hm s st (or_intror Hv))
    as (Hsame & Hbody & Htr & Hc & Hp & Hsh).
  cbn zeta in *. split; [exact Hsame|].
  split; [destruct Hsame as [H _]; intros H0; congruence|].
  split; [exact Hbody|].
  split; [exact Htr|]. split; [exact Hc|]. split; [exact Hp | exact Hsh].
Qed.

(** *** The guard is cleared by phase 3 or by the failsafe only *)

Lemma isTransitioning_addEventListener (l : Listener) (st : State) :
  isTransitioning (addEventListener l st) = isTransitioning st.
Proof.
  unfold addEventListener.
  now destruct (existsb (same_callback l) (overlay_listeners st)).
Qed.

Lemma isTransitioning_updateToggleButtonState (doc : Document)
    (s : ThemeSetting) (st : State) :
  isTransitioning (updateToggleButtonState doc s st) = isTransitioning st.
Proof.
  unfold updateToggleButtonState.
  now destruct (negb (sunIcon doc) || negb (moonIcon doc)
                || negb (themeToggleButton doc)).
Qed.

Lemma applyTheme_keeps_guard (doc : Document) (s : ThemeSetting) (b : bool)
    (st : State) :
  isTransitioning st = true -> isTransitioning (applyTheme doc s b st) = true.
Proof.
  intros Ht. unfold applyTheme.
  destruct (negb (themeOverlay doc) || negb (sunIcon doc) || negb (moonIcon doc)).
  - destruct (themeToggleButton doc);
      rewrite ?isTransitioning_updateToggleButtonState; exact Ht.
  - destruct b.
    + simpl_state. rewrite isTransitioning_updateToggleButtonState. exact Ht.
    + rewrite isTransitioning_updateToggleButtonState. simpl_state.
      rewrite Ht. cbn [orb].
      rewrite isTransitioning_updateToggleButtonState. exact Ht.
Qed.

Lemma invoke_guard (doc : Document) (event : TransitionEvent) (st : State)
    (l : Listener) :
  isTransitioning (invoke doc event st l) = isTransitioning st
  \/ (target event = OverlayElement /\ propertyName event = "opacity"
      /\ handler l = Phase3End).
Proof.
  unfold invoke.
  destruct (existsb (same_callback l) (overlay_listeners st)); [|now left].
  set (st0 := if once l then removeEventListener l st else st).
  assert (H0 : isTransitioning st0 = isTransitioning st).
  { unfold st0. now destruct (once l). }
  rewrite <- H0. clearbody st0. clear H0.
  unfold call_listener. destruct (handler l) as [s bg | |].
  - left. unfold handlePhase1End.
    match goal with |- context [if ?c then _ else _] => destruct c end;
      [reflexivity|].
    now rewrite isTransitioning_addEventListener.
  - left. unfold handlePhase2End.
    match goal with |- context [if ?c then _ else _] => destruct c end;
      [reflexivity|].
    now rewrite isTransitioning_addEventListener.
  - unfold handlePhase3End.
    match goal with |- context [if ?c then _ else _] => destruct c eqn:E end;
      [now left|].
    right. apply orb_false_elim in E as [E _].
    apply orb_false_elim in E as [E1 E2].
    apply negb_false_iff, String.eqb_eq in E2.
    destruct (target event); try discriminate. auto.
Qed.

Lemma dispatch_guard (doc : Document) (event : TransitionEvent) (st : State) :
  isTransitioning (dispatch_transitionend doc event st) = isTransitioning st
  \/ (target event = OverlayElement /\ propertyName event = "opacity"
      /\ exists l, In l (overlay_listeners st) /\ handler l = Phase3End).
Proof.
  unfold dispatch_transitionend.
  assert (H : forall ls st0,
             isTransitioning (fold_left (invoke doc event) ls st0)
             = isTransitioning st0
             \/ (target event = OverlayElement /\ propertyName event = "opacity"
                 /\ exists l, In l ls /\ handler l = Phase3End)).
  { induction ls as [|l ls IH]; intros st0; cbn [fold_left]; [now left|].
    destruct (IH (invoke doc event st0 l)) as [E | (Ht & Hp & l' & Hin & Hh)].
    - rewrite E.
      destruct (invoke_guard doc event st0 l) as [E' | (Ht & Hp & Hh)];
        [now left|].
      right. repeat split; try assumption. exists l. split; [now left | exact Hh].
    - right. repeat split; try assumption. exists l'. split; [now right | exact Hh]. }
  destruct (target event) eqn:Et; [apply H | apply H | now left].
Qed.

Lemma animation_frame_guard (st : State) :
  isTransitioning (animation_frame st) = isTransitioning st.
Proof.
  unfold animation_frame.
  change (isTransitioning st) with (isTransitioning (set_frame_callbacks [] st)).
  generalize (set_frame_callbacks [] st) as st0.
  induction (frame_callbacks st) as [|cb cbs IH]; intros st0;
    cbn [fold_left]; [reflexivity|].
  rewrite IH. now destruct cb.
Qed.

Lemma timer_fires_absent (doc : Document) (h : positive) (st : State) :
  ~ In h (map handle (timers st)) -> timer_fires doc h st = st.
Proof.
  intros Hn. unfold timer_fires.
  destruct (List.find _ (timers st)) as [t|] eqn:E; [|reflexivity].
  apply find_some in E as [Hin He]. apply Pos.eqb_eq in He.
  exfalso. apply Hn. rewrite <- He. now apply in_map.
Qed.

(** Only the failsafe timer and the completion of phase 3 clear the guard. *)
Lemma guard_cleared_by (doc : Document) (st : State) (e : Event) :
  isTransitioning st = true ->
  isTransitioning (step doc st e) = false ->
  (exists h, e = TimerFires h /\ In h (map handle (timers st)))
  \/ (exists event l,
        e = TransitionEnd event
        /\ target event = OverlayElement /\ propertyName event = "opacity"
        /\ In l (overlay_listeners st) /\ handler l = Phase3End).
Proof.
  intros Ht Hf. destruct e as [| | event | h]; cbn [step] in Hf.
  - unfold toggle_click in Hf. destruct (themeToggleButton doc).
    + rewrite applyTheme_keeps_guard in Hf by exact Ht. discriminate.
    + congruence.
  - rewrite animation_frame_guard in Hf. congruence.
  - destruct (dispatch_guard doc event st) as [E | (H1 & H2 & l & H3 & H4)];
      [congruence|].
    right. exists event, l. auto.
  - left. exists h. split; [reflexivity|].
    destruct (in_dec Pos.eq_dec h (map handle (timers st))) as [Hin | Hn];
      [exact Hin|].
    rewrite (timer_fires_absent doc h st Hn) in Hf. congruence.
Qed.

(** C2. Mutual exclusion with bookkeeping.  With nothing missing, a
    non-initial [applyTheme s] made while the guard is true starts nothing:
    guard, failsafe handle, overlay style, listeners, frame callbacks,
    timers and body classes are unchanged and the store write is its only
    effect; yet the setting in memory, the stored value and the control all
    show [s].  After the call the guard stays true under every browser
    event except the failsafe timer firing or an opacity notification of
    the overlay reaching a phase-3 handler. *)
Theorem mutual_exclusion (doc : Document) (st : State) (s : ThemeSetting) :
  themeOverlay doc = true -> sunIcon doc = true -> moonIcon doc = true ->
  isTransitioning st = true ->
  let st' := applyTheme doc s false st in
  (currentThemeSetting st' = s
   /\ persisted st' = Some (theme_str s)
   /\ toggle_shows s st')
  /\ (same_transition_state st st'
      /\ isTransitioning st' = true
      /\ body_classList st' = body_classList st
      /\ trace st' = trace st ++ [StorageSetItem "themeSetting" (theme_str s)])
  /\ (forall e,
        isTransitioning (step doc st' e) = false ->
        (exists h, e = TimerFires h /\ In h (map handle (timers st)))
        \/ (exists event l,
              e = TransitionEnd event
              /\ target event = OverlayElement /\ propertyName event = "opacity"
              /\ In l (overlay_listeners st) /\ handler l = Phase3End)).
Proof.
  intros Ho Hs Hm Ht.
  destruct (call_without_transition doc Ho Hs Hm s st (or_introl Ht))
    as (Hsame & Hbody & Htr & Hc & Hp & Hsh).
  cbn zeta in *.
  assert (Ht' : isTransitioning (applyTheme doc s false st) = true).
  { destruct Hsame as [H _]. congruence. }
  split; [split; [exact Hc|]; split; [exact Hp | exact Hsh]|].
  split.
  { split; [exact Hsame|]. split; [exact Ht'|].
    split; [exact Hbody | exact Htr]. }
  intros e He.
  destruct Hsame as (_ & _ & _ & Hl & _ & Hts).
  rewrite <- Hl, <- Hts. apply (guard_cleared_by doc); assumption.
Qed.

(** ** The overlay or an icon is missing *)


(** What a call does when something is missing: lines 60 to 63. *)
Lemma applyTheme_degraded (doc : Document) (s : ThemeSetting) (b : bool)
    (st : State) :
  degraded doc ->
  applyTheme doc s b st =
  let st1 := setVisualThemeOnBody s
               (localStorage_setItem "themeSetting" (theme_str s)
                  (set_currentThemeSetting s st)) in
  if themeToggleButton doc then updateToggleButtonState doc s st1 else st1.
Proof.
  intros H. unfold applyTheme.
  assert (E : negb (themeOverlay doc) || negb (sunIcon doc) || negb (moonIcon doc)
              = true).
  { destruct H as [H | [H | H]]; rewrite H; cbn [negb orb];
      rewrite ?orb_true_r; reflexivity. }
  rewrite E. reflexivity.
Qed.

(** [updateToggleButtonState] changes the control and nothing else. *)
Lemma updateToggleButtonState_elsewhere (doc : Document) (s : ThemeSetting)
    (st : State) :
  let st' := updateToggleButtonState doc s st in
  currentThemeSetting st' = currentThemeSetting st
  /\ localStorage st' = localStorage st
  /\ body_classList st' = body_classList st
  /\ trace st' = trace st
  /\ same_transition_state st st'.
Proof.
  cbn zeta. unfold updateToggleButtonState, same_transition_state.
  destruct (negb (sunIcon doc) || negb (moonIcon doc)
            || negb (themeToggleButton doc)); repeat split.
Qed.

(** The fallback, the control apart. *)
Lemma degraded_call (doc : Document) (s : ThemeSetting) (b : bool) (st : State) :
  degraded doc ->
  let st' := applyTheme doc s b st in
  currentThemeSetting st' = s
  /\ persisted st' = Some (theme_str s)
  /\ visible_theme st' = s
  /\ same_transition_state st st'
  /\ trace st'
     = trace st ++ [ StorageSetItem "themeSetting" (theme_str s);
                     BodyClassToggle "dark-mode" (theme_eqb s dark) ].
Proof.
  intros Hd. cbn zeta. rewrite (applyTheme_degraded doc s b st Hd). cbn zeta.
  set (st1 := setVisualThemeOnBody s
                (localStorage_setItem "themeSetting" (theme_str s)
                   (set_currentThemeSetting s st))).
  assert (H1 : currentThemeSetting st1 = s) by reflexivity.
  assert (H2 : persisted st1 = Some (theme_str s)).
  { unfold persisted, st1. simpl_state. apply lookup_insert_eq. }
  assert (H3 : visible_theme st1 = s).
  { unfold visible_theme, st1. simpl_state. rewrite contains_toggle_same.
    apply theme_of_flag. }
  assert (H4 : same_transition_state st st1) by (repeat split).
  assert (H5 : trace st1
               = trace st ++ [ StorageSetItem "themeSetting" (theme_str s);
                               BodyClassToggle "dark-mode" (theme_eqb s dark) ]).
  { unfold st1. simpl_state. rewrite <- app_assoc. reflexivity. }
  clearbody st1.
  destruct (themeToggleButton doc); [|auto].
  destruct (updateToggleButtonState_elsewhere doc s st1)
    as (E1 & E2 & E3 & E4 & E5).
  cbn zeta in *.
  split; [congruence|].
  split; [unfold persisted, localStorage_getItem in *; now rewrite E2|].
  split; [unfold visible_theme in *; now rewrite E3|].
  split; [|congruence].
  destruct H4 as (A1 & A2 & A3 & A4 & A5 & A6).
  destruct E5 as (B1 & B2 & B3 & B4 & B5 & B6).
  repeat split; congruence.
Qed.



(** ** The failsafe timer *)

Lemma without_timer_gone (h : positive) (ts : list Timer) :
  ~ In h (map handle (without_timer h ts)).
Proof.
  unfold without_timer. intros Hin. apply in_map_iff in Hin as (t & He & Hin).
  apply filter_In in Hin as [_ Hne]. subst h.
  rewrite Pos.eqb_refl in Hne. discriminate.
Qed.

Lemma without_timer_all (h : positive) (ts : list Timer) :
  (forall t, In t ts -> handle t = h) -> without_timer h ts = [].
Proof.
  intros H. unfold without_timer. induction ts as [|t ts IH]; [reflexivity|].
  cbn [List.filter]. rewrite (H t) by now left. rewrite Pos.eqb_refl. cbn [negb].
  apply IH. intros t' Hin. apply H. now right.
Qed.

Lemma timers_addEventListener (l : Listener) (st : State) :
  timers (addEventListener l st) = timers st.
Proof.
  unfold addEventListener.
  now destruct (existsb (same_callback l) (overlay_listeners st)).
Qed.

Lemma failsafe_id_addEventListener (l : Listener) (st : State) :
  transitionFailsafeTimeoutId (addEventListener l st)
  = transitionFailsafeTimeoutId st.
Proof.
  unfold addEventListener.
  now destruct (existsb (same_callback l) (overlay_listeners st)).
Qed.

Section Failsafe.

Variable doc : Document.
Hypothesis overlay_present : themeOverlay doc = true.
Hypothesis sun_present : sunIcon doc = true.
Hypothesis moon_present : moonIcon doc = true.

(** Arming: a call that starts a transition cancels the failsafe it finds
    and sets one timer of 2200 ms. *)
Lemma failsafe_armed (s : ThemeSetting) (st : State) :
  isTransitioning st = false ->
  visible_theme st <> s ->
  let st' := applyTheme doc s false st in
  let armed := {| handle := next_handle st; delay := 2200; callback := failsafe |} in
  isTransitioning st' = true
  /\ transitionFailsafeTimeoutId st' = Some (next_handle st)
  /\ timers st'
     = match transitionFailsafeTimeoutId st with
       | Some h0 => without_timer h0 (timers st)
       | None => timers st
       end ++ [armed]
  /\ ((forall t, In t (timers st) ->
         transitionFailsafeTimeoutId st = Some (handle t)) ->
      timers st' = [armed]).
Proof using overlay_present sun_present moon_present.
  intros Ht Hv. cbn zeta.
  rewrite (applyTheme_starts doc overlay_present sun_present moon_present s st Ht Hv).
  rewrite isTransitioning_addEventListener, failsafe_id_addEventListener,
    timers_addEventListener.
  unfold cancel_pending_failsafe, bookkeeping.
  rewrite (updateToggleButtonState_present doc sun_present moon_present).
  simpl_state.
  split; [destruct (transitionFailsafeTimeoutId st); reflexivity|].
  split; [reflexivity|].
  destruct (transitionFailsafeTimeoutId st) as [h0|] eqn:Eid; simpl_state.
  - split; [reflexivity|]. intros Hall. fold (without_timer h0 (timers st)).
    rewrite without_timer_all; [reflexivity|].
    intros t Hin. specialize (Hall t Hin). congruence.
  - split; [reflexivity|]. intros Hall.
    destruct (timers st) as [|t ts]; [reflexivity|].
    specialize (Hall t (or_introl eq_refl)). discriminate Hall.
Qed.

(** Firing while the guard is true. *)
Lemma failsafe_fires (h : positive) (st : State) :
  isTransitioning st = true ->
  In h (map handle (timers st)) ->
  let st' := timer_fires doc h st in
  overlay_style st'
  = {| backgroundColor := backgroundColor (overlay_style st);
       opacity := "0"; transition := "none"; pointerEvents := "none" |}
  /\ isTransitioning st' = false
  /\ transitionFailsafeTimeoutId st' = None
  /\ ClassList.contains "theme-transition-active" (body_classList st') = false
  /\ visible_theme st' = currentThemeSetting st
  /\ currentThemeSetting st' = currentThemeSetting st
  /\ toggle_shows (currentThemeSetting st) st'
  /\ ~ In h (map handle (timers st')).
Proof using overlay_present sun_present moon_present.
  intros Ht Hin. cbn zeta. unfold timer_fires.
  destruct (List.find _ (timers st)) as [t|] eqn:Ef.
  2:{ exfalso. apply in_map_iff in Hin as (t & He & Hin).
      apply (find_none _ _ Ef) in Hin. cbn beta in Hin.
      rewrite He, Pos.eqb_refl in Hin. discriminate. }
  clear Ef. destruct (callback t). fold (without_timer h (timers st)).
  pose proof (without_timer_gone h (timers st)) as Hgone.
  unfold failsafeCallback, resetTransitionOverlay.
  rewrite overlay_present.
  rewrite (updateToggleButtonState_present doc sun_present moon_present).
  destruct st as [tr id cur store body sun moon aria style ls fs ts nh nc log0].
  simpl_state_in Ht. subst tr. simpl_state_in Hgone. simpl_state.
  assert (Hrest : forall h0, ~ In h (map handle (without_timer h0 (without_timer h ts)))).
  { intros h0 Hin'. apply Hgone. apply in_map_iff in Hin' as (t' & He & Hin').
    apply in_map_iff. exists t'. split; [exact He|].
    unfold without_timer in Hin'. apply filter_In in Hin'. tauto. }
  unfold visible_theme, toggle_shows.
  destruct id as [h0|]; simpl_state;
    rewrite (contains_remove_other _ _ _ dark_mode_neq_active);
    destruct (theme_eqb (if ClassList.contains "dark-mode" body then dark else light)
                cur) eqn:Ev;
    cbn [negb]; simpl_state;
    rewrite ?contains_toggle_same, ?theme_of_flag,
      ?(contains_toggle_other _ _ _ _ active_neq_dark_mode),
      ?(contains_remove_other _ _ _ dark_mode_neq_active),
      ?contains_remove_same;
    try (apply theme_eqb_eq in Ev);
    pose proof (icon_toggled (theme_eqb cur light) (negb (theme_eqb cur light)) sun)
      as [? ?];
    pose proof (icon_toggled (theme_eqb cur dark) (negb (theme_eqb cur dark)) moon)
      as [? ?];
    cbn zeta in *;
    repeat match goal with |- _ /\ _ => split end;
    try reflexivity; try assumption; try apply Hrest.
Qed.

(** A timer that fires while the guard is false changes nothing the page
    shows. *)
Lemma failsafe_fires_idle (h : positive) (st : State) :
  isTransitioning st = false ->
  let st' := timer_fires doc h st in
  isTransitioning st' = false
  /\ overlay_style st' = overlay_style st
  /\ body_classList st' = body_classList st
  /\ trace st' = trace st.
Proof.
  intros Ht. cbn zeta. unfold timer_fires.
  destruct (List.find _ (timers st)) as [t|]; [|now rewrite Ht].
  destruct (callback t). unfold failsafeCallback. simpl_state.
  rewrite Ht. simpl_state. now rewrite Ht.
Qed.

(** Natural completion: the handler of phase 3 cancels the pending timer. *)
Lemma completion_cancels_failsafe (c : nat) (event : TransitionEvent)
    (h : positive) (st : State) :
  target event = OverlayElement ->
  propertyName event = "opacity" ->
  js_gt (parseFloat (opacity (overlay_style st))) (js_of_N 0) = false ->
  transitionFailsafeTimeoutId st = Some h ->
  let st' := handlePhase3End doc c event st in
  isTransitioning st' = false
  /\ transitionFailsafeTimeoutId st' = None
  /\ timers st' = without_timer h (timers st)
  /\ ~ In h (map handle (timers st'))
  /\ pointerEvents (overlay_style st') = "none"
  /\ transition (overlay_style st') = "none"
  /\ opacity (overlay_style st') = "0".
Proof using overlay_present.
  intros Htg Hp Hop Hid. cbn zeta.
  rewrite (handlePhase3End_passes doc c event st Htg Hp Hop).
  unfold resetTransitionOverlay. rewrite overlay_present.
  simpl_state. rewrite Hid. simpl_state.
  fold (without_timer h (timers st)).
  repeat split. apply without_timer_gone.
Qed.

End Failsafe.

(** *** One failsafe at a time *)

Lemma one_failsafe_kept (st st' : State) :
  guard_kept st st' -> one_failsafe st -> one_failsafe st'.
Proof.
  intros (H1 & H2 & H3). unfold one_failsafe. now rewrite H1, H2, H3.
Qed.

Lemma same_transition_state_guard (st st' : State) :
  same_transition_state st st' -> guard_kept st st'.
Proof.
  intros (H1 & H2 & _ & _ & _ & H6). split; [exact H1|]. split; assumption.
Qed.

Lemma fold_left_invariant {A : Type} (P : State -> Prop)
    (f : State -> A -> State) (l : list A) :
  (forall x y, P x -> P (f x y)) ->
  forall st, P st -> P (fold_left f l st).
Proof.
  intros Hf. induction l as [|y l IH]; intros st H; cbn [fold_left]; auto.
Qed.

(** After [resetTransitionOverlay] no timer is pending, when the only one
    that was is the failsafe the script remembers. *)
Lemma resetTransitionOverlay_clears (doc : Document) (st : State) :
  timers st = []
  \/ (exists h ms, transitionFailsafeTimeoutId st = Some h
                   /\ timers st = [{| handle := h; delay := ms; callback := failsafe |}]) ->
  one_failsafe (resetTransitionOverlay doc st).
Proof.
  intros H. unfold one_failsafe, resetTransitionOverlay.
  destruct (themeOverlay doc); simpl_state;
    destruct (transitionFailsafeTimeoutId st) as [h0|] eqn:Eid; simpl_state;
    rewrite ?Eid; simpl_state;
    (split; [reflexivity|]);
    destruct H as [Hts | (h & ms & Hid & Hts)]; rewrite Hts;
    try reflexivity; try discriminate Hid;
    injection Hid as <-; apply cancel_only_timer.
Qed.

Lemma resetTransitionOverlay_one_failsafe (doc : Document) (st : State) :
  one_failsafe st -> one_failsafe (resetTransitionOverlay doc st).
Proof.
  intros H. apply resetTransitionOverlay_clears. unfold one_failsafe in H.
  destruct (transitionFailsafeTimeoutId st) as [h|]; destruct H as [_ Hts].
  - right. exists h, 2200%N. split; [reflexivity | exact Hts].
  - now left.
Qed.

Lemma handlePhase1End_guard (c : nat) (s : ThemeSetting) (bg : string)
    (event : TransitionEvent) (st : State) :
  guard_kept st (handlePhase1End c s bg event st).
Proof.
  unfold handlePhase1End, addEventListener, guard_kept.
  match goal with |- context [if ?b then st else _] => destruct b end;
    [repeat split|].
  cbn zeta.
  match goal with |- context [if ?b then _ else _] => destruct b end;
    repeat split.
Qed.

Lemma handlePhase2End_guard (c : nat) (event : TransitionEvent) (st : State) :
  guard_kept st (handlePhase2End c event st).
Proof.
  unfold handlePhase2End, addEventListener, guard_kept.
  match goal with |- context [if ?b then st else _] => destruct b end;
    [repeat split|].
  cbn zeta.
  match goal with |- context [if ?b then _ else _] => destruct b end;
    repeat split.
Qed.

Lemma invoke_one_failsafe (doc : Document) (event : TransitionEvent)
    (st : State) (l : Listener) :
  one_failsafe st -> one_failsafe (invoke doc event st l).
Proof.
  intros H. unfold invoke.
  destruct (existsb (same_callback l) (overlay_listeners st)); [|exact H].
  assert (H0 : one_failsafe (if once l then removeEventListener l st else st)).
  { destruct (once l); [|exact H].
    apply (one_failsafe_kept st); [repeat split | exact H]. }
  revert H0. generalize (if once l then removeEventListener l st else st).
  intros st0 H0. unfold call_listener. destruct (handler l) as [s bg | |].
  - apply (one_failsafe_kept st0); [apply handlePhase1End_guard | exact H0].
  - apply (one_failsafe_kept st0); [apply handlePhase2End_guard | exact H0].
  - unfold handlePhase3End.
    match goal with |- context [if ?b then _ else _] => destruct b end;
      [exact H0 | now apply resetTransitionOverlay_one_failsafe].
Qed.

Lemma timer_fires_one_failsafe (doc : Document) (h : positive) (st : State) :
  one_failsafe st -> one_failsafe (timer_fires doc h st).
Proof.
  intros H. unfold timer_fires.
  destruct (List.find _ (timers st)) as [t|] eqn:Ef; [|exact H].
  apply find_some in Ef as [Hin Heq]. apply Pos.eqb_eq in Heq.
  unfold one_failsafe in H.
  destruct (transitionFailsafeTimeoutId st) as [h0|] eqn:Eid;
    destruct H as [Ht Hts]; rewrite Hts in *; [|destruct Hin].
  destruct Hin as [<- | []]. cbn [handle] in Heq. subst h0.
  destruct (callback _). unfold failsafeCallback. simpl_state. rewrite Ht.
  cbn zeta.
  match goal with
  | |- one_failsafe (updateToggleButtonState doc ?s ?x) =>
      apply (one_failsafe_kept x);
        [apply same_transition_state_guard;
         apply (updateToggleButtonState_elsewhere doc s x)|]
  end.
  match goal with
  | |- one_failsafe (if ?b then setVisualThemeOnBody ?t ?x else _) =>
      apply (one_failsafe_kept x); [destruct b; repeat split|]
  end.
  apply resetTransitionOverlay_clears. left. simpl_state.
  apply cancel_only_timer.
Qed.

Lemma applyTheme_one_failsafe (doc : Document) (s : ThemeSetting) (b : bool)
    (st : State) :
  one_failsafe st -> one_failsafe (applyTheme doc s b st).
Proof.
  intros H.
  destruct (themeOverlay doc) eqn:Ho;
    [destruct (sunIcon doc) eqn:Hs; [destruct (moonIcon doc) eqn:Hm|]|].
  2:{ apply (one_failsafe_kept st); [|exact H].
      apply same_transition_state_guard.
      apply (degraded_call doc s b st). right. now right. }
  2:{ apply (one_failsafe_kept st); [|exact H].
      apply same_transition_state_guard.
      apply (degraded_call doc s b st). right. now left. }
  2:{ apply (one_failsafe_kept st); [|exact H].
      apply same_transition_state_guard.
      apply (degraded_call doc s b st). now left. }
  destruct b.
  - rewrite (applyTheme_initial doc Ho Hs Hm).
    apply (one_failsafe_kept st); [|exact H].
    destruct (bookkeeping_same_transition_state doc Hs Hm s st)
      as (H1 & H2 & _ & _ & _ & H6).
    split; [exact H1|]. split; [exact H2 | exact H6].
  - destruct (isTransitioning st) eqn:Ht.
    + apply (one_failsafe_kept st); [|exact H].
      apply same_transition_state_guard.
      apply (call_without_transition doc Ho Hs Hm s st). now left.
    + destruct (theme_eqb (visible_theme st) s) eqn:Ev.
      * apply theme_eqb_eq in Ev.
        apply (one_failsafe_kept st); [|exact H].
        apply same_transition_state_guard.
        apply (call_without_transition doc Ho Hs Hm s st). now right.
      * assert (Hv : visible_theme st <> s).
        { intros E. apply theme_eqb_eq in E. congruence. }
        destruct (failsafe_armed doc Ho Hs Hm s st Ht Hv) as (G & Hid & Hts & _).
        cbn zeta in *. unfold one_failsafe in *. rewrite Hid.
        split; [exact G|]. rewrite Hts.
        destruct (transitionFailsafeTimeoutId st);
          destruct H as [Ht0 Hts0]; [congruence|].
        now rewrite Hts0.
Qed.

Lemma step_one_failsafe (doc : Document) (st : State) (e : Event) :
  one_failsafe st -> one_failsafe (step doc st e).
Proof.
  intros H. destruct e as [| | event | h]; cbn [step].
  - unfold toggle_click. destruct (themeToggleButton doc); [|exact H].
    now apply applyTheme_one_failsafe.
  - unfold animation_frame. apply fold_left_invariant.
    + intros x cb Hx. apply (one_failsafe_kept x); [|exact Hx].
      destruct cb; repeat split.
    + apply (one_failsafe_kept st); [repeat split | exact H].
  - unfold dispatch_transitionend.
    destruct (target event); try exact H;
      apply fold_left_invariant; try exact H;
      intros x l; apply invoke_one_failsafe.
  - now apply timer_fires_one_failsafe.
Qed.

Lemma initComponents_one_failsafe (doc : Document) (st : State) :
  one_failsafe st -> one_failsafe (initComponents doc st).
Proof.
  intros H. unfold initComponents. cbn zeta.
  apply applyTheme_one_failsafe.
  apply (one_failsafe_kept st); [|exact H].
  destruct (bool_decide _); [repeat split|].
  destruct (negb _); repeat split.
Qed.

(** From the moment the page is initialised, at most one timer is pending,
    and one is pending exactly while the guard is true. *)
Lemma one_failsafe_always (doc : Document) (events : list Event) (st0 : State) :
  one_failsafe st0 -> one_failsafe (run doc events (initComponents doc st0)).
Proof.
  intros H. unfold run. apply fold_left_invariant.
  - intros x e. apply step_one_failsafe.
  - now apply initComponents_one_failsafe.
Qed.

(** C3. Failsafe recovery.  With nothing missing: a non-initial call that
    changes the visible theme sets the guard, cancels the failsafe it finds
    pending and arms one timer of 2200 ms (500 + 700 + 500 + 500), the only
    one when no other timer was pending; from initialisation on, under any
    events, a timer is pending exactly while the guard is true and there is
    never a second one.  When the timer fires with the guard still true the
    overlay gets pointer-events 'none', transition 'none' and opacity '0',
    the guard is cleared, the marker class is off the body, the body shows
    the current setting, the control shows it, and the timer is gone; with
    the guard false it changes nothing.  The handler of phase 3 cancels the
    pending timer when the transition completes by itself. *)
Theorem failsafe_recovery (doc : Document) :
  themeOverlay doc = true -> sunIcon doc = true -> moonIcon doc = true ->
  failsafeDuration
  = (phase1Duration + phase2Duration + phase3Duration + 500)%N
  /\ failsafeDuration = 2200%N
  /\ (forall s st,
        isTransitioning st = false ->
        visible_theme st <> s ->
        let st' := applyTheme doc s false st in
        let armed := {| handle := next_handle st; delay := 2200;
                        callback := failsafe |} in
        isTransitioning st' = true
        /\ transitionFailsafeTimeoutId st' = Some (next_handle st)
        /\ timers st'
           = match transitionFailsafeTimeoutId st with
             | Some h0 => without_timer h0 (timers st)
             | None => timers st
             end ++ [armed]
        /\ ((forall t, In t (timers st) ->
               transitionFailsafeTimeoutId st = Some (handle t)) ->
            timers st' = [armed]))
  /\ (forall events st0,
        one_failsafe st0 ->
        one_failsafe (run doc events (initComponents doc st0)))
  /\ (forall h st,
        isTransitioning st = true ->
        In h (map handle (timers st)) ->
        let st' := timer_fires doc h st in
        overlay_style st'
        = {| backgroundColor := backgroundColor (overlay_style st);
             opacity := "0"; transition := "none"; pointerEvents := "none" |}
        /\ isTransitioning st' = false
        /\ transitionFailsafeTimeoutId st' = None
        /\ ClassList.contains "theme-transition-active" (body_classList st') = false
        /\ visible_theme st' = currentThemeSetting st
        /\ currentThemeSetting st' = currentThemeSetting st
        /\ toggle_shows (currentThemeSetting st) st'
        /\ ~ In h (map handle (timers st')))
  /\ (forall h st,
        isTransitioning st = false ->
        let st' := timer_fires doc h st in
        isTransitioning st' = false
        /\ overlay_style st' = overlay_style st
        /\ body_classList st' = body_classList st
        /\ trace st' = trace st)
  /\ (forall c event h st,
        target event = OverlayElement ->
        propertyName event = "opacity" ->
        js_gt (parseFloat (opacity (overlay_style st))) (js_of_N 0) = false ->
        transitionFailsafeTimeoutId st = Some h ->
        let st' := handlePhase3End doc c event st in
        isTransitioning st' = false
        /\ transitionFailsafeTimeoutId st' = None
        /\ timers st' = without_timer h (timers st)
        /\ ~ In h (map handle (timers st'))
        /\ pointerEvents (overlay_style st') = "none"
        /\ transition (overlay_style st') = "none"
        /\ opacity (overlay_style st') = "0").
Proof.
  intros Ho Hs Hm.
  split; [reflexivity|]. split; [reflexivity|].
  split; [intros s st; apply (failsafe_armed doc Ho Hs Hm)|].
  split; [intros events st0; apply one_failsafe_always|].
  split; [intros h st; apply (failsafe_fires doc Ho Hs Hm)|].
  split; [intros h st; apply failsafe_fires_idle|].
  intros c event h st. apply (completion_cancels_failsafe doc Ho).
Qed.

(** ** Notifications a phase handler does not accept *)

Lemma call_listener_rejected (doc : Document) (l : Listener)
    (event : TransitionEvent) (st : State) :
  rejects (handler l) event st = true -> call_listener doc l event st = st.
Proof.
  unfold rejects, call_listener.
  destruct (handler l); intros H;
    unfold handlePhase1End, handlePhase2End, handlePhase3End;
    rewrite H; reflexivity.
Qed.

(** A rejected notification that reaches the overlay still uses up the
    [once] listener: the handler is gone, and no later notification finds
    anything to call. *)
Lemma rejected_event_disarms (doc : Document) (l : Listener)
    (event : TransitionEvent) (st : State) :
  overlay_listeners st = [l] ->
  once l = true ->
  target event <> OtherElement ->
  rejects (handler l) event st = true ->
  let st' := dispatch_transitionend doc event st in
  st' = set_overlay_listeners [] st
  /\ forall later, dispatch_transitionend doc later st' = st'.
Proof.
  intros Hl Ho Ht Hr. cbn zeta.
  rewrite (dispatch_single doc l event st Hl Ho Ht).
  rewrite call_listener_rejected by exact Hr.
  split; [reflexivity|].
  intros later. now apply dispatch_none.
Qed.

(** A notification fired elsewhere in the page does not reach the
    overlay: the handler stays. *)
Lemma unrelated_event_ignored (doc : Document) (event : TransitionEvent)
    (st : State) :
  target event = OtherElement -> dispatch_transitionend doc event st = st.
Proof.
  intros H. unfold dispatch_transitionend. now rewrite H.
Qed.

(** C4, at the failing input.  Light page, [applyTheme dark]; during phase
    1 a [background-color] notification of the overlay arrives.  The handler
    of phase 1 returns without doing anything, but it is no longer
    registered: the genuine [opacity] notification that follows changes
    nothing, the body stays light and the guard stays true, where without
    the stray notification the body would have turned dark. *)
Theorem stray_event_stalls_transition :
  let fading_in :=
    run complete_doc [AnimationFrame] (applyTheme complete_doc dark false quiet_light_page) in
  let after_stray :=
    run complete_doc [TransitionEnd stray_background_color_end] fading_in in
  let after_genuine :=
    run complete_doc [TransitionEnd opacity_end] after_stray in
  overlay_listeners fading_in = [listener 0 (Phase1End dark "#1A1625")]
  /\ overlay_listeners after_stray = []
  /\ after_stray = set_overlay_listeners [] fading_in
  /\ after_genuine = after_stray
  /\ visible_theme after_genuine = light
  /\ isTransitioning after_genuine = true
  /\ visible_theme (run complete_doc [TransitionEnd opacity_end] fading_in) = dark.
Proof.
  vm_compute. repeat split.
Qed.

(** ** A second call during a transition *)

Lemma quiet_step (doc : Document) (st : State) (e : Event) :
  overlay_listeners st = [] -> frame_callbacks st = [] -> timers st = [] ->
  e <> ToggleClick ->
  step doc st e = st.
Proof.
  intros Hl Hf Ht He. destruct e as [| | event | h]; cbn [step].
  - congruence.
  - now apply frame_none.
  - now apply dispatch_none.
  - apply timer_fires_absent. rewrite Ht. intros [].
Qed.

(** [inflight] computes a call made while the guard is true. *)
Ltac inflight doc Ho Hs Hm :=
  match goal with
  | |- context [applyTheme doc ?s false ?X] =>
      is_record X;
      rewrite (applyTheme_no_transition doc Ho Hs Hm s X (or_introl eq_refl));
      unfold bookkeeping;
      rewrite (updateToggleButtonState_present doc Hs Hm);
      norm_state
  end.

Lemma other_theme_neq (s1 s2 : ThemeSetting) :
  s1 <> s2 -> (if theme_eqb s2 light then dark else light) = s1.
Proof. destruct s1, s2; cbn; congruence. Qed.

(** The state a transition to [s1] ends in when [applyTheme s2] was called
    after [k] of its six events. *)
Lemma interrupted_transition_ends (doc : Document) (st : State)
    (s1 s2 : ThemeSetting) (k : nat) :
  themeOverlay doc = true -> sunIcon doc = true -> moonIcon doc = true ->
  at_rest st ->
  visible_theme st <> s1 ->
  (k < 6)%nat ->
  let final :=
    run doc (skipn k happy_path)
      (applyTheme doc s2 false
         (run doc (firstn k happy_path) (applyTheme doc s1 false st))) in
  isTransitioning (run doc (firstn k happy_path) (applyTheme doc s1 false st)) = true
  /\ at_rest final
  /\ visible_theme final = s1
  /\ currentThemeSetting final = s2
  /\ persisted final = Some (theme_str s2)
  /\ toggle_shows s2 final.
Proof.
  intros Ho Hs Hm (Ht & Hf & Hl & Hr & Hts) Hv Hk.
  destruct st as [tr id cur store body sun moon aria style ls fs ts h c log0].
  simpl_state_in Ht. simpl_state_in Hf. simpl_state_in Hl.
  simpl_state_in Hr. simpl_state_in Hts. subst tr id ls fs ts.
  assert (Hcases : k = 0 \/ k = 1 \/ k = 2 \/ k = 3 \/ k = 4 \/ k = 5) by lia.
  clear Hk.
  destruct Hcases as [-> | [-> | [-> | [-> | [-> | ->]]]]];
    cbn zeta; unfold happy_path, run;
    cbn [firstn skipn fold_left step];
    match goal with
    | |- context [applyTheme doc s1 false ?X] =>
        is_record X;
        rewrite (applyTheme_starts doc Ho Hs Hm s1 X eq_refl Hv)
    end;
    unfold bookkeeping; rewrite (updateToggleButtonState_present doc Hs Hm);
    unfold cancel_pending_failsafe, addEventListener;
    norm_state; rewrite !app_nil_l;
    repeat first [forward doc Ho | inflight doc Ho Hs Hm];
    unfold persisted, localStorage_getItem, visible_theme, at_rest, toggle_shows;
    simpl_state;
    rewrite ?contains_remove_same,
      ?(contains_remove_other _ _ _ dark_mode_neq_active),
      ?contains_toggle_same, ?theme_of_flag, ?lookup_insert_eq;
    pose proof (icon_toggled (theme_eqb s2 light) (negb (theme_eqb s2 light))
         (ClassList.toggle "inactive" (negb (theme_eqb s1 light))
            (ClassList.toggle "active" (theme_eqb s1 light) sun))) as [? ?];
    pose proof (icon_toggled (theme_eqb s2 dark) (negb (theme_eqb s2 dark))
         (ClassList.toggle "inactive" (negb (theme_eqb s1 dark))
            (ClassList.toggle "active" (theme_eqb s1 dark) moon))) as [? ?];
    cbn zeta in *;
    repeat match goal with |- _ /\ _ => split end;
    try reflexivity; assumption.
Qed.

(** C9. A second call during a transition.  Page at rest showing [s2],
    nothing missing; [applyTheme s1] starts a transition and, after [k] of
    its six events, [applyTheme s2] is called.  That call comes while the
    guard is true: it stores [s2] and updates the control but starts
    nothing.  When the transition has run to its end the failsafe is
    cancelled and the page is at rest with the body showing [s1] while the
    setting in memory, the stored value and the control show [s2].  No
    frame, notification or timer changes this state; the next click on the
    toggle asks for [s1] again, which the body already shows, so it only
    stores [s1] and updates the control. *)
Theorem interrupted_transition_desync (doc : Document) (st : State)
    (s1 s2 : ThemeSetting) (k : nat) :
  themeOverlay doc = true -> sunIcon doc = true -> moonIcon doc = true ->
  at_rest st ->
  visible_theme st = s2 ->
  s1 <> s2 ->
  (k < 6)%nat ->
  let in_flight := run doc (firstn k happy_path) (applyTheme doc s1 false st) in
  let interrupted := applyTheme doc s2 false in_flight in
  let final := run doc (skipn k happy_path) interrupted in
  let next := step doc final ToggleClick in
  (isTransitioning in_flight = true
   /\ same_transition_state in_flight interrupted
   /\ persisted interrupted = Some (theme_str s2)
   /\ toggle_shows s2 interrupted)
  /\ (isTransitioning final = false
      /\ transitionFailsafeTimeoutId final = None
      /\ timers final = []
      /\ visible_theme final = s1
      /\ currentThemeSetting final = s2
      /\ persisted final = Some (theme_str s2)
      /\ toggle_shows s2 final)
  /\ (forall e, e <> ToggleClick -> step doc final e = final)
  /\ (visible_theme next = s1
      /\ persisted next = Some (theme_str s1)
      /\ toggle_shows s1 next
      /\ isTransitioning next = false).
Proof.
  intros Ho Hs Hm Hrest Hv Hne Hk.
  assert (Hv1 : visible_theme st <> s1) by congruence.
  destruct (interrupted_transition_ends doc st s1 s2 k Ho Hs Hm Hrest Hv1 Hk)
    as (Hflight & (Ht & Hid & Hl & Hf & Hts) & Hvis & Hcur & Hper & Hshow).
  cbn zeta in *.
  set (in_flight := run doc (firstn k happy_path) (applyTheme doc s1 false st)) in *.
  set (final := run doc (skipn k happy_path) (applyTheme doc s2 false in_flight)) in *.
  destruct (call_without_transition doc Ho Hs Hm s2 in_flight (or_introl Hflight))
    as (Hsame & _ & _ & _ & Hp2 & Hs2).
  cbn zeta in *.
  split.
  { split; [exact Hflight|]. split; [exact Hsame|].
    split; [exact Hp2 | exact Hs2]. }
  split.
  { split; [exact Ht|]. split; [exact Hid|]. split; [exact Hts|].
    split; [exact Hvis|]. split; [exact Hcur|].
    split; [exact Hper | exact Hshow]. }
  split; [intros e He; now apply quiet_step|].
  cbn [step]. unfold toggle_click.
  rewrite (button_present doc Hs), Hcur, (other_theme_neq s1 s2 Hne).
  destruct (call_without_transition doc Ho Hs Hm s1 final (or_intror Hvis))
    as ((Ht' & _) & Hbody & _ & _ & Hp1 & Hs1).
  cbn zeta in *.
  split; [unfold visible_theme in *; rewrite Hbody; exact Hvis|].
  split; [exact Hp1|]. split; [exact Hs1|]. congruence.
Qed.

(** ** What is written to the store *)

Lemma writes_valid_refl (st : State) : writes_valid st st.
Proof.
  split; [|now left]. exists []. split; [now rewrite app_nil_r | constructor].
Qed.

Lemma writes_valid_trans (a b c : State) :
  writes_valid a b -> writes_valid b c -> writes_valid a c.
Proof.
  intros [(t1 & E1 & F1) P1] [(t2 & E2 & F2) P2]. split.
  - exists (t1 ++ t2). split.
    + now rewrite E2, E1, app_assoc.
    + apply Forall_app. now split.
  - destruct P2 as [P2 | P2]; [|now right].
    destruct P1 as [P1 | P1]; [left; congruence|].
    right. unfold valid_store in *. now rewrite P2.
Qed.

(** A field other than the log and the store was set. *)
Lemma writes_valid_same (a b c : State) :
  trace c = trace b -> localStorage c = localStorage b ->
  writes_valid a b -> writes_valid a c.
Proof.
  intros Ht Hs H. apply (writes_valid_trans a b c H).
  split.
  - exists []. split; [now rewrite app_nil_r | constructor].
  - left. unfold persisted, localStorage_getItem. now rewrite Hs.
Qed.

Lemma writes_valid_log (e : Effect) (a b : State) :
  valid_write e -> writes_valid a b -> writes_valid a (log e b).
Proof.
  intros He H. apply (writes_valid_trans a b _ H). split.
  - exists [e]. split; [reflexivity | now constructor].
  - now left.
Qed.

Lemma writes_valid_setItem (s : ThemeSetting) (a b : State) :
  writes_valid a b ->
  writes_valid a (localStorage_setItem "themeSetting" (theme_str s) b).
Proof.
  intros H. apply (writes_valid_trans a b _ H).
  assert (Hv : theme_str s = "light" \/ theme_str s = "dark")
    by (destruct s; auto).
  split.
  - eexists [_]. split; [reflexivity|]. constructor; [|constructor].
    split; [reflexivity | exact Hv].
  - right. unfold valid_store. rewrite persisted_setItem.
    destruct Hv as [-> | ->]; auto.
Qed.

Lemma writes_valid_after (f : State -> State) (a b : State) :
  (forall x, writes_valid x (f x)) -> writes_valid a b -> writes_valid a (f b).
Proof.
  intros Hf H. exact (writes_valid_trans a b (f b) H (Hf b)).
Qed.

Lemma writes_valid_fold {A : Type} (f : State -> A -> State) (l : list A) :
  (forall x y, writes_valid x (f x y)) ->
  forall st, writes_valid st (fold_left f l st).
Proof.
  intros Hf. induction l as [|y l IH]; intros st; cbn [fold_left].
  - apply writes_valid_refl.
  - exact (writes_valid_trans _ _ _ (Hf st y) (IH (f st y))).
Qed.

Create HintDb writes discriminated.

(** The operations that leave the log and the store alone. *)
Ltac is_plain_setter f :=
  lazymatch f with
  | set_isTransitioning _ => idtac
  | set_transitionFailsafeTimeoutId _ => idtac
  | set_currentThemeSetting _ => idtac
  | set_body_classList _ => idtac
  | set_sun_classList _ => idtac
  | set_moon_classList _ => idtac
  | set_toggle_ariaLabel _ => idtac
  | set_overlay_style _ => idtac
  | set_overlay_listeners _ => idtac
  | set_frame_callbacks _ => idtac
  | set_timers _ => idtac
  | set_next_handle _ => idtac
  | set_next_closure _ => idtac
  end.

(** Takes the outermost operation off the state reached. *)
Ltac peel :=
  lazymatch goal with
  | |- writes_valid ?a ?a => apply writes_valid_refl
  | |- writes_valid _ (if ?c then _ else _) => destruct c
  | |- writes_valid _ (match ?x with Some _ => _ | None => _ end) => destruct x
  | |- writes_valid _ (log _ _) => apply writes_valid_log; [exact I|]
  | |- writes_valid _ (localStorage_setItem "themeSetting" (theme_str _) _) =>
      apply writes_valid_setItem
  | |- writes_valid _ (?f ?b) =>
      first [ is_plain_setter f;
              apply (writes_valid_same _ b); [reflexivity | reflexivity |]
            | apply (writes_valid_after f); [solve [auto with writes]|] ]
  end.

Ltac peel_all := repeat peel.

Lemma primitive_writes :
  (forall c f x, writes_valid x (body_classList_toggle c f x))
  /\ (forall c x, writes_valid x (body_classList_add c x))
  /\ (forall c x, writes_valid x (body_classList_remove c x))
  /\ (forall x, writes_valid x (body_offsetHeight x))
  /\ (forall v x, writes_valid x (overlay_set_backgroundColor v x))
  /\ (forall v x, writes_valid x (overlay_set_opacity v x))
  /\ (forall v x, writes_valid x (overlay_set_transition v x))
  /\ (forall v x, writes_valid x (overlay_set_pointerEvents v x))
  /\ (forall cb x, writes_valid x (requestAnimationFrame cb x))
  /\ (forall h x, writes_valid x (clearTimeout h x))
  /\ (forall m x, writes_valid x (console_warn m x))
  /\ (forall t x, writes_valid x (setVisualThemeOnBody t x))
  /\ (forall cb ms x, writes_valid x (snd (setTimeout cb ms x))).
Proof.
  repeat match goal with |- _ /\ _ => split end; intros;
    unfold body_classList_toggle, body_classList_add, body_classList_remove,
      body_offsetHeight, overlay_set_backgroundColor, overlay_set_opacity,
      overlay_set_transition, overlay_set_pointerEvents, requestAnimationFrame,
      clearTimeout, console_warn, setVisualThemeOnBody, body_classList_toggle,
      setTimeout;
    cbn beta iota zeta delta [snd]; peel_all.
Qed.

Lemma body_classList_toggle_writes c f x :
  writes_valid x (body_classList_toggle c f x).
Proof. apply primitive_writes. Qed.
Lemma body_classList_add_writes c x : writes_valid x (body_classList_add c x).
Proof. apply primitive_writes. Qed.
Lemma body_classList_remove_writes c x :
  writes_valid x (body_classList_remove c x).
Proof. apply primitive_writes. Qed.
Lemma body_offsetHeight_writes x : writes_valid x (body_offsetHeight x).
Proof. apply primitive_writes. Qed.
Lemma overlay_set_backgroundColor_writes v x :
  writes_valid x (overlay_set_backgroundColor v x).
Proof. apply primitive_writes. Qed.
Lemma overlay_set_opacity_writes v x : writes_valid x (overlay_set_opacity v x).
Proof. apply primitive_writes. Qed.
Lemma overlay_set_transition_writes v x :
  writes_valid x (overlay_set_transition v x).
Proof. apply primitive_writes. Qed.
Lemma overlay_set_pointerEvents_writes v x :
  writes_valid x (overlay_set_pointerEvents v x).
Proof. apply primitive_writes. Qed.
Lemma requestAnimationFrame_writes cb x :
  writes_valid x (requestAnimationFrame cb x).
Proof. apply primitive_writes. Qed.
Lemma clearTimeout_writes h x : writes_valid x (clearTimeout h x).
Proof. apply primitive_writes. Qed.
Lemma console_warn_writes m x : writes_valid x (console_warn m x).
Proof. apply primitive_writes. Qed.
Lemma setVisualThemeOnBody_writes t x :
  writes_valid x (setVisualThemeOnBody t x).
Proof. apply primitive_writes. Qed.
Lemma setTimeout_writes cb ms x : writes_valid x (snd (setTimeout cb ms x)).
Proof. apply primitive_writes. Qed.

#[local] Hint Resolve body_classList_toggle_writes body_classList_add_writes
  body_classList_remove_writes body_offsetHeight_writes
  overlay_set_backgroundColor_writes overlay_set_opacity_writes
  overlay_set_transition_writes overlay_set_pointerEvents_writes
  requestAnimationFrame_writes clearTimeout_writes console_warn_writes
  setVisualThemeOnBody_writes : writes.

Lemma updateToggleButtonState_writes (doc : Document) (s : ThemeSetting)
    (st : State) :
  writes_valid st (updateToggleButtonState doc s st).
Proof. unfold updateToggleButtonState. peel_all. Qed.

#[local] Hint Resolve updateToggleButtonState_writes : writes.

Lemma addEventListener_writes (l : Listener) (st : State) :
  writes_valid st (addEventListener l st).
Proof. unfold addEventListener. peel_all. Qed.

Lemma removeEventListener_writes (l : Listener) (st : State) :
  writes_valid st (removeEventListener l st).
Proof. unfold removeEventListener. peel_all. Qed.

#[local] Hint Resolve addEventListener_writes removeEventListener_writes : writes.

Lemma resetTransitionOverlay_writes (doc : Document) (st : State) :
  writes_valid st (resetTransitionOverlay doc st).
Proof. unfold resetTransitionOverlay. cbn zeta. peel_all. Qed.

#[local] Hint Resolve resetTransitionOverlay_writes : writes.

Lemma failsafeCallback_writes (doc : Document) (st : State) :
  writes_valid st (failsafeCallback doc st).
Proof. unfold failsafeCallback. cbn zeta. peel_all. Qed.

Lemma call_listener_writes (doc : Document) (l : Listener)
    (event : TransitionEvent) (st : State) :
  writes_valid st (call_listener doc l event st).
Proof.
  unfold call_listener, handlePhase1End, handlePhase2End, handlePhase3End.
  destruct (handler l); cbn zeta; peel_all.
Qed.

Lemma applyTheme_writes (doc : Document) (s : ThemeSetting) (b : bool)
    (st : State) :
  writes_valid st (applyTheme doc s b st).
Proof.
  unfold applyTheme. cbn zeta.
  repeat first
    [ peel
    | match goal with
      | |- writes_valid _ (let '(h, st1) := setTimeout ?cb ?ms ?b in _) =>
          rewrite (surjective_pairing (setTimeout cb ms b)); cbn beta iota;
          change (fst (setTimeout cb ms b)) with (next_handle b)
      | |- writes_valid _ (snd (setTimeout ?cb ?ms ?b)) =>
          apply (writes_valid_trans _ b); [|apply setTimeout_writes]
      end ].
Qed.

Lemma step_writes (doc : Document) (st : State) (e : Event) :
  writes_valid st (step doc st e).
Proof.
  destruct e as [| | event | h]; cbn [step].
  - unfold toggle_click. destruct (themeToggleButton doc).
    + apply applyTheme_writes.
    + apply writes_valid_refl.
  - unfold animation_frame.
    apply (writes_valid_trans _ (set_frame_callbacks [] st));
      [apply (writes_valid_same _ st); [reflexivity | reflexivity |];
       apply writes_valid_refl|].
    apply writes_valid_fold. intros x cb. destruct cb; cbn [run_frame_callback]; peel_all.
  - unfold dispatch_transitionend.
    assert (H : writes_valid st
                  (fold_left (invoke doc event) (overlay_listeners st) st)).
    { apply writes_valid_fold. intros x l. unfold invoke.
      destruct (existsb (same_callback l) (overlay_listeners x));
        [|apply writes_valid_refl].
      apply (writes_valid_trans _ (if once l then removeEventListener l x else x)).
      - destruct (once l); [apply removeEventListener_writes
                           | apply writes_valid_refl].
      - apply call_listener_writes. }
    destruct (target event); [exact H | exact H | apply writes_valid_refl].
  - unfold timer_fires. destruct (List.find _ (timers st)) as [t|];
      [|apply writes_valid_refl].
    destruct (callback t).
    eapply writes_valid_trans; [|apply failsafeCallback_writes].
    apply (writes_valid_same _ st); [reflexivity | reflexivity |].
    apply writes_valid_refl.
Qed.

Lemma run_writes (doc : Document) (events : list Event) (st : State) :
  writes_valid st (run doc events st).
Proof.
  unfold run. apply writes_valid_fold. intros x e. apply step_writes.
Qed.

(** What an initial call does, whatever is in the page. *)
Lemma initial_call (doc : Document) (s : ThemeSetting) (st : State) :
  let st' := applyTheme doc s true st in
  currentThemeSetting st' = s
  /\ persisted st' = Some (theme_str s)
  /\ visible_theme st' = s
  /\ trace st'
     = trace st ++ [ StorageSetItem "themeSetting" (theme_str s);
                     BodyClassToggle "dark-mode" (theme_eqb s dark) ].
Proof.
  cbn zeta.
  assert (Hcases : degraded doc
                   \/ (themeOverlay doc = true /\ sunIcon doc = true
                       /\ moonIcon doc = true)).
  { unfold degraded.
    destruct (themeOverlay doc), (sunIcon doc), (moonIcon doc); auto. }
  destruct Hcases as [Hd | (Ho & Hs & Hm)].
  - destruct (degraded_call doc s true st Hd) as (H1 & H2 & H3 & _ & H5). auto.
  - rewrite (applyTheme_initial doc Ho Hs Hm).
    destruct (bookkeeping_done doc Hs Hm s st) as (Hc & Hp & _ & Htr).
    cbn zeta in *.
    split; [exact Hc|]. split; [exact Hp|].
    split; [apply visible_theme_set|].
    simpl_state. rewrite Htr, <- app_assoc. reflexivity.
Qed.

(** C7. Stored-value normalisation.  [initComponents] takes 'dark' for
    dark and anything else for light; when the entry is absent or is
    neither 'dark' nor 'light', its first effect is to write 'light' under
    [themeSetting].  From there on, whatever events the browser delivers,
    the stored value is 'light' or 'dark' and so is every value the script
    has written. *)
Theorem stored_value_normalised (doc : Document) (st0 : State) :
  (let st := initComponents doc st0 in
   currentThemeSetting st
   = (if bool_decide (persisted st0 = Some "dark") then dark else light)
   /\ persisted st = Some (theme_str (currentThemeSetting st))
   /\ (persisted st0 <> Some "dark" -> persisted st0 <> Some "light" ->
       currentThemeSetting st = light
       /\ persisted st = Some "light"
       /\ exists rest,
            trace st = trace st0 ++ StorageSetItem "themeSetting" "light" :: rest))
  /\ (forall events,
        let st := run doc events (initComponents doc st0) in
        valid_store st
        /\ exists t, trace st = trace st0 ++ t /\ Forall valid_write t).
Proof.
  split.
  - cbn zeta. unfold initComponents. fold (persisted st0).
    destruct (bool_decide (persisted st0 = Some "dark")) eqn:Ed.
    + simpl_state.
      destruct (initial_call doc dark (set_currentThemeSetting dark st0))
        as (H1 & H2 & _). cbn zeta in *.
      split; [exact H1|]. split; [now rewrite H1|].
      intros Hnd. apply bool_decide_eq_true_1 in Ed. contradiction.
    + destruct (bool_decide (persisted st0 = Some "light")) eqn:El; cbn [negb];
        simpl_state.
      * destruct (initial_call doc light
                    (set_currentThemeSetting light st0)) as (H1 & H2 & _).
        cbn zeta in *.
        split; [exact H1|]. split; [now rewrite H1|].
        intros _ Hnl. apply bool_decide_eq_true_1 in El. contradiction.
      * destruct (initial_call doc light
                    (localStorage_setItem "themeSetting" "light"
                       (set_currentThemeSetting light st0)))
          as (H1 & H2 & _ & H4).
        cbn zeta in *.
        split; [exact H1|]. split; [now rewrite H1|].
        intros _ _. split; [exact H1|]. split; [exact H2|].
        eexists. rewrite H4. simpl_state. rewrite <- app_assoc. reflexivity.
  - intros events. cbn zeta.
    assert (Hinit : writes_valid st0 (initComponents doc st0)
                    /\ valid_store (initComponents doc st0)).
    { unfold initComponents. fold (persisted st0). cbn zeta. split.
      - apply (writes_valid_after (applyTheme doc _ true));
          [intros x; apply applyTheme_writes|].
        destruct (bool_decide (persisted st0 = Some "dark")).
        + apply (writes_valid_same _ st0); [reflexivity | reflexivity |].
          apply writes_valid_refl.
        + destruct (negb (bool_decide (persisted st0 = Some "light"))).
          * apply (writes_valid_setItem light).
            apply (writes_valid_same _ st0); [reflexivity | reflexivity |].
            apply writes_valid_refl.
          * apply (writes_valid_same _ st0); [reflexivity | reflexivity |].
            apply writes_valid_refl.
      - match goal with
        | |- valid_store (applyTheme doc ?s true ?x) =>
            destruct (initial_call doc s x) as (_ & H2 & _);
            cbn zeta in H2; unfold valid_store; rewrite H2;
            destruct s; auto
        end. }
    destruct Hinit as [Hw Hv].
    pose proof (run_writes doc events (initComponents doc st0)) as Hr.
    destruct (writes_valid_trans _ _ _ Hw Hr) as [Ht _].
    split; [|exact Ht].
    destruct Hr as [_ [Hp | Hp]]; [|exact Hp].
    unfold valid_store in *. now rewrite Hp.
Qed.

(** * Same-page anchors *)

Import Anchor.

Lemma valid_href (h : string) :
  h <> "#" -> String.prefix "#" h = true ->
  String.eqb h "#" || String.eqb h "" || negb (String.prefix "#" h) = false.
Proof.
  intros Hne Hp. rewrite Hp. cbn [negb]. rewrite orb_false_r.
  apply String.eqb_neq in Hne. rewrite Hne. cbn [orb].
  destruct h; [discriminate Hp | reflexivity].
Qed.

(** C10. Anchor scroll.  A click on a link whose [href] is a fragment other
    than a bare '#', whose target exists, in a page whose header is sticky
    or fixed, prevents the default action and scrolls smoothly to the
    target's offset in the document (top of its rectangle plus the page
    offset) minus the sum of the header's height and the 15 px gap.  With a
    bare '#', with no target, or with a selector the lookup rejects, the
    handler does nothing; it never ends with an exception. *)
Theorem anchor_scroll (page : Page) (hd : Header) (h : string) (rect_top : float) :
  header page = Some hd ->
  position hd = "sticky" \/ position hd = "fixed" ->
  h <> "#" -> String.prefix "#" h = true ->
  querySelector page h = Found rect_top ->
  anchor_click page (Some h)
  = Normal {| defaultPrevented := true;
              scrolledTo :=
                Some {| top := ((rect_top + pageYOffset page)
                                - (offsetHeight hd + 15))%float;
                        behavior := "smooth" |} |}
  /\ anchor_click page (Some "#") = Normal nothing
  /\ (forall h', querySelector page h' = NoElement ->
                 anchor_click page (Some h') = Normal nothing)
  /\ (forall h', querySelector page h' = SelectorError ->
                 anchor_click page (Some h') = Normal nothing)
  /\ (forall href, exists o, anchor_click page href = Normal o).
Proof.
  intros Hh Hpos Hne Hp Hq.
  split; [|split; [|split; [|split]]].
  - unfold anchor_click. rewrite (valid_href h Hne Hp).
    unfold try_block. rewrite Hq, Hh. cbn zeta.
    destruct Hpos as [-> | ->]; reflexivity.
  - reflexivity.
  - intros h' Hq'. unfold anchor_click, try_block. rewrite Hq'.
    now destruct (_ || _).
  - intros h' Hq'. unfold anchor_click, try_block. rewrite Hq'.
    now destruct (_ || _).
  - intros [h'|]; [|now exists nothing].
    unfold anchor_click. destruct (_ || _); [now exists nothing|].
    destruct (try_block page h') as [o | o]; now exists o.
Qed.

(** X17. The header is in the page but scrolls with it (its position is
    neither 'sticky' nor 'fixed'): the scroll goes to the offset of the
    target less the height of the header, without the gap of 15 px.  There
    is no header: nothing is subtracted. *)
Lemma anchor_scroll_other_headers (page : Page) (h : string) (rect_top : float) :
  h <> "#" -> String.prefix "#" h = true ->
  querySelector page h = Found rect_top ->
  (forall hd, header page = Some hd ->
              position hd <> "sticky" -> position hd <> "fixed" ->
              anchor_click page (Some h)
              = Normal {| defaultPrevented := true;
                          scrolledTo :=
                            Some {| top := ((rect_top + pageYOffset page)
                                            - offsetHeight hd)%float;
                                    behavior := "smooth" |} |})
  /\ (header page = None ->
      anchor_click page (Some h)
      = Normal {| defaultPrevented := true;
                  scrolledTo :=
                    Some {| top := ((rect_top + pageYOffset page) - 0)%float;
                            behavior := "smooth" |} |}).
Proof.
  intros Hne Hp Hq. split.
  - intros hd Hh Hs Hf. unfold anchor_click. rewrite (valid_href h Hne Hp).
    unfold try_block. rewrite Hq, Hh. cbn zeta.
    apply String.eqb_neq in Hs, Hf. rewrite Hs, Hf. reflexivity.
  - intros Hh. unfold anchor_click. rewrite (valid_href h Hne Hp).
    unfold try_block. rewrite Hq, Hh. reflexivity.
Qed.

Lemma anchor_scroll_witness :
  anchor_click sample_page (Some "#services")
  = Normal {| defaultPrevented := true;
              scrolledTo := Some {| top := 1421.5%float; behavior := "smooth" |} |}.
Proof.
  destruct (anchor_scroll sample_page
              {| position := "sticky"; offsetHeight := 64%float |}
              "#services" 1200.5%float eq_refl (or_introl eq_refl)
              ltac:(discriminate) eq_refl eq_refl) as [H _].
  exact H.
Defined.

(** * The theorems at a concrete page

    [complete_doc] has everything; [quiet_light_page] is light and at rest. *)

Lemma quiet_light_page_at_rest : at_rest quiet_light_page.
Proof. repeat split. Qed.

Lemma full_happy_path_witness :
  at_rest quiet_light_page
  /\ visible_theme quiet_light_page <> dark
  /\ persisted (run complete_doc happy_path
                  (applyTheme complete_doc dark false quiet_light_page))
     = Some "dark".
Proof.
  split; [repeat split|]. split; [discriminate|].
  destruct (full_happy_path complete_doc quiet_light_page dark
              eq_refl eq_refl eq_refl ltac:(repeat split) ltac:(discriminate))
    as (_ & _ & _ & _ & _ & _ & _ & H & _).
  exact H.
Defined.

Lemma mutual_exclusion_witness :
  let in_flight := applyTheme complete_doc dark false quiet_light_page in
  isTransitioning in_flight = true
  /\ isTransitioning (applyTheme complete_doc light false in_flight) = true
  /\ persisted (applyTheme complete_doc light false in_flight) = Some "light".
Proof.
  cbn zeta. split; [reflexivity|].
  destruct (mutual_exclusion complete_doc
              (applyTheme complete_doc dark false quiet_light_page) light
              eq_refl eq_refl eq_refl eq_refl)
    as ((_ & Hp & _) & (_ & Ht & _) & _).
  split; [exact Ht | exact Hp].
Defined.

Lemma failsafe_recovery_witness :
  let in_flight := applyTheme complete_doc dark false quiet_light_page in
  timers in_flight = [{| handle := 1; delay := 2200; callback := failsafe |}]
  /\ isTransitioning (timer_fires complete_doc 1 in_flight) = false
  /\ visible_theme (timer_fires complete_doc 1 in_flight) = dark.
Proof.
  cbn zeta.
  destruct (failsafe_recovery complete_doc eq_refl eq_refl eq_refl)
    as (_ & _ & Harm & _ & Hfire & _).
  assert (Hguard : isTransitioning quiet_light_page = false) by reflexivity.
  assert (Hvisible : visible_theme quiet_light_page <> dark) by discriminate.
  destruct (Harm dark quiet_light_page Hguard Hvisible) as (_ & _ & _ & Hone).
  assert (Hflight : isTransitioning
                      (applyTheme complete_doc dark false quiet_light_page) = true)
    by (vm_compute; reflexivity).
  assert (Hpending : In 1%positive
                       (map handle
                          (timers (applyTheme complete_doc dark false
                                     quiet_light_page))))
    by (vm_compute; left; reflexivity).
  destruct (Hfire 1%positive _ Hflight Hpending) as (_ & Ht & _ & _ & Hv & _).
  split; [|split; [exact Ht | exact Hv]].
  apply Hone. intros t Hin. vm_compute in Hin. destruct Hin.
Defined.


Lemma same_theme_apply_witness :
  visible_theme quiet_light_page = light
  /\ same_transition_state quiet_light_page
       (applyTheme complete_doc light false quiet_light_page).
Proof.
  split; [reflexivity|].
  destruct (same_theme_apply complete_doc quiet_light_page light
              eq_refl eq_refl eq_refl eq_refl) as (H & _).
  exact H.
Defined.


Lemma interrupted_transition_desync_witness :
  let final :=
    run complete_doc (skipn 2 happy_path)
      (applyTheme complete_doc light false
         (run complete_doc (firstn 2 happy_path)
            (applyTheme complete_doc dark false quiet_light_page))) in
  visible_theme final = dark /\ persisted final = Some "light".
Proof.
  cbn zeta.
  destruct (interrupted_transition_desync complete_doc quiet_light_page
              dark light 2 eq_refl eq_refl eq_refl ltac:(repeat split)
              eq_refl ltac:(discriminate) ltac:(lia))
    as (_ & (_ & _ & _ & Hv & _ & Hp & _) & _).
  split; [exact Hv | exact Hp].
Defined.

(** * What every event keeps

    A relation [R] between the state before and the state after an
    operation that holds across the primitives holds across every handler,
    every event and every run. *)

Section Preserved.

Variable doc : Document.
Variable R : State -> State -> Prop.

Hypothesis R_refl : forall x, R x x.
Hypothesis R_trans : forall x y z, R x y -> R y z -> R x z.

Lemma R_after (f : State -> State) (a b : State) :
  (forall x, R x (f x)) -> R a b -> R a (f b).
Proof using R_trans.
  intros Hf H. exact (R_trans a b (f b) H (Hf b)).
Qed.

Lemma R_fold {A : Type} (f : State -> A -> State) (l : list A) :
  (forall x y, R x (f x y)) -> forall st, R st (fold_left f l st).
Proof using R_refl R_trans.
  intros Hf. induction l as [|y l IH]; intros st; cbn [fold_left].
  - apply R_refl.
  - exact (R_trans _ _ _ (Hf st y) (IH (f st y))).
Qed.

(** Takes the outermost operation off the state reached. *)
Ltac keep :=
  lazymatch goal with
  | |- R ?a ?a => apply R_refl
  | |- R _ (if ?c then _ else _) => destruct c
  | |- R _ (match ?x with Some _ => _ | None => _ end) => destruct x
  | |- R ?a (?f ?b) => apply (R_after f a b); [solve [intros; auto]|]
  end.

Section Operations.

Hypothesis R_isTransitioning : forall v x, R x (set_isTransitioning v x).
Hypothesis R_failsafeId : forall v x, R x (set_transitionFailsafeTimeoutId v x).
Hypothesis R_setting : forall v x, R x (set_currentThemeSetting v x).
Hypothesis R_stored :
  forall s x, R x (localStorage_setItem "themeSetting" (theme_str s) x).
Hypothesis R_control : forall s x, R x (updateToggleButtonState doc s x).
Hypothesis R_visual : forall t x, R x (setVisualThemeOnBody t x).
Hypothesis R_marker_on :
  forall x, R x (body_classList_add "theme-transition-active" x).
Hypothesis R_marker_off :
  forall x, R x (body_classList_remove "theme-transition-active" x).
Hypothesis R_layout : forall x, R x (body_offsetHeight x).
Hypothesis R_backgroundColor : forall v x, R x (overlay_set_backgroundColor v x).
Hypothesis R_opacity : forall v x, R x (overlay_set_opacity v x).
Hypothesis R_transition : forall v x, R x (overlay_set_transition v x).
Hypothesis R_pointerEvents : forall v x, R x (overlay_set_pointerEvents v x).
Hypothesis R_frame : forall cb x, R x (requestAnimationFrame cb x).
Hypothesis R_setTimeout : forall cb ms x, R x (snd (setTimeout cb ms x)).
Hypothesis R_clearTimeout : forall h x, R x (clearTimeout h x).
Hypothesis R_warn : forall m x, R x (console_warn m x).
Hypothesis R_listeners : forall ls x, R x (set_overlay_listeners ls x).
Hypothesis R_closure : forall c x, R x (set_next_closure c x).

Lemma addEventListener_kept (l : Listener) (x : State) :
  R x (addEventListener l x).
Proof using R_refl R_trans R_listeners.
  unfold addEventListener. repeat keep.
Qed.

Lemma removeEventListener_kept (l : Listener) (x : State) :
  R x (removeEventListener l x).
Proof using R_refl R_trans R_listeners.
  unfold removeEventListener. repeat keep.
Qed.

#[local] Hint Resolve addEventListener_kept removeEventListener_kept : core.

Lemma resetTransitionOverlay_kept (x : State) :
  R x (resetTransitionOverlay doc x).
Proof using R_refl R_trans R_pointerEvents R_transition R_opacity
  R_isTransitioning R_clearTimeout R_failsafeId R_marker_off.
  unfold resetTransitionOverlay. cbn zeta. repeat keep.
Qed.

Lemma handlePhase1End_kept (c : nat) (s : ThemeSetting) (bg : string)
    (event : TransitionEvent) (x : State) :
  R x (handlePhase1End c s bg event x).
Proof using R_refl R_trans R_listeners R_marker_on R_layout R_visual
  R_marker_off R_transition R_frame.
  unfold handlePhase1End. cbn zeta. repeat keep.
Qed.

Lemma handlePhase2End_kept (c : nat) (event : TransitionEvent) (x : State) :
  R x (handlePhase2End c event x).
Proof using R_refl R_trans R_listeners R_transition R_frame.
  unfold handlePhase2End. cbn zeta. repeat keep.
Qed.

Lemma run_frame_callback_kept (x : State) (cb : FrameCallback) :
  R x (run_frame_callback x cb).
Proof using R_opacity R_backgroundColor.
  destruct cb; cbn [run_frame_callback]; auto.
Qed.

Lemma applyTheme_kept (s : ThemeSetting) (b : bool) (x : State) :
  R x (applyTheme doc s b x).
Proof using R_refl R_trans R_isTransitioning R_failsafeId R_setting R_stored
  R_control R_visual R_backgroundColor R_opacity R_transition
  R_pointerEvents R_frame R_setTimeout R_clearTimeout R_listeners R_closure.
  unfold applyTheme. cbn zeta.
  repeat first
    [ keep
    | match goal with
      | |- R _ (let '(h, st1) := setTimeout ?cb ?ms ?b in _) =>
          rewrite (surjective_pairing (setTimeout cb ms b)); cbn beta iota;
          change (fst (setTimeout cb ms b)) with (next_handle b)
      | |- R _ (snd (setTimeout ?cb ?ms ?b)) =>
          apply (R_trans _ b); [|apply R_setTimeout]
      end ].
Qed.

End Operations.

Section Events.

Hypothesis R_listeners : forall ls x, R x (set_overlay_listeners ls x).
Hypothesis R_frames_taken : forall x, R x (set_frame_callbacks [] x).
Hypothesis R_timer_taken : forall ts x, R x (set_timers ts x).
Hypothesis R_frame_callback : forall x cb, R x (run_frame_callback x cb).
Hypothesis R_phase1 : forall c s bg event x, R x (handlePhase1End c s bg event x).
Hypothesis R_phase2 : forall c event x, R x (handlePhase2End c event x).
Hypothesis R_reset : forall x, R x (resetTransitionOverlay doc x).
Hypothesis R_warn : forall m x, R x (console_warn m x).
Hypothesis R_visual : forall t x, R x (setVisualThemeOnBody t x).
Hypothesis R_control :
  forall x, R x (updateToggleButtonState doc (currentThemeSetting x) x).

Lemma failsafeCallback_kept (x : State) : R x (failsafeCallback doc x).
Proof using R_refl R_trans R_reset R_warn R_visual R_control.
  unfold failsafeCallback. destruct (isTransitioning x); [|apply R_refl].
  cbn zeta.
  match goal with
  | |- R _ (updateToggleButtonState doc (currentThemeSetting ?y) ?y) =>
      apply (R_trans _ y); [|apply R_control]
  end.
  repeat keep.
Qed.

Lemma animation_frame_kept (x : State) : R x (animation_frame x).
Proof using R_refl R_trans R_frames_taken R_frame_callback.
  unfold animation_frame.
  apply (R_trans _ (set_frame_callbacks [] x)); [apply R_frames_taken|].
  now apply R_fold.
Qed.

Lemma call_listener_kept (l : Listener) (event : TransitionEvent) (x : State) :
  R x (call_listener doc l event x).
Proof using R_refl R_phase1 R_phase2 R_reset.
  unfold call_listener. destruct (handler l); auto.
  unfold handlePhase3End. destruct (_ || _); auto.
Qed.

Lemma dispatch_transitionend_kept (event : TransitionEvent) (x : State) :
  R x (dispatch_transitionend doc event x).
Proof using R_refl R_trans R_listeners R_phase1 R_phase2 R_reset.
  unfold dispatch_transitionend.
  assert (H : R x (fold_left (invoke doc event) (overlay_listeners x) x)).
  { apply R_fold. intros y l. unfold invoke.
    destruct (existsb (same_callback l) (overlay_listeners y)); [|apply R_refl].
    apply (R_trans _ (if once l then removeEventListener l y else y)).
    - destruct (once l); [apply R_listeners | apply R_refl].
    - apply call_listener_kept. }
  destruct (target event); [exact H | exact H | apply R_refl].
Qed.

Lemma timer_fires_kept (h : positive) (x : State) : R x (timer_fires doc h x).
Proof using R_refl R_trans R_timer_taken R_reset R_warn R_visual R_control.
  unfold timer_fires. destruct (List.find _ (timers x)) as [t|]; [|apply R_refl].
  destruct (callback t).
  eapply R_trans; [apply R_timer_taken | apply failsafeCallback_kept].
Qed.

(** Every event but a click on the toggle. *)
Lemma browser_event_kept (x : State) (e : Event) :
  e <> ToggleClick -> R x (step doc x e).
Proof using R_refl R_trans R_listeners R_frames_taken R_timer_taken
  R_frame_callback R_phase1 R_phase2 R_reset R_warn R_visual R_control.
  destruct e as [| | event | h]; intros He; cbn [step].
  - congruence.
  - apply animation_frame_kept.
  - apply dispatch_transitionend_kept.
  - apply timer_fires_kept.
Qed.

Hypothesis R_apply : forall s b x, R x (applyTheme doc s b x).

Lemma step_kept (x : State) (e : Event) : R x (step doc x e).
Proof using R_refl R_trans R_listeners R_frames_taken R_timer_taken
  R_frame_callback R_phase1 R_phase2 R_reset R_warn R_visual R_control R_apply.
  destruct e as [| | event | h].
  - cbn [step]. unfold toggle_click.
    destruct (themeToggleButton doc); [apply R_apply | apply R_refl].
  - now apply browser_event_kept.
  - now apply browser_event_kept.
  - now apply browser_event_kept.
Qed.

Lemma run_kept (events : list Event) (x : State) : R x (run doc events x).
Proof using R_refl R_trans R_listeners R_frames_taken R_timer_taken
  R_frame_callback R_phase1 R_phase2 R_reset R_warn R_visual R_control R_apply.
  unfold run. apply R_fold. intros y e. apply step_kept.
Qed.

Hypothesis R_setting : forall v x, R x (set_currentThemeSetting v x).
Hypothesis R_first_write :
  forall x, R x (localStorage_setItem "themeSetting" "light" x).

Lemma initComponents_kept (x : State) : R x (initComponents doc x).
Proof using R_refl R_trans R_apply R_setting R_first_write.
  unfold initComponents. cbn zeta. repeat keep.
Qed.

Lemma session_kept (events : list Event) (x : State) :
  R x (run doc events (initComponents doc x)).
Proof using R_refl R_trans R_listeners R_frames_taken R_timer_taken
  R_frame_callback R_phase1 R_phase2 R_reset R_warn R_visual R_control R_apply R_setting
  R_first_write.
  exact (R_trans _ _ _ (initComponents_kept x) (run_kept events _)).
Qed.

End Events.

End Preserved.

(** * What a session keeps *)

(** ** Every call sets, stores and shows its argument *)

Lemma toggle_shows_same (s : ThemeSetting) (x y : State) :
  same_toggle_state x y -> toggle_shows s x -> toggle_shows s y.
Proof.
  intros (H1 & H2 & H3). unfold toggle_shows. now rewrite H1, H2, H3.
Qed.

Lemma applyTheme_starts_keeps (doc : Document) (s : ThemeSetting) (st : State) :
  themeOverlay doc = true -> sunIcon doc = true -> moonIcon doc = true ->
  isTransitioning st = false ->
  visible_theme st <> s ->
  let st' := applyTheme doc s false st in
  currentThemeSetting st' = s
  /\ localStorage st' = localStorage (bookkeeping doc s st)
  /\ body_classList st' = body_classList st
  /\ same_toggle_state (bookkeeping doc s st) st'
  /\ isTransitioning st' = true
  /\ pointerEvents (overlay_style st') = "auto".
Proof.
  intros Ho Hs Hm Ht Hv. cbn zeta.
  rewrite (applyTheme_starts doc Ho Hs Hm s st Ht Hv).
  unfold addEventListener, cancel_pending_failsafe, bookkeeping, same_toggle_state.
  rewrite (updateToggleButtonState_present doc Hs Hm).
  simpl_state.
  destruct (transitionFailsafeTimeoutId st); simpl_state;
    match goal with |- context [if ?b then _ else _] => destruct b end;
    repeat split.
Qed.

(** Whatever is in the page and whatever is going on, a call leaves its
    argument in memory and in the store, and on the control when both
    icons are there. *)
Lemma applyTheme_done (doc : Document) (s : ThemeSetting) (b : bool) (st : State) :
  let st' := applyTheme doc s b st in
  currentThemeSetting st' = s
  /\ persisted st' = Some (theme_str s)
  /\ (sunIcon doc = true -> moonIcon doc = true -> toggle_shows s st').
Proof.
  cbn zeta.
  destruct (themeOverlay doc) eqn:Ho;
    [destruct (sunIcon doc) eqn:Hs; [destruct (moonIcon doc) eqn:Hm|]|].
  - (* nothing is missing *)
    destruct b.
    + rewrite (applyTheme_initial doc Ho Hs Hm).
      destruct (bookkeeping_done doc Hs Hm s st) as (Hc & Hp & Hsh & _).
      cbn zeta in *. split; [exact Hc|]. split; [exact Hp|]. intros _ _. exact Hsh.
    + destruct (isTransitioning st) eqn:Ht.
      * destruct (call_without_transition doc Ho Hs Hm s st (or_introl Ht))
          as (_ & _ & _ & Hc & Hp & Hsh). auto.
      * destruct (theme_eqb (visible_theme st) s) eqn:Ev.
        -- apply theme_eqb_eq in Ev.
           destruct (call_without_transition doc Ho Hs Hm s st (or_intror Ev))
             as (_ & _ & _ & Hc & Hp & Hsh). auto.
        -- assert (Hv : visible_theme st <> s).
           { intros E. apply theme_eqb_eq in E. congruence. }
           destruct (applyTheme_starts_keeps doc s st Ho Hs Hm Ht Hv)
             as (Hc & Hl & _ & Hsame & _).
           destruct (bookkeeping_done doc Hs Hm s st) as (_ & Hp & Hsh & _).
           cbn zeta in *. split; [exact Hc|]. split.
           ++ unfold persisted, localStorage_getItem in *. now rewrite Hl.
           ++ intros _ _. exact (toggle_shows_same s _ _ Hsame Hsh).
  - destruct (degraded_call doc s b st) as (Hc & Hp & _);
      [right; now right|].
    split; [exact Hc|]. split; [exact Hp|]. discriminate.
  - destruct (degraded_call doc s b st) as (Hc & Hp & _);
      [right; now left|].
    split; [exact Hc|]. split; [exact Hp|]. discriminate.
  - destruct (degraded_call doc s b st) as (Hc & Hp & _); [now left|].
    split; [exact Hc|]. split; [exact Hp|]. intros Hs Hm.
    rewrite (applyTheme_degraded doc s b st (or_introl Ho)). cbn zeta.
    rewrite (button_present doc Hs).
    now apply updateToggleButtonState_shows.
Qed.

(** [initComponents] ends with a call for the setting it has read. *)
Lemma initComponents_calls (doc : Document) (st0 : State) :
  exists st1,
    initComponents doc st0 = applyTheme doc (setting_at_load st0) true st1
    /\ same_transition_state st0 st1
    /\ body_classList st1 = body_classList st0.
Proof.
  unfold initComponents, setting_at_load. fold (persisted st0). cbn zeta.
  destruct (bool_decide (persisted st0 = Some "dark")).
  - eexists. split; [reflexivity|]. repeat split.
  - destruct (negb _); eexists; (split; [reflexivity|]); repeat split.
Qed.

Lemma initComponents_setting (doc : Document) (st0 : State) :
  currentThemeSetting (initComponents doc st0) = setting_at_load st0.
Proof.
  destruct (initComponents_calls doc st0) as (st1 & -> & _). apply applyTheme_done.
Qed.

(** ** Handlers from their operations

    [kept_by R T F] proves that a handler keeps [R], transitive by [T], from
    the operations the handler is made of; [F] proves [R] across one
    operation. *)
Ltac kept_by R T F doc :=
  first
    [ exact T
    | solve [F]
    | intros; apply (handlePhase1End_kept R); first [exact T | solve [F]]
    | intros; apply (handlePhase2End_kept R); first [exact T | solve [F]]
    | intros; apply (resetTransitionOverlay_kept doc R); first [exact T | solve [F]]
    | intros; apply (run_frame_callback_kept R); first [exact T | solve [F]]
    | intros; apply (applyTheme_kept doc R); first [exact T | solve [F]] ].

(** ** The setting in memory *)

Lemma setting_kept_trans (x y z : State) :
  setting_kept x y -> setting_kept y z -> setting_kept x z.
Proof. unfold setting_kept. congruence. Qed.

(** No frame, notification or timer changes the setting in memory. *)
Lemma setting_kept_by_browser (doc : Document) (x : State) (e : Event) :
  e <> ToggleClick -> setting_kept x (step doc x e).
Proof.
  apply (browser_event_kept doc setting_kept);
    try kept_by setting_kept setting_kept_trans ltac:(intros; exact eq_refl) doc.
  intros y. apply updateToggleButtonState_elsewhere.
Qed.

Lemma clicks_snoc (events : list Event) (e : Event) :
  clicks (events ++ [e])
  = (clicks events + match e with ToggleClick => 1 | _ => 0 end)%nat.
Proof.
  unfold clicks. rewrite List.filter_app, length_app. now destruct e.
Qed.

Lemma toggle_click_setting (doc : Document) (st : State) :
  currentThemeSetting (toggle_click doc st)
  = if themeToggleButton doc then other_theme (currentThemeSetting st)
    else currentThemeSetting st.
Proof.
  unfold toggle_click. destruct (themeToggleButton doc); [|reflexivity].
  destruct (applyTheme_done doc
              (if theme_eqb (currentThemeSetting st) light then dark else light)
              false st) as (Hc & _).
  cbn zeta in Hc. rewrite Hc. now destruct (currentThemeSetting st).
Qed.

Lemma run_snoc (doc : Document) (events : list Event) (e : Event) (st : State) :
  run doc (events ++ [e]) st = step doc (run doc events st) e.
Proof. unfold run. now rewrite fold_left_app. Qed.

Lemma setting_after_run (doc : Document) (events : list Event) (st : State) :
  currentThemeSetting (run doc events st)
  = Nat.iter (if themeToggleButton doc then clicks events else 0)
      other_theme (currentThemeSetting st).
Proof.
  induction events as [|e events IH] using rev_ind.
  - now destruct (themeToggleButton doc).
  - rewrite run_snoc, clicks_snoc.
    destruct e as [| | event | h].
    + cbn [step]. rewrite toggle_click_setting, IH.
      destruct (themeToggleButton doc); [|reflexivity].
      now rewrite Nat.add_1_r.
    + rewrite (setting_kept_by_browser doc _ AnimationFrame) by discriminate.
      now rewrite IH, Nat.add_0_r.
    + rewrite (setting_kept_by_browser doc _ (TransitionEnd event)) by discriminate.
      now rewrite IH, Nat.add_0_r.
    + rewrite (setting_kept_by_browser doc _ (TimerFires h)) by discriminate.
      now rewrite IH, Nat.add_0_r.
Qed.

(** X3. The setting in memory is the one read from the store when the page
    was initialised ('dark' gives dark, anything else light), flipped once
    per click on the toggle: frames, transition notifications and timers do
    not change it, and without a toggle in the page nothing does. *)
Theorem setting_follows_clicks (doc : Document) (events : list Event)
    (st0 : State) :
  currentThemeSetting (run doc events (initComponents doc st0))
  = Nat.iter (if themeToggleButton doc then clicks events else 0)
      other_theme (setting_at_load st0).
Proof.
  now rewrite setting_after_run, initComponents_setting.
Qed.

(** ** The store and the setting *)






(** ** The control and the setting *)






(** ** The classes of the body *)

Lemma other_classes_add (c : string) (l : list string) :
  theme_class c = true -> other_classes (ClassList.add c l) = other_classes l.
Proof.
  intros H. unfold ClassList.add. destruct (ClassList.contains c l); [reflexivity|].
  unfold other_classes. rewrite List.filter_app. cbn [List.filter].
  rewrite H. cbn [negb]. apply app_nil_r.
Qed.

Lemma other_classes_remove (c : string) (l : list string) :
  theme_class c = true -> other_classes (ClassList.remove c l) = other_classes l.
Proof.
  intros H. unfold ClassList.remove, other_classes.
  induction l as [|a l IH]; [reflexivity|]. cbn [List.filter].
  destruct (String.eqb c a) eqn:E; cbn [negb].
  - apply String.eqb_eq in E. subst a. rewrite H. cbn [negb]. exact IH.
  - cbn [List.filter]. destruct (negb (theme_class a)); [now rewrite IH | exact IH].
Qed.

Lemma other_classes_toggle (c : string) (force : bool) (l : list string) :
  theme_class c = true -> other_classes (ClassList.toggle c force l) = other_classes l.
Proof.
  intros H. destruct force; cbn [ClassList.toggle].
  - now apply other_classes_add.
  - now apply other_classes_remove.
Qed.

(** A class that is not one of the two is looked up among the others. *)
Lemma contains_other_classes (c : string) (l : list string) :
  theme_class c = false ->
  ClassList.contains c (other_classes l) = ClassList.contains c l.
Proof.
  intros H. unfold ClassList.contains, other_classes.
  induction l as [|a l IH]; [reflexivity|]. cbn [List.filter existsb].
  destruct (theme_class a) eqn:Ea; cbn [negb existsb].
  - rewrite IH. destruct (String.eqb c a) eqn:E; [|reflexivity].
    apply String.eqb_eq in E. congruence.
  - now rewrite IH.
Qed.

Lemma other_classes_kept_trans (x y z : State) :
  other_classes_kept x y -> other_classes_kept y z -> other_classes_kept x z.
Proof. unfold other_classes_kept. congruence. Qed.

Ltac other_classes_field :=
  intros; unfold other_classes_kept;
  first [ reflexivity
        | apply other_classes_toggle; reflexivity
        | apply other_classes_add; reflexivity
        | apply other_classes_remove; reflexivity ].

Lemma other_classes_kept_by_control (doc : Document) (s : ThemeSetting) (x : State) :
  other_classes_kept x (updateToggleButtonState doc s x).
Proof.
  unfold other_classes_kept.
  destruct (updateToggleButtonState_elsewhere doc s x) as (_ & _ & -> & _).
  reflexivity.
Qed.

Ltac other_classes_op :=
  first [ other_classes_field | intros; apply other_classes_kept_by_control ].

Lemma other_classes_kept_by_step (doc : Document) (x : State) (e : Event) :
  other_classes_kept x (step doc x e).
Proof.
  apply (step_kept doc other_classes_kept);
    kept_by other_classes_kept other_classes_kept_trans other_classes_op doc.
Qed.

Lemma other_classes_kept_by_initComponents (doc : Document) (x : State) :
  other_classes_kept x (initComponents doc x).
Proof.
  apply (initComponents_kept doc other_classes_kept);
    kept_by other_classes_kept other_classes_kept_trans other_classes_op doc.
Qed.

Lemma other_classes_kept_by_session (doc : Document) (events : list Event)
    (x : State) :
  other_classes_kept x (run doc events (initComponents doc x)).
Proof.
  apply (other_classes_kept_trans _ _ _ (other_classes_kept_by_initComponents doc x)).
  unfold run. apply (R_fold other_classes_kept).
  - intros y. reflexivity.
  - exact other_classes_kept_trans.
  - intros y e. apply other_classes_kept_by_step.
Qed.

(** X4. The theme logic owns two classes of the body, [dark-mode] and
    [theme-transition-active]: whatever events are delivered, the other
    classes of the body are the ones it had before the page was initialised,
    in the same order, so a class put there by other code is neither removed
    nor duplicated. *)
Theorem other_body_classes_kept (doc : Document) (events : list Event)
    (st0 : State) :
  let st := run doc events (initComponents doc st0) in
  other_classes (body_classList st) = other_classes (body_classList st0)
  /\ forall c, c <> "dark-mode" -> c <> "theme-transition-active" ->
       ClassList.contains c (body_classList st)
       = ClassList.contains c (body_classList st0).
Proof.
  cbn zeta. pose proof (other_classes_kept_by_session doc events st0) as H.
  unfold other_classes_kept in H. split; [exact H|].
  intros c H1 H2.
  assert (Hc : theme_class c = false).
  { unfold theme_class. apply String.eqb_neq in H1, H2. now rewrite H1, H2. }
  rewrite <- (contains_other_classes c (body_classList st0) Hc).
  rewrite <- H. symmetry. now apply contains_other_classes.
Qed.

(** ** The marker class *)

Lemma marker_off_kept_trans (x y z : State) :
  marker_off_kept x y -> marker_off_kept y z -> marker_off_kept x z.
Proof. unfold marker_off_kept. auto. Qed.

Ltac marker_field :=
  intros; unfold marker_off_kept;
  first [ exact (fun H => H)
        | intros _; apply contains_remove_same
        | simpl_state; rewrite (contains_toggle_other _ _ _ _ active_neq_dark_mode);
          exact (fun H => H) ].

(** The handler of phase 1 puts the marker on the body and takes it off
    before it returns. *)
Lemma marker_off_kept_by_phase1 (c : nat) (s : ThemeSetting) (bg : string)
    (event : TransitionEvent) (x : State) :
  marker_off_kept x (handlePhase1End c s bg event x).
Proof.
  unfold marker_off_kept, handlePhase1End.
  match goal with |- context [if ?b then x else _] => destruct b end;
    [exact (fun H => H)|].
  intros _. cbn zeta. unfold addEventListener.
  match goal with |- context [if ?b then _ else _] => destruct b end;
    simpl_state; apply contains_remove_same.
Qed.

Lemma marker_off_kept_by_control (doc : Document) (s : ThemeSetting) (x : State) :
  marker_off_kept x (updateToggleButtonState doc s x).
Proof.
  unfold marker_off_kept.
  destruct (updateToggleButtonState_elsewhere doc s x) as (_ & _ & -> & _).
  exact (fun H => H).
Qed.

Lemma marker_off_kept_by_session (doc : Document) (events : list Event)
    (x : State) :
  marker_off_kept x (run doc events (initComponents doc x)).
Proof.
  apply (session_kept doc marker_off_kept);
    try kept_by marker_off_kept marker_off_kept_trans
          ltac:(first [ marker_field
                      | intros; apply marker_off_kept_by_control ]) doc.
  exact marker_off_kept_by_phase1.
Qed.

(** X5. The class [theme-transition-active], which switches every CSS
    transition of the page off, is on the body only while the handler of
    phase 1 runs: when it is not there before the page is initialised, it is
    not there after any event. *)
Theorem marker_class_never_left (doc : Document) (events : list Event)
    (st0 : State) :
  ClassList.contains "theme-transition-active" (body_classList st0) = false ->
  ClassList.contains "theme-transition-active"
    (body_classList (run doc events (initComponents doc st0))) = false.
Proof.
  exact (marker_off_kept_by_session doc events st0).
Qed.

(** ** The overlay and the pointer *)

Lemma pointer_same (doc : Document) (x y : State) :
  isTransitioning y = isTransitioning x ->
  pointerEvents (overlay_style y) = pointerEvents (overlay_style x) ->
  pointer_kept doc x y.
Proof.
  intros H1 H2. unfold pointer_kept, pointer_with_guard. now rewrite H1, H2.
Qed.

Lemma pointer_same_transition_state (doc : Document) (x y : State) :
  same_transition_state x y -> pointer_kept doc x y.
Proof.
  intros (H1 & _ & H3 & _). apply pointer_same; [exact H1 | now rewrite H3].
Qed.

Lemma pointer_kept_trans (doc : Document) (x y z : State) :
  pointer_kept doc x y -> pointer_kept doc y z -> pointer_kept doc x z.
Proof. unfold pointer_kept. auto. Qed.

Lemma resetTransitionOverlay_releases (doc : Document) (x : State) :
  let y := resetTransitionOverlay doc x in
  isTransitioning y = false
  /\ pointerEvents (overlay_style y)
     = if themeOverlay doc then "none" else pointerEvents (overlay_style x).
Proof.
  cbn zeta. unfold resetTransitionOverlay.
  destruct (themeOverlay doc); simpl_state;
    destruct (transitionFailsafeTimeoutId x) as [h|] eqn:Eid; simpl_state;
    rewrite ?Eid; simpl_state; split; reflexivity.
Qed.

Lemma pointer_kept_by_reset (doc : Document) (x : State) :
  pointer_kept doc x (resetTransitionOverlay doc x).
Proof.
  destruct (resetTransitionOverlay_releases doc x) as [Hg Hp]. cbn zeta in *.
  intros [Hiff Hall]. split.
  - rewrite Hg, Hp. split; [|discriminate].
    destruct (themeOverlay doc) eqn:Ho; [discriminate|].
    intros Ha. apply Hiff in Ha. destruct (Hall Ha) as (Ho' & _). congruence.
  - rewrite Hg. discriminate.
Qed.

Lemma pointer_kept_by_call (doc : Document) (s : ThemeSetting) (b : bool)
    (x : State) :
  pointer_kept doc x (applyTheme doc s b x).
Proof.
  destruct (themeOverlay doc) eqn:Ho;
    [destruct (sunIcon doc) eqn:Hs; [destruct (moonIcon doc) eqn:Hm|]|].
  2:{ apply pointer_same_transition_state.
      apply (degraded_call doc s b x). right. now right. }
  2:{ apply pointer_same_transition_state.
      apply (degraded_call doc s b x). right. now left. }
  2:{ apply pointer_same_transition_state.
      apply (degraded_call doc s b x). now left. }
  destruct b.
  - rewrite (applyTheme_initial doc Ho Hs Hm).
    destruct (bookkeeping_same_transition_state doc Hs Hm s x) as (H1 & _ & H3 & _).
    apply pointer_same; simpl_state; [exact H1 | now rewrite H3].
  - destruct (isTransitioning x) eqn:Ht.
    + apply pointer_same_transition_state.
      apply (call_without_transition doc Ho Hs Hm s x). now left.
    + destruct (theme_eqb (visible_theme x) s) eqn:Ev.
      * apply theme_eqb_eq in Ev. apply pointer_same_transition_state.
        apply (call_without_transition doc Ho Hs Hm s x). now right.
      * assert (Hv : visible_theme x <> s).
        { intros E. apply theme_eqb_eq in E. congruence. }
        destruct (applyTheme_starts_keeps doc s x Ho Hs Hm Ht Hv)
          as (_ & _ & _ & _ & Hg & Hp).
        cbn zeta in *. intros _. split.
        -- now rewrite Hg, Hp.
        -- intros _. repeat split; assumption.
Qed.

Ltac pointer_field := intros; apply pointer_same; reflexivity.

Lemma pointer_kept_by_control (doc : Document) (s : ThemeSetting) (x : State) :
  pointer_kept doc x (updateToggleButtonState doc s x).
Proof.
  apply pointer_same_transition_state. apply updateToggleButtonState_elsewhere.
Qed.

Lemma pointer_kept_by_step (doc : Document) (x : State) (e : Event) :
  pointer_kept doc x (step doc x e).
Proof.
  apply (step_kept doc (pointer_kept doc));
    try first [ exact (pointer_kept_by_reset doc)
              | exact (pointer_kept_by_call doc)
              | intros; apply pointer_kept_by_control
              | kept_by (pointer_kept doc) (pointer_kept_trans doc) pointer_field doc ].
Qed.

Lemma at_rest_one_failsafe (st : State) : at_rest st -> one_failsafe st.
Proof.
  intros (Ht & Hid & _ & _ & Hts). unfold one_failsafe. rewrite Hid. now split.
Qed.

(** X6. The overlay covers the window; its inline [pointer-events] decides
    whether it swallows the clicks.  On a page that starts at rest, after
    any events, it is 'auto' exactly while the guard is true.  While it is,
    the only pending timer is the failsafe of 2200 ms, and when that timer
    fires the guard is false and [pointer-events] is 'none': the page cannot
    stay covered. *)
Theorem overlay_blocks_only_in_transition (doc : Document)
    (events : list Event) (st0 : State) :
  at_rest st0 ->
  pointerEvents (overlay_style st0) <> "auto" ->
  let st := run doc events (initComponents doc st0) in
  (pointerEvents (overlay_style st) = "auto" <-> isTransitioning st = true)
  /\ (isTransitioning st = true ->
      exists h,
        timers st = [{| handle := h; delay := 2200; callback := failsafe |}]
        /\ isTransitioning (timer_fires doc h st) = false
        /\ pointerEvents (overlay_style (timer_fires doc h st)) = "none").
Proof.
  intros Hrest Hp. cbn zeta.
  assert (Hinv : pointer_with_guard doc (run doc events (initComponents doc st0))).
  { unfold run. apply fold_left_invariant.
    - intros x e. apply pointer_kept_by_step.
    - destruct (initComponents_calls doc st0) as (st1 & -> & Hsame & _).
      apply pointer_kept_by_call.
      apply (pointer_same_transition_state doc st0 st1 Hsame).
      destruct Hrest as (Ht & _). split.
      + rewrite Ht. split; [contradiction | discriminate].
      + rewrite Ht. discriminate. }
  pose proof (one_failsafe_always doc events st0 (at_rest_one_failsafe st0 Hrest))
    as Hone.
  destruct Hinv as [Hiff Hall]. split; [exact Hiff|].
  intros Hg. destruct (Hall Hg) as (Ho & Hs & Hm).
  unfold one_failsafe in Hone.
  destruct (transitionFailsafeTimeoutId _) as [h|]; destruct Hone as [Hg' Hts];
    [|congruence].
  exists h. split; [exact Hts|].
  destruct (failsafe_fires doc Ho Hs Hm h _ Hg) as (Hstyle & Hg2 & _).
  { rewrite Hts. now left. }
  cbn zeta in *. split; [exact Hg2|]. now rewrite Hstyle.
Qed.

(** ** A page where the overlay or an icon is missing *)

(** X7. When the overlay or an icon is missing, a page that starts at rest
    never leaves it: after any events the body shows the setting in memory,
    the guard is false, no listener, frame callback or timer is pending, and
    the inline style of the overlay is the one it had. *)
Theorem degraded_page_switches_at_once (doc : Document) (events : list Event)
    (st0 : State) :
  degraded doc ->
  at_rest st0 ->
  let st := run doc events (initComponents doc st0) in
  visible_theme st = currentThemeSetting st
  /\ at_rest st
  /\ overlay_style st = overlay_style st0.
Proof.
  intros Hd Hrest. cbn zeta. unfold run.
  assert (Hcall : forall s b x,
            at_rest x /\ overlay_style x = overlay_style st0 ->
            let y := applyTheme doc s b x in
            visible_theme y = currentThemeSetting y
            /\ at_rest y /\ overlay_style y = overlay_style st0).
  { intros s b x [(Ht & Hid & Hl & Hf & Hts) Hst].
    destruct (degraded_call doc s b x Hd)
      as (Hc & _ & Hv & (E1 & E2 & E3 & E4 & E5 & E6) & _).
    cbn zeta in *. split; [congruence|]. split; [|congruence].
    repeat split; congruence. }
  apply (fold_left_invariant
           (fun st => visible_theme st = currentThemeSetting st
                      /\ at_rest st /\ overlay_style st = overlay_style st0)).
  - intros x e (Hv & Hr & Hst).
    destruct e as [| | event | h].
    + cbn [step]. unfold toggle_click.
      destruct (themeToggleButton doc); [|tauto].
      now apply Hcall.
    + destruct Hr as (Ht & Hid & Hl & Hf & Hts).
      rewrite (quiet_step doc x AnimationFrame) by (assumption || discriminate).
      repeat split; assumption.
    + destruct Hr as (Ht & Hid & Hl & Hf & Hts).
      rewrite (quiet_step doc x (TransitionEnd event)) by (assumption || discriminate).
      repeat split; assumption.
    + destruct Hr as (Ht & Hid & Hl & Hf & Hts).
      rewrite (quiet_step doc x (TimerFires h)) by (assumption || discriminate).
      repeat split; assumption.
  - destruct (initComponents_calls doc st0)
      as (st1 & -> & (E1 & E2 & E3 & E4 & E5 & E6) & _).
    apply Hcall. destruct Hrest as (Ht & Hid & Hl & Hf & Hts).
    split; [|exact E3]. repeat split; congruence.
Qed.

(** * The opacity the guards read *)

Lemma fold_left_invariant_in {A : Type} (P : State -> Prop)
    (f : State -> A -> State) (l : list A) :
  (forall x y, In y l -> P x -> P (f x y)) ->
  forall st, P st -> P (fold_left f l st).
Proof.
  induction l as [|y l IH]; intros Hf st H; cbn [fold_left]; [exact H|].
  apply IH.
  - intros x z Hz. apply Hf. now right.
  - apply Hf; [now left | exact H].
Qed.

(** A call either leaves the transition state alone or starts a
    transition. *)
Lemma applyTheme_cases (doc : Document) (s : ThemeSetting) (b : bool) (x : State) :
  same_transition_state x (applyTheme doc s b x)
  \/ (nothing_missing doc /\ b = false /\ isTransitioning x = false
      /\ visible_theme x <> s).
Proof.
  destruct (themeOverlay doc) eqn:Ho;
    [destruct (sunIcon doc) eqn:Hs; [destruct (moonIcon doc) eqn:Hm|]|].
  2:{ left. apply (degraded_call doc s b x). right. now right. }
  2:{ left. apply (degraded_call doc s b x). right. now left. }
  2:{ left. apply (degraded_call doc s b x). now left. }
  destruct b.
  - left. rewrite (applyTheme_initial doc Ho Hs Hm).
    destruct (bookkeeping_same_transition_state doc Hs Hm s x)
      as (H1 & H2 & H3 & H4 & H5 & H6).
    repeat split; assumption.
  - destruct (isTransitioning x) eqn:Ht.
    + left. apply (call_without_transition doc Ho Hs Hm s x). now left.
    + destruct (theme_eqb (visible_theme x) s) eqn:Ev.
      * apply theme_eqb_eq in Ev. left.
        apply (call_without_transition doc Ho Hs Hm s x). now right.
      * right. repeat split; try assumption.
        intros E. apply theme_eqb_eq in E. congruence.
Qed.

Lemma applyTheme_starts_overlay (doc : Document) (s : ThemeSetting) (st : State) :
  nothing_missing doc ->
  isTransitioning st = false ->
  visible_theme st <> s ->
  let st' := applyTheme doc s false st in
  opacity (overlay_style st') = "0"
  /\ frame_callbacks st' = frame_callbacks st ++ [setOpacity "1"].
Proof.
  intros (Ho & Hs & Hm) Ht Hv. cbn zeta.
  rewrite (applyTheme_starts doc Ho Hs Hm s st Ht Hv).
  unfold addEventListener, cancel_pending_failsafe, bookkeeping.
  rewrite (updateToggleButtonState_present doc Hs Hm).
  simpl_state.
  destruct (transitionFailsafeTimeoutId st); simpl_state;
    match goal with |- context [if ?b then _ else _] => destruct b end;
    split; reflexivity.
Qed.

Lemma guards_same (x y : State) :
  same_transition_state x y -> guards_kept x y.
Proof.
  intros (_ & _ & H3 & H4 & H5 & _). unfold guards_kept, guards_defined.
  now rewrite H3, H4, H5.
Qed.

Lemma guards_kept_trans (x y z : State) :
  guards_kept x y -> guards_kept y z -> guards_kept x z.
Proof. unfold guards_kept. auto. Qed.

Lemma guards_kept_by_call (doc : Document) (s : ThemeSetting) (b : bool)
    (x : State) :
  guards_kept x (applyTheme doc s b x).
Proof.
  destruct (applyTheme_cases doc s b x) as [H | (Hn & -> & Ht & Hv)];
    [now apply guards_same|].
  destruct (applyTheme_starts_overlay doc s x Hn Ht Hv) as [Ho Hf].
  cbn zeta in *. intros [_ Hfr]. split.
  - right. rewrite Ho. now left.
  - rewrite Hf. apply List.Forall_app. split; [exact Hfr|].
    constructor; [now right | constructor].
Qed.

Lemma opacity_kept_by_frame (x : State) (cb : FrameCallback) :
  frame_opacity_written cb ->
  let y := run_frame_callback x cb in
  (opacity_written (opacity (overlay_style x)) ->
   opacity_written (opacity (overlay_style y)))
  /\ frame_callbacks y = frame_callbacks x
  /\ overlay_listeners y = overlay_listeners x.
Proof.
  intros H. destruct cb as [v | v]; cbn zeta; cbn [run_frame_callback];
    (split; [|split; reflexivity]).
  - intros _. exact H.
  - exact (fun H0 => H0).
Qed.

Lemma guards_kept_by_frame (x : State) : guards_kept x (animation_frame x).
Proof.
  intros [Hl Hfr]. unfold animation_frame.
  assert (H : let y := fold_left run_frame_callback (frame_callbacks x)
                         (set_frame_callbacks [] x) in
              (opacity_written (opacity (overlay_style x)) ->
               opacity_written (opacity (overlay_style y)))
              /\ frame_callbacks y = []
              /\ overlay_listeners y = overlay_listeners x).
  { cbn zeta.
    apply (fold_left_invariant_in
             (fun y => (opacity_written (opacity (overlay_style x)) ->
                        opacity_written (opacity (overlay_style y)))
                       /\ frame_callbacks y = []
                       /\ overlay_listeners y = overlay_listeners x)).
    - intros y cb Hin (H1 & H2 & H3).
      rewrite List.Forall_forall in Hfr.
      destruct (opacity_kept_by_frame y cb (Hfr cb Hin)) as (G1 & G2 & G3).
      cbn zeta in *. split; [auto|]. split; congruence.
    - repeat split. exact (fun H0 => H0). }
  cbn zeta in H. destruct H as (H1 & H2 & H3). split.
  - rewrite H3. destruct Hl as [Hl | Hl]; [now left | right; auto].
  - rewrite H2. constructor.
Qed.

Lemma opacity_kept_trans (x y z : State) :
  opacity_kept x y -> opacity_kept y z -> opacity_kept x z.
Proof. unfold opacity_kept. auto. Qed.

Lemma opacity_same (x y : State) :
  opacity (overlay_style y) = opacity (overlay_style x) ->
  frame_callbacks y = frame_callbacks x ->
  opacity_kept x y.
Proof.
  intros H1 H2. unfold opacity_kept, opacity_known. now rewrite H1, H2.
Qed.

Lemma opacity_kept_by_reset (doc : Document) (x : State) :
  let y := resetTransitionOverlay doc x in
  opacity (overlay_style y)
  = (if themeOverlay doc then "0" else opacity (overlay_style x))
  /\ frame_callbacks y = frame_callbacks x
  /\ overlay_listeners y = overlay_listeners x.
Proof.
  cbn zeta. unfold resetTransitionOverlay.
  destruct (themeOverlay doc); simpl_state;
    destruct (transitionFailsafeTimeoutId x) as [h|] eqn:Eid; simpl_state;
    rewrite ?Eid; simpl_state; repeat split.
Qed.

Lemma opacity_kept_by_listener (doc : Document) (l : Listener)
    (event : TransitionEvent) (x : State) :
  opacity_kept x (call_listener doc l event x).
Proof.
  unfold call_listener. destruct (handler l) as [s bg | |].
  - unfold handlePhase1End.
    match goal with |- context [if ?b then x else _] => destruct b end;
      [exact (fun H => H)|].
    cbn zeta. unfold addEventListener, removeEventListener.
    match goal with |- context [if ?b then _ else _] => destruct b end;
      intros [H1 H2]; (split; [exact H1|]); simpl_state;
      (apply List.Forall_app; split; [exact H2 | repeat constructor]).
  - unfold handlePhase2End.
    match goal with |- context [if ?b then x else _] => destruct b end;
      [exact (fun H => H)|].
    cbn zeta. unfold addEventListener, removeEventListener.
    match goal with |- context [if ?b then _ else _] => destruct b end;
      intros [H1 H2]; (split; [exact H1|]); simpl_state;
      (apply List.Forall_app; split; [exact H2|]);
      (constructor; [now left | constructor]).
  - unfold handlePhase3End.
    match goal with |- context [if ?b then x else _] => destruct b end;
      [exact (fun H => H)|].
    destruct (opacity_kept_by_reset doc x) as (H1 & H2 & _). cbn zeta in *.
    intros [G1 G2]. split; [|now rewrite H2].
    rewrite H1. destruct (themeOverlay doc); [now left | exact G1].
Qed.

Lemma guards_kept_by_dispatch (doc : Document) (event : TransitionEvent)
    (x : State) :
  guards_kept x (dispatch_transitionend doc event x).
Proof.
  intros [Hl Hfr]. unfold dispatch_transitionend.
  destruct Hl as [Hl | Hop].
  { rewrite Hl. cbn [fold_left].
    destruct (target event); (split; [left; exact Hl | exact Hfr]). }
  assert (H : opacity_known (fold_left (invoke doc event) (overlay_listeners x) x)).
  { apply fold_left_invariant; [|split; assumption].
    intros y l Hy. unfold invoke.
    destruct (existsb (same_callback l) (overlay_listeners y)); [|exact Hy].
    apply opacity_kept_by_listener. destruct (once l); exact Hy. }
  destruct (target event); try (destruct H as [H1 H2]; split; [now right | exact H2]).
  split; [now right | exact Hfr].
Qed.

Lemma guards_fields (x y : State) :
  overlay_listeners y = overlay_listeners x ->
  opacity (overlay_style y) = opacity (overlay_style x) ->
  frame_callbacks y = frame_callbacks x ->
  guards_kept x y.
Proof.
  intros H1 H2 H3. unfold guards_kept, guards_defined. now rewrite H1, H2, H3.
Qed.

Lemma guards_kept_by_reset (doc : Document) (x : State) :
  guards_kept x (resetTransitionOverlay doc x).
Proof.
  destruct (opacity_kept_by_reset doc x) as (H1 & H2 & H3). cbn zeta in *.
  intros [Hl Hfr]. split; [|now rewrite H2].
  rewrite H1, H3. destruct (themeOverlay doc); [right; now left | exact Hl].
Qed.

Lemma guards_kept_by_timer (doc : Document) (h : positive) (x : State) :
  guards_kept x (timer_fires doc h x).
Proof.
  apply (timer_fires_kept doc guards_kept).
  - exact (fun y H => H).
  - exact guards_kept_trans.
  - intros. now apply guards_fields.
  - exact (guards_kept_by_reset doc).
  - intros. now apply guards_fields.
  - intros. now apply guards_fields.
  - intros y. apply guards_same. apply updateToggleButtonState_elsewhere.
Qed.

Lemma guards_kept_by_step (doc : Document) (x : State) (e : Event) :
  guards_kept x (step doc x e).
Proof.
  destruct e as [| | event | h]; cbn [step].
  - unfold toggle_click. destruct (themeToggleButton doc);
      [apply guards_kept_by_call | exact (fun H => H)].
  - apply guards_kept_by_frame.
  - apply guards_kept_by_dispatch.
  - apply guards_kept_by_timer.
Qed.

(** X15. The guards of the phase handlers read the inline opacity of the
    overlay with [parseFloat].  On a page that starts at rest, whenever a
    phase handler is registered, that opacity is '0' or '1', the strings the
    script writes: the guards never compare with NaN, the guard of phase 1
    lets an opacity notification of the overlay through exactly when the
    opacity is '1', and the guard of phase 3 exactly when it is '0'. *)
Theorem opacity_guards_defined (doc : Document) (events : list Event)
    (st0 : State) :
  at_rest st0 ->
  let st := run doc events (initComponents doc st0) in
  let o := opacity (overlay_style st) in
  overlay_listeners st <> [] ->
  (o = "0" \/ o = "1")
  /\ parseFloat o <> NaN
  /\ (js_lt (parseFloat o) (js_of_N 1) = false <-> o = "1")
  /\ (js_gt (parseFloat o) (js_of_N 0) = false <-> o = "0").
Proof.
  intros (Ht & Hid & Hl & Hf & Hts). cbn zeta.
  assert (Hinv : guards_defined (run doc events (initComponents doc st0))).
  { unfold run. apply fold_left_invariant.
    - intros x e. apply guards_kept_by_step.
    - destruct (initComponents_calls doc st0) as (st1 & -> & Hsame & _).
      apply guards_kept_by_call. apply (guards_same st0 st1 Hsame).
      split; [now left | rewrite Hf; constructor]. }
  intros Hne. destruct Hinv as [[Hnone | Hw] _]; [contradiction|].
  split; [exact Hw|].
  destruct Hw as [-> | ->]; repeat split; try discriminate; reflexivity.
Qed.

(** * A transition after an abandoned one *)

Lemma same_callback_closure (a b : Listener) :
  closure a <> closure b -> same_callback a b = false.
Proof.
  intros H. unfold same_callback. apply Nat.eqb_neq in H. now rewrite H.
Qed.

Lemma same_callback_handler (a b : Listener) :
  handler a <> handler b -> same_callback a b = false.
Proof.
  intros H. unfold same_callback. rewrite (bool_decide_eq_false_2 _ H).
  apply andb_false_r.
Qed.

Lemma animation_frame_eq (st : State) :
  animation_frame st
  = fold_left run_frame_callback (frame_callbacks st) (set_frame_callbacks [] st).
Proof. reflexivity. Qed.

Lemma dispatch_eq (doc : Document) (event : TransitionEvent) (st : State) :
  target event = OverlayElement ->
  dispatch_transitionend doc event st
  = fold_left (invoke doc event) (overlay_listeners st) st.
Proof. intros H. unfold dispatch_transitionend. now rewrite H. Qed.

Lemma invoke_eq (doc : Document) (event : TransitionEvent) (st : State)
    (l : Listener) :
  once l = true ->
  invoke doc event st l
  = if existsb (same_callback l) (overlay_listeners st)
    then call_listener doc l event (removeEventListener l st)
    else st.
Proof. intros H. unfold invoke. now rewrite H. Qed.

Lemma handlePhase1End_accepts (c : nat) (s : ThemeSetting) (bg : string)
    (event : TransitionEvent) (st : State) :
  target event = OverlayElement ->
  propertyName event = "opacity" ->
  js_lt (parseFloat (opacity (overlay_style st))) (js_of_N 1) = false ->
  handlePhase1End c s bg event st =
  addEventListener (listener c Phase2End)
    (requestAnimationFrame (setBackgroundColor bg)
       (overlay_set_transition "background-color 700ms ease-in-out"
          (body_classList_remove "theme-transition-active"
             (body_offsetHeight
                (setVisualThemeOnBody s
                   (body_offsetHeight
                      (body_classList_add "theme-transition-active"
                         (removeEventListener (listener c (Phase1End s bg)) st)))))))).
Proof.
  intros Ht Hp Ho. unfold handlePhase1End.
  rewrite Ht, Hp, Ho, transition_phase2. reflexivity.
Qed.

Lemma handlePhase2End_accepts (c : nat) (event : TransitionEvent) (st : State) :
  target event = OverlayElement ->
  propertyName event = "background-color" ->
  handlePhase2End c event st =
  addEventListener (listener c Phase3End)
    (requestAnimationFrame (setOpacity "0")
       (overlay_set_transition "opacity 500ms ease-in-out"
          (removeEventListener (listener c Phase2End) st))).
Proof.
  intros Ht Hp. unfold handlePhase2End.
  rewrite Ht, Hp, transition_phase3. reflexivity.
Qed.

(** Decides which registered callbacks are the same one. *)
Ltac callbacks :=
  repeat match goal with
         | |- context [same_callback ?a ?b] =>
             first [ rewrite (same_callback_refl a)
                   | rewrite (same_callback_closure a b)
                       by (cbn [closure handler listener]; lia)
                   | rewrite (same_callback_handler a b)
                       by (cbn [closure handler listener]; discriminate) ]
         end;
  cbn [negb orb andb app].

Ltac on_record doc Ho :=
  unfold addEventListener, removeEventListener, resetTransitionOverlay;
  rewrite ?Ho;
  norm_state; rewrite ?cancel_only_timer;
  repeat (progress (cbn [List.filter existsb negb orb andb app]; callbacks)).

(** Like [forward], with any listeners on the overlay. *)
Ltac deliver_event doc Ho :=
  match goal with
  | |- context [animation_frame ?X] =>
      is_record X; rewrite (animation_frame_eq X);
      cbn [frame_callbacks fold_left run_frame_callback]; norm_state
  | |- context [dispatch_transitionend doc ?ev ?X] =>
      is_record X; rewrite (dispatch_eq doc ev X) by reflexivity;
      cbn [overlay_listeners fold_left]
  | |- context [invoke doc ?ev ?X ?l] =>
      is_record X; rewrite (invoke_eq doc ev X l) by reflexivity;
      cbn [overlay_listeners existsb]; callbacks;
      first [ rewrite call_listener_rejected by reflexivity
            | cbn [call_listener handler closure listener];
              first [ rewrite handlePhase1End_accepts by side
                    | rewrite handlePhase2End_accepts by side
                    | rewrite (handlePhase3End_passes doc) by side ]
            | idtac ];
      on_record doc Ho
  end.

Ltac open_abandoned st :=
  destruct st as [tr id cur store body sun moon aria style ls fs ts h c log0];
  repeat match goal with
         | H : _ |- _ => progress simpl_state_in H
         end;
  subst tr id ls fs ts.

(** The next transition is not disturbed by what an abandoned one left
    behind: the old handler is called once more, or rejected, by the first
    notification, and is gone when the transition ends. *)
Lemma abandoned_handler_is_flushed (doc : Document) (st : State)
    (l0 : Listener) (fs0 : list FrameCallback) (s : ThemeSetting) :
  themeOverlay doc = true -> sunIcon doc = true -> moonIcon doc = true ->
  abandoned l0 fs0 st ->
  (length fs0 <= 1)%nat ->
  visible_theme st <> s ->
  let final := run doc happy_path (applyTheme doc s false st) in
  at_rest final
  /\ visible_theme final = s
  /\ currentThemeSetting final = s
  /\ persisted final = Some (theme_str s)
  /\ toggle_shows s final
  /\ pointerEvents (overlay_style final) = "none"
  /\ opacity (overlay_style final) = "0".
Proof.
  intros Ho Hs Hm (Ht & Hid & Hts & Hl & Hon & Hc & Hf) Hlen Hv. cbn zeta.
  unfold happy_path, run. cbn [fold_left step].
  destruct l0 as [c0 h0 o0]. cbn [once closure] in Hon, Hc. subst o0.
  change {| closure := c0; handler := h0; once := true |} with (listener c0 h0) in *.
  open_abandoned st.
  assert (Hfs : fs0 = [] \/ exists cb, fs0 = [cb]).
  { destruct fs0 as [|cb [|cb' fs0]]; [now left | right; now exists cb|].
    cbn in Hlen. lia. }
  clear Hlen.
  match goal with
  | |- context [applyTheme doc s false ?X] =>
      rewrite (applyTheme_starts doc Ho Hs Hm s X eq_refl Hv)
  end.
  unfold bookkeeping. rewrite (updateToggleButtonState_present doc Hs Hm).
  unfold cancel_pending_failsafe.
  pose proof (icon_toggled (theme_eqb s light) (negb (theme_eqb s light)) sun)
    as [? ?].
  pose proof (icon_toggled (theme_eqb s dark) (negb (theme_eqb s dark)) moon)
    as [? ?].
  cbn zeta in *.
  destruct Hfs as [-> | [[v | v] ->]]; destruct h0 as [s0 bg0 | |];
    on_record doc Ho;
    repeat deliver_event doc Ho;
    unfold persisted, localStorage_getItem, visible_theme, at_rest, toggle_shows;
    simpl_state;
    rewrite ?contains_remove_same,
      ?(contains_remove_other _ _ _ dark_mode_neq_active),
      ?contains_toggle_same, ?theme_of_flag, ?lookup_insert_eq;
    repeat match goal with |- _ /\ _ => split end;
    try reflexivity; assumption.
Qed.

Lemma timer_fires_only (doc : Document) (h : positive) (ms : N) (st : State) :
  timers st = [{| handle := h; delay := ms; callback := failsafe |}] ->
  timer_fires doc h st = failsafeCallback doc (set_timers [] st).
Proof.
  intros H. unfold timer_fires. rewrite H. cbn [List.find handle].
  rewrite Pos.eqb_refl. cbn [callback]. now rewrite cancel_only_timer.
Qed.

Lemma failsafeCallback_true (doc : Document) (st : State) :
  isTransitioning st = true ->
  failsafeCallback doc st =
  let r := resetTransitionOverlay doc
             (console_warn "Theme transition (multi-phase) failsafe triggered." st) in
  updateToggleButtonState doc (currentThemeSetting st)
    (if theme_eqb (visible_theme r) (currentThemeSetting st) then r
     else setVisualThemeOnBody (currentThemeSetting st) r).
Proof.
  intros H. unfold failsafeCallback. rewrite H. cbn zeta.
  assert (Hc : forall x, currentThemeSetting (resetTransitionOverlay doc x)
                         = currentThemeSetting x).
  { intros x. apply (resetTransitionOverlay_kept doc setting_kept);
      first [exact setting_kept_trans | intros; exact eq_refl]. }
  rewrite Hc. cbn [currentThemeSetting console_warn log set_trace].
  destruct (theme_eqb _ _); cbn [negb]; [now rewrite Hc|].
  cbn [setVisualThemeOnBody body_classList_toggle log set_trace set_body_classList
       currentThemeSetting].
  now rewrite Hc.
Qed.

(** The failsafe fires after [k] of the six events of a transition: what
    it leaves. *)
Lemma failsafe_abandons (doc : Document) (st : State) (s : ThemeSetting) (k : nat) :
  themeOverlay doc = true -> sunIcon doc = true -> moonIcon doc = true ->
  at_rest st ->
  visible_theme st <> s ->
  (k < 6)%nat ->
  let r := timer_fires doc (next_handle st)
             (run doc (firstn k happy_path) (applyTheme doc s false st)) in
  (exists l0 fs0, abandoned l0 fs0 r /\ (length fs0 <= 1)%nat)
  /\ visible_theme r = s
  /\ currentThemeSetting r = s
  /\ pointerEvents (overlay_style r) = "none".
Proof.
  intros Ho Hs Hm (Ht & Hf & Hl & Hr & Hts) Hv Hk.
  destruct st as [tr id cur store body sun moon aria style ls fs ts h c log0].
  simpl_state_in Ht. simpl_state_in Hf. simpl_state_in Hl.
  simpl_state_in Hr. simpl_state_in Hts. subst tr id ls fs ts.
  assert (Hcases : k = 0 \/ k = 1 \/ k = 2 \/ k = 3 \/ k = 4 \/ k = 5) by lia.
  clear Hk.
  destruct Hcases as [-> | [-> | [-> | [-> | [-> | ->]]]]];
    cbn zeta; unfold happy_path, run;
    cbn [firstn fold_left step next_handle];
    match goal with
    | |- context [applyTheme doc s false ?X] =>
        is_record X;
        rewrite (applyTheme_starts doc Ho Hs Hm s X eq_refl Hv)
    end;
    unfold bookkeeping; rewrite (updateToggleButtonState_present doc Hs Hm);
    unfold cancel_pending_failsafe, addEventListener;
    norm_state; rewrite !app_nil_l;
    repeat forward doc Ho;
    match goal with
    | |- context [timer_fires doc h ?X] =>
        rewrite (timer_fires_only doc h 2200 X) by reflexivity
    end;
    rewrite failsafeCallback_true by reflexivity;
    cbn zeta; unfold resetTransitionOverlay; rewrite Ho; norm_state;
    rewrite ?cancel_only_timer;
    match goal with
    | |- context [theme_eqb ?a ?b] =>
        destruct (theme_eqb a b) eqn:Ev
    end;
    rewrite (updateToggleButtonState_present doc Hs Hm); norm_state;
    try (apply theme_eqb_eq in Ev);
    unfold visible_theme in *; simpl_state; simpl_state in Ev;
    rewrite ?contains_toggle_same, ?theme_of_flag;
    (split; [eexists _, _; unfold abandoned; simpl_state;
             repeat match goal with |- _ /\ _ => split end;
             try reflexivity; cbn; lia
            |]);
    (split; [first [exact Ev | reflexivity] | split; reflexivity]).
Qed.

(** X14. A transition whose notifications never come is ended by the
    failsafe, which leaves its phase handler on the overlay.  Whatever the
    point at which the notifications stopped, the page then shows the
    setting, the overlay lets the pointer through, and the next click on the
    toggle runs a complete transition: at its end the page is at rest, with
    no handler left, and the body, the setting, the store and the control
    show the other theme. *)
Theorem transition_after_failsafe (doc : Document) (st : State)
    (s : ThemeSetting) (k : nat) :
  themeOverlay doc = true -> sunIcon doc = true -> moonIcon doc = true ->
  at_rest st ->
  visible_theme st <> s ->
  (k < 6)%nat ->
  let recovered :=
    timer_fires doc (next_handle st)
      (run doc (firstn k happy_path) (applyTheme doc s false st)) in
  let final := run doc (ToggleClick :: happy_path) recovered in
  (isTransitioning recovered = false
   /\ timers recovered = []
   /\ overlay_listeners recovered <> []
   /\ visible_theme recovered = s
   /\ currentThemeSetting recovered = s
   /\ pointerEvents (overlay_style recovered) = "none")
  /\ (at_rest final
      /\ visible_theme final = other_theme s
      /\ currentThemeSetting final = other_theme s
      /\ persisted final = Some (theme_str (other_theme s))
      /\ toggle_shows (other_theme s) final
      /\ pointerEvents (overlay_style final) = "none"
      /\ opacity (overlay_style final) = "0").
Proof.
  intros Ho Hs Hm Hrest Hv Hk.
  destruct (failsafe_abandons doc st s k Ho Hs Hm Hrest Hv Hk)
    as ((l0 & fs0 & Hab & Hlen) & Hvis & Hcur & Hpe).
  cbn zeta in *.
  set (recovered := timer_fires doc (next_handle st)
                      (run doc (firstn k happy_path) (applyTheme doc s false st))) in *.
  split.
  - destruct Hab as (H1 & _ & H3 & H4 & _).
    split; [exact H1|]. split; [exact H3|].
    split; [now rewrite H4|]. split; [exact Hvis|]. split; [exact Hcur | exact Hpe].
  - change (run doc (ToggleClick :: happy_path) recovered)
      with (run doc happy_path (toggle_click doc recovered)).
    unfold toggle_click. rewrite (button_present doc Hs), Hcur.
    replace (if theme_eqb s light then dark else light) with (other_theme s)
      by now destruct s.
    apply (abandoned_handler_is_flushed doc recovered l0 fs0 (other_theme s)
             Ho Hs Hm Hab Hlen).
    rewrite Hvis. now destruct s.
Qed.

(** * The page being loaded *)

(** ** Timer handles *)

Lemma handle_le_trans (x y z : State) :
  handle_le x y -> handle_le y z -> handle_le x z.
Proof. unfold handle_le. apply Pos.le_trans. Qed.

Ltac handle_op :=
  intros; unfold handle_le;
  first [ apply Pos.le_refl
        | simpl_state; apply Pos.lt_le_incl, Pos.lt_succ_diag_r ].

Lemma handle_le_by_control (doc : Document) (s : ThemeSetting) (x : State) :
  handle_le x (updateToggleButtonState doc s x).
Proof.
  unfold handle_le, updateToggleButtonState.
  destruct (_ || _); apply Pos.le_refl.
Qed.

Ltac handle_op' := first [ handle_op | intros; apply handle_le_by_control ].

Lemma handle_le_by_step (doc : Document) (x : State) (e : Event) :
  handle_le x (step doc x e).
Proof.
  apply (step_kept doc handle_le);
    kept_by handle_le handle_le_trans handle_op' doc.
Qed.

Lemma handle_le_by_initComponents (doc : Document) (x : State) :
  handle_le x (initComponents doc x).
Proof.
  apply (initComponents_kept doc handle_le);
    kept_by handle_le handle_le_trans handle_op' doc.
Qed.

(** ** What the operations of the tab change *)

Lemma setTimeout_timeouts (cb : Window.TimeoutCallback) (d : Z) (w : Window.Tab) :
  let w' := snd (Window.setTimeout cb d w) in
  Window.timeouts w'
  = Window.timeouts w
    ++ [{| Window.id := next_handle (Window.theme w); Window.ms := d;
           Window.callback := cb |}]
  /\ next_handle (Window.theme w') = Pos.succ (next_handle (Window.theme w))
  /\ body_classList (Window.theme w') = body_classList (Window.theme w)
  /\ Window.preloader_classList w' = Window.preloader_classList w
  /\ Window.classList w' = Window.classList w
  /\ Window.observed w' = Window.observed w.
Proof. cbn. repeat split. Qed.

Lemma same_id_same_timeout (l : list Window.Timeout) (a b : Window.Timeout) :
  List.NoDup (map Window.id l) -> In a l -> In b l ->
  Window.id a = Window.id b -> a = b.
Proof.
  induction l as [|t l IH]; intros Hnd Ha Hb He; [destruct Ha|].
  cbn [map] in Hnd. apply List.NoDup_cons_iff in Hnd as [Hnotin Hnd].
  destruct Ha as [-> | Ha], Hb as [-> | Hb].
  - reflexivity.
  - exfalso. apply Hnotin. rewrite He. now apply in_map.
  - exfalso. apply Hnotin. rewrite <- He. now apply in_map.
  - now apply IH.
Qed.

Lemma NoDup_ids_filter (f : Window.Timeout -> bool) (l : list Window.Timeout) :
  List.NoDup (map Window.id l) -> List.NoDup (map Window.id (List.filter f l)).
Proof.
  induction l as [|t l IH]; intros Hnd; [constructor|].
  cbn [map] in Hnd. apply List.NoDup_cons_iff in Hnd as [Hnotin Hnd].
  cbn [List.filter]. destruct (f t); [|now apply IH].
  cbn [map]. constructor; [|now apply IH].
  intros Hin. apply Hnotin. apply in_map_iff in Hin as (t' & He & Hin).
  apply filter_In in Hin as [Hin _]. rewrite <- He. now apply in_map.
Qed.

Lemma tab_fold_invariant {A : Type} (P : Window.Tab -> Prop)
    (f : Window.Tab -> A -> Window.Tab) (l : list A) :
  (forall x y, P x -> P (f x y)) ->
  forall w, P w -> P (fold_left f l w).
Proof.
  intros Hf. induction l as [|y l IH]; intros w H; cbn [fold_left]; auto.
Qed.

Lemma setTimeout_fresh (cb : Window.TimeoutCallback) (d : Z) (w : Window.Tab) :
  handles_fresh w -> handles_fresh (snd (Window.setTimeout cb d w)).
Proof.
  intros [Hnd Hlt]. unfold handles_fresh. cbn.
  rewrite map_app. cbn [map Window.id]. split.
  - apply List.NoDup_app; [exact Hnd | repeat constructor; intros [] |].
    intros h Hin [<- | []].
    apply in_map_iff in Hin as (t & Hid & Hin).
    rewrite List.Forall_forall in Hlt. specialize (Hlt t Hin).
    rewrite Hid in Hlt. now apply Pos.lt_irrefl in Hlt.
  - apply List.Forall_app. split.
    + eapply List.Forall_impl; [|exact Hlt]. cbn. intros t Ht.
      apply (Pos.lt_trans _ _ _ Ht), Pos.lt_succ_diag_r.
    + constructor; [|constructor]. cbn. apply Pos.lt_succ_diag_r.
Qed.

Lemma fresh_theme (w : Window.Tab) (st : State) :
  (next_handle (Window.theme w) <= next_handle st)%positive ->
  handles_fresh w -> handles_fresh (Window.set_theme st w).
Proof.
  intros Hle [Hnd Hlt]. split; [exact Hnd|]. cbn.
  eapply List.Forall_impl; [|exact Hlt]. cbn. intros t Ht.
  exact (Pos.lt_le_trans _ _ _ Ht Hle).
Qed.

Lemma fresh_filter (f : Window.Timeout -> bool) (w : Window.Tab) :
  handles_fresh w ->
  handles_fresh (Window.set_timeouts (List.filter f (Window.timeouts w)) w).
Proof.
  intros [Hnd Hlt]. split; cbn.
  - now apply NoDup_ids_filter.
  - rewrite List.Forall_forall in *. intros t Hin.
    apply filter_In in Hin as [Hin _]. now apply Hlt.
Qed.

Lemma fresh_run_callback (cb : Window.TimeoutCallback) (w : Window.Tab) :
  handles_fresh w -> handles_fresh (Window.run_callback cb w).
Proof. intros H. destruct cb; exact H. Qed.

Lemma fresh_reveal (m : Window.Markup) (w : Window.Tab)
    (entry : Window.IntersectionObserverEntry) :
  handles_fresh w -> handles_fresh (Window.reveal m w entry).
Proof.
  intros H. unfold Window.reveal.
  destruct (Window.isIntersecting entry); [|exact H].
  now apply setTimeout_fresh.
Qed.

Lemma fresh_deliver (m : Window.Markup)
    (entries : list Window.IntersectionObserverEntry) (w : Window.Tab) :
  handles_fresh w -> handles_fresh (Window.deliver m entries w).
Proof.
  unfold Window.deliver, Window.observer_callback.
  apply tab_fold_invariant. intros x y. apply fresh_reveal.
Qed.

Lemma fresh_step (doc : Document) (m : Window.Markup) (w : Window.Tab)
    (i : Window.Input) :
  handles_fresh w -> handles_fresh (Window.step doc m w i).
Proof.
  intros H. destruct i as [e | entries]; [|now apply fresh_deliver].
  assert (Ht : handles_fresh (Window.set_theme (step doc (Window.theme w) e) w))
    by (apply fresh_theme; [apply handle_le_by_step | exact H]).
  destruct e as [| | event | h]; try exact Ht.
  cbn [Window.step].
  destruct (List.find _ (Window.timeouts w)) as [t|]; [|exact Ht].
  apply fresh_run_callback. now apply fresh_filter.
Qed.

Lemma observe_theme (w : Window.Tab) (el : Window.Node) :
  Window.theme (Window.observe w el) = Window.theme w
  /\ Window.timeouts (Window.observe w el) = Window.timeouts w
  /\ Window.preloader_classList (Window.observe w el) = Window.preloader_classList w
  /\ Window.classList (Window.observe w el) = Window.classList w.
Proof.
  unfold Window.observe. destruct (existsb _ _); repeat split.
Qed.

(** [initComponents] changes the theme state and the targets of the
    observer. *)
Lemma initComponents_tab (doc : Document) (m : Window.Markup) (w : Window.Tab) :
  let w' := Window.initComponents doc m w in
  Window.theme w' = initComponents doc (Window.theme w)
  /\ Window.timeouts w' = Window.timeouts w
  /\ Window.preloader_classList w' = Window.preloader_classList w
  /\ Window.classList w' = Window.classList w.
Proof.
  cbn zeta. unfold Window.initComponents.
  destruct (0 <? length (Window.revealElements m))%nat; [|repeat split].
  apply (tab_fold_invariant
           (fun x => Window.theme x = initComponents doc (Window.theme w)
                     /\ Window.timeouts x = Window.timeouts w
                     /\ Window.preloader_classList x = Window.preloader_classList w
                     /\ Window.classList x = Window.classList w));
    [|repeat split].
  intros x el (H1 & H2 & H3 & H4).
  destruct (observe_theme x el) as (E1 & E2 & E3 & E4).
  repeat split; congruence.
Qed.

Lemma fresh_initComponents (doc : Document) (m : Window.Markup) (w : Window.Tab) :
  handles_fresh w -> handles_fresh (Window.initComponents doc m w).
Proof.
  intros [Hnd Hlt].
  destruct (initComponents_tab doc m w) as (E1 & E2 & _). cbn zeta in *.
  unfold handles_fresh. rewrite E1, E2. split; [exact Hnd|].
  eapply List.Forall_impl; [|exact Hlt]. cbn. intros t Ht.
  exact (Pos.lt_le_trans _ _ _ Ht (handle_le_by_initComponents doc _)).
Qed.

Lemma fresh_load (doc : Document) (m : Window.Markup) (w : Window.Tab) :
  handles_fresh w -> handles_fresh (Window.load doc m w).
Proof.
  intros H. unfold Window.load. apply fresh_initComponents.
  destruct (Window.has_preloader m); [now apply setTimeout_fresh | exact H].
Qed.

Lemma fresh_run (doc : Document) (m : Window.Markup) (inputs : list Window.Input)
    (w : Window.Tab) :
  handles_fresh w -> handles_fresh (Window.run doc m inputs w).
Proof.
  unfold Window.run. apply tab_fold_invariant. intros x i. apply fresh_step.
Qed.

(** ** What a callback has done stays done *)

(** Computes the fields of a tab built from the operations. *)
Ltac simpl_tab :=
  cbn [Window.theme Window.preloader_classList Window.classList Window.observed
       Window.timeouts Window.set_theme Window.set_preloader_classList
       Window.set_classList Window.set_observed Window.set_timeouts
       Window.setTimeout Window.run_callback callback_done
       Window.id Window.ms Window.callback fst snd];
  unfold Window.classes;
  cbn [Window.theme Window.preloader_classList Window.classList Window.observed
       Window.timeouts Window.set_theme Window.set_preloader_classList
       Window.set_classList Window.set_observed Window.set_timeouts];
  simpl_state.

Lemma contains_add_kept (c c' : string) (l : list string) :
  ClassList.contains c l = true -> ClassList.contains c (ClassList.add c' l) = true.
Proof.
  intros H. unfold ClassList.add. destruct (ClassList.contains c' l); [exact H|].
  unfold ClassList.contains in *. rewrite existsb_app, H. reflexivity.
Qed.

Lemma preloader_done_not_theme_class : theme_class "preloader-done" = false.
Proof. reflexivity. Qed.

(** A theme event leaves the class [preloader-done] where it is. *)
Lemma preloader_done_kept (x y : State) :
  other_classes_kept x y ->
  ClassList.contains "preloader-done" (body_classList y)
  = ClassList.contains "preloader-done" (body_classList x).
Proof.
  intros H. unfold other_classes_kept in H.
  rewrite <- (contains_other_classes _ (body_classList y) preloader_done_not_theme_class).
  rewrite H. now apply contains_other_classes.
Qed.

Lemma done_theme (cb : Window.TimeoutCallback) (w : Window.Tab) (st : State) :
  other_classes_kept (Window.theme w) st ->
  callback_done cb w -> callback_done cb (Window.set_theme st w).
Proof.
  intros Hk. destruct cb; simpl_tab; [|auto].
  intros [H1 H2]. split; [exact H1|]. now rewrite (preloader_done_kept _ _ Hk).
Qed.

Lemma done_run_callback (cb cb' : Window.TimeoutCallback) (w : Window.Tab) :
  callback_done cb w -> callback_done cb (Window.run_callback cb' w).
Proof.
  destruct cb as [|n], cb' as [|n']; simpl_tab.
  - intros [H1 H2]. split; now apply contains_add_kept.
  - auto.
  - auto.
  - intros H.
    destruct (decide (n' = n)) as [-> | Hne].
    + rewrite lookup_total_insert_eq. now apply contains_add_kept.
    + now rewrite lookup_total_insert_ne.
Qed.

Lemma run_callback_does (cb : Window.TimeoutCallback) (w : Window.Tab) :
  callback_done cb (Window.run_callback cb w).
Proof.
  destruct cb as [|n]; simpl_tab.
  - split; apply contains_add_same.
  - rewrite lookup_total_insert_eq. apply contains_add_same.
Qed.

Lemma done_setTimeout (cb cb' : Window.TimeoutCallback) (d : Z) (w : Window.Tab) :
  callback_done cb w -> callback_done cb (snd (Window.setTimeout cb' d w)).
Proof. destruct cb; exact (fun H => H). Qed.

Lemma done_reveal (cb : Window.TimeoutCallback) (m : Window.Markup)
    (w : Window.Tab) (entry : Window.IntersectionObserverEntry) :
  callback_done cb w -> callback_done cb (Window.reveal m w entry).
Proof.
  intros H. unfold Window.reveal.
  destruct (Window.isIntersecting entry); [|exact H].
  now apply done_setTimeout.
Qed.

Lemma done_step (doc : Document) (m : Window.Markup) (cb : Window.TimeoutCallback)
    (w : Window.Tab) (i : Window.Input) :
  callback_done cb w -> callback_done cb (Window.step doc m w i).
Proof.
  intros H. destruct i as [e | entries].
  - assert (Ht : callback_done cb (Window.set_theme (step doc (Window.theme w) e) w))
      by (apply done_theme; [apply other_classes_kept_by_step | exact H]).
    destruct e as [| | event | h]; try exact Ht.
    cbn [Window.step].
    destruct (List.find _ (Window.timeouts w)) as [t|]; [|exact Ht].
    apply done_run_callback. destruct cb; exact H.
  - cbn [Window.step]. unfold Window.deliver, Window.observer_callback.
    apply tab_fold_invariant; [|exact H]. intros x y. apply done_reveal.
Qed.

Lemma done_run (doc : Document) (m : Window.Markup) (cb : Window.TimeoutCallback)
    (inputs : list Window.Input) (w : Window.Tab) :
  callback_done cb w -> callback_done cb (Window.run doc m inputs w).
Proof.
  unfold Window.run. apply tab_fold_invariant. intros x i. apply done_step.
Qed.

(** ** A pending timer is not lost *)

Lemma reveal_appends (m : Window.Markup) (w : Window.Tab)
    (entry : Window.IntersectionObserverEntry) (t : Window.Timeout) :
  In t (Window.timeouts w) -> In t (Window.timeouts (Window.reveal m w entry)).
Proof.
  intros H. unfold Window.reveal.
  destruct (Window.isIntersecting entry); [|exact H].
  simpl_tab. apply in_or_app. now left.
Qed.

Lemma timer_found (h : positive) (t : Window.Timeout) (l : list Window.Timeout) :
  List.NoDup (map Window.id l) -> In t l -> Window.id t = h ->
  List.find (fun t => Pos.eqb (Window.id t) h) l = Some t.
Proof.
  intros Hnd Hin He.
  destruct (List.find _ l) as [t'|] eqn:Ef.
  - apply find_some in Ef as [Hin' He']. apply Pos.eqb_eq in He'.
    f_equal. apply (same_id_same_timeout l); congruence.
  - apply (find_none _ _ Ef) in Hin. cbn in Hin.
    apply Pos.eqb_neq in Hin. contradiction.
Qed.

(** Until it fires, a timer stays pending; once it has fired, what it did
    is done. *)
Lemma pending_or_done (doc : Document) (m : Window.Markup) (t : Window.Timeout)
    (w : Window.Tab) (i : Window.Input) :
  handles_fresh w ->
  In t (Window.timeouts w) \/ callback_done (Window.callback t) w ->
  let w' := Window.step doc m w i in
  In t (Window.timeouts w') \/ callback_done (Window.callback t) w'.
Proof.
  intros [Hnd _] [Hin | Hdone]; cbn zeta; [|right; now apply done_step].
  destruct i as [e | entries].
  - destruct e as [| | event | h]; try (left; exact Hin).
    cbn [Window.step].
    destruct (List.find _ (Window.timeouts w)) as [t'|] eqn:Ef; [|left; exact Hin].
    destruct (Pos.eqb (Window.id t) h) eqn:Eh.
    + apply Pos.eqb_eq in Eh.
      rewrite (timer_found h t _ Hnd Hin Eh) in Ef. injection Ef as <-.
      right. apply run_callback_does.
    + left. destruct (Window.callback t'); simpl_tab;
        apply filter_In; (split; [exact Hin | now rewrite Eh]).
  - left. cbn [Window.step]. unfold Window.deliver, Window.observer_callback.
    apply (tab_fold_invariant (fun x => In t (Window.timeouts x))); [|exact Hin].
    intros x y. apply reveal_appends.
Qed.

Lemma run_app (doc : Document) (m : Window.Markup) (a b : list Window.Input)
    (w : Window.Tab) :
  Window.run doc m (a ++ b) w = Window.run doc m b (Window.run doc m a w).
Proof. unfold Window.run. apply fold_left_app. Qed.

(** A pending timer whose handle the browser fires, at whatever point, has
    done its work from then on. *)
Lemma pending_timeout_runs (doc : Document) (m : Window.Markup)
    (t : Window.Timeout) (before after : list Window.Input) (w : Window.Tab) :
  handles_fresh w ->
  In t (Window.timeouts w) ->
  callback_done (Window.callback t)
    (Window.run doc m
       (before ++ Window.ThemeEvent (TimerFires (Window.id t)) :: after) w).
Proof.
  intros Hf Hin. rewrite run_app.
  change (Window.run doc m (?e :: after) ?x)
    with (Window.run doc m after (Window.step doc m x e)).
  apply done_run.
  assert (H : handles_fresh (Window.run doc m before w)
              /\ (In t (Window.timeouts (Window.run doc m before w))
                  \/ callback_done (Window.callback t) (Window.run doc m before w))).
  { unfold Window.run.
    apply (tab_fold_invariant
             (fun x => handles_fresh x
                       /\ (In t (Window.timeouts x)
                           \/ callback_done (Window.callback t) x))).
    - intros x i [Hx Hp]. split; [now apply fresh_step|].
      now apply pending_or_done.
    - split; [exact Hf | now left]. }
  destruct H as [[Hnd _] [Hp | Hd]]; [|now apply done_step].
  cbn [Window.step].
  rewrite (timer_found (Window.id t) t _ Hnd Hp eq_refl).
  apply run_callback_does.
Qed.

(** ** The preloader *)

Lemma load_tab (doc : Document) (m : Window.Markup) (w : Window.Tab) :
  let w1 := if Window.has_preloader m
            then snd (Window.setTimeout Window.hidePreloader 250 w) else w in
  let w' := Window.load doc m w in
  Window.theme w' = initComponents doc (Window.theme w1)
  /\ Window.timeouts w' = Window.timeouts w1
  /\ Window.preloader_classList w' = Window.preloader_classList w
  /\ Window.classList w' = Window.classList w
  /\ body_classList (Window.theme w1) = body_classList (Window.theme w)
  /\ persisted (Window.theme w1) = persisted (Window.theme w).
Proof.
  cbn zeta. unfold Window.load.
  destruct (initComponents_tab doc m
              (if Window.has_preloader m
               then snd (Window.setTimeout Window.hidePreloader 250 w) else w))
    as (E1 & E2 & E3 & E4).
  cbn zeta in *. rewrite E1, E2, E3, E4.
  destruct (Window.has_preloader m); repeat split.
Qed.

(** X8. The [load] listener, in a page with a preloader: when it returns,
    the body has the class of the stored theme, the store and the variable
    agree, the preloader and the other classes of the body are as they were,
    and one more timer is pending, of 250 ms.  Whenever that timer fires,
    whatever the browser delivers before and after, the preloader has the
    class [loaded] and the body the class [preloader-done], and no event
    of the theme logic takes them off again. *)
Theorem preloader_dismissed (doc : Document) (m : Window.Markup)
    (w0 : Window.Tab) (before after : list Window.Input) :
  Window.has_preloader m = true ->
  handles_fresh w0 ->
  let h := next_handle (Window.theme w0) in
  let w := Window.load doc m w0 in
  (visible_theme (Window.theme w) = setting_at_load (Window.theme w0)
   /\ stored_is_setting (Window.theme w)
   /\ other_classes (body_classList (Window.theme w))
      = other_classes (body_classList (Window.theme w0))
   /\ Window.preloader_classList w = Window.preloader_classList w0
   /\ Window.timeouts w
      = Window.timeouts w0
        ++ [{| Window.id := h; Window.ms := 250;
               Window.callback := Window.hidePreloader |}])
  /\ callback_done Window.hidePreloader
       (Window.run doc m (before ++ Window.ThemeEvent (TimerFires h) :: after) w).
Proof.
  intros Hp Hf. cbn zeta.
  destruct (load_tab doc m w0) as (E1 & E2 & E3 & E4 & E5 & E6).
  cbn zeta in *. rewrite Hp in *.
  set (st1 := Window.theme (snd (Window.setTimeout Window.hidePreloader 250 w0))) in *.
  assert (Hload : setting_at_load st1 = setting_at_load (Window.theme w0))
    by (unfold setting_at_load; now rewrite E6).
  split.
  - rewrite E1, E2, E3.
    destruct (initComponents_calls doc st1) as (st2 & Hcall & _ & Hbody).
    destruct (initial_call doc (setting_at_load st1) st2) as (Hc & Hs & Hv & _).
    cbn zeta in *. rewrite <- Hcall in Hc, Hs, Hv.
    split; [now rewrite Hv|].
    split; [unfold stored_is_setting; now rewrite Hc|].
    split; [|split; reflexivity].
    rewrite (other_classes_kept_by_initComponents doc st1). now rewrite E5.
  - apply (pending_timeout_runs doc m
             {| Window.id := next_handle (Window.theme w0); Window.ms := 250;
                Window.callback := Window.hidePreloader |}).
    + now apply fresh_load.
    + rewrite E2. apply in_or_app. right. now left.
Qed.

(** One step of a tab in which no pending timer would dismiss the
    preloader. *)
Lemma no_dismissal_step (doc : Document) (m : Window.Markup) (w : Window.Tab)
    (i : Window.Input) :
  no_dismissal_pending w ->
  let w' := Window.step doc m w i in
  no_dismissal_pending w'
  /\ Window.preloader_classList w' = Window.preloader_classList w
  /\ ClassList.contains "preloader-done" (body_classList (Window.theme w'))
     = ClassList.contains "preloader-done" (body_classList (Window.theme w)).
Proof.
  intros H. cbn zeta. destruct i as [e | entries].
  - assert (Ht : let w' := Window.set_theme (step doc (Window.theme w) e) w in
                 no_dismissal_pending w'
                 /\ Window.preloader_classList w' = Window.preloader_classList w
                 /\ ClassList.contains "preloader-done" (body_classList (Window.theme w'))
                    = ClassList.contains "preloader-done" (body_classList (Window.theme w))).
    { cbn zeta. split; [exact H|]. split; [reflexivity|].
      apply preloader_done_kept, other_classes_kept_by_step. }
    destruct e as [| | event | h]; try exact Ht.
    cbn [Window.step].
    destruct (List.find _ (Window.timeouts w)) as [t|] eqn:Ef; [|exact Ht].
    apply find_some in Ef as [Hin _].
    unfold no_dismissal_pending in *. rewrite List.Forall_forall in H.
    pose proof (H t Hin) as Hcb.
    destruct (Window.callback t) as [|n]; [congruence|].
    simpl_tab. split; [|split; reflexivity].
    rewrite List.Forall_forall. intros t' Hin'.
    apply filter_In in Hin' as [Hin' _]. now apply H.
  - cbn [Window.step]. unfold Window.deliver, Window.observer_callback.
    apply (tab_fold_invariant
             (fun x => no_dismissal_pending x
                       /\ Window.preloader_classList x = Window.preloader_classList w
                       /\ ClassList.contains "preloader-done" (body_classList (Window.theme x))
                          = ClassList.contains "preloader-done"
                              (body_classList (Window.theme w))));
      [|split; [exact H | split; reflexivity]].
    intros x entry (H1 & H2 & H3). unfold Window.reveal.
    destruct (Window.isIntersecting entry); [|now repeat split].
    simpl_tab. split; [|split; assumption].
    unfold no_dismissal_pending. simpl_tab.
    apply List.Forall_app. split; [exact H1|].
    constructor; [discriminate | constructor].
Qed.

(** X9. A page without the element [#preloader]: the [load] listener sets
    no timer for it, and unless a timer set by other code does it, the body
    never gets the class [preloader-done], whatever the browser delivers;
    the style sheet keeps [main] and [footer] transparent without it. *)
Theorem without_preloader_never_done (doc : Document) (m : Window.Markup)
    (w0 : Window.Tab) (inputs : list Window.Input) :
  Window.has_preloader m = false ->
  no_dismissal_pending w0 ->
  let w := Window.run doc m inputs (Window.load doc m w0) in
  Window.timeouts (Window.load doc m w0) = Window.timeouts w0
  /\ no_dismissal_pending w
  /\ ClassList.contains "preloader-done" (body_classList (Window.theme w))
     = ClassList.contains "preloader-done" (body_classList (Window.theme w0)).
Proof.
  intros Hp H0. cbn zeta.
  destruct (load_tab doc m w0) as (E1 & E2 & E3 & E4 & E5 & E6).
  cbn zeta in *. rewrite Hp in *.
  split; [exact E2|].
  assert (Hload : no_dismissal_pending (Window.load doc m w0)
                  /\ ClassList.contains "preloader-done"
                       (body_classList (Window.theme (Window.load doc m w0)))
                     = ClassList.contains "preloader-done"
                         (body_classList (Window.theme w0))).
  { split; [unfold no_dismissal_pending; now rewrite E2|].
    rewrite E1. apply preloader_done_kept, other_classes_kept_by_initComponents. }
  unfold Window.run.
  apply (tab_fold_invariant
           (fun x => no_dismissal_pending x
                     /\ ClassList.contains "preloader-done"
                          (body_classList (Window.theme x))
                        = ClassList.contains "preloader-done"
                            (body_classList (Window.theme w0))));
    [|exact Hload].
  intros x i [H1 H2].
  destruct (no_dismissal_step doc m x i H1) as (G1 & _ & G3). cbn zeta in *.
  split; [exact G1 | congruence].
Qed.

(** ** Scroll reveal *)

Lemma tab_fold_invariant_in {A : Type} (P : Window.Tab -> Prop)
    (f : Window.Tab -> A -> Window.Tab) (l : list A) :
  (forall x y, In y l -> P x -> P (f x y)) ->
  forall w, P w -> P (fold_left f l w).
Proof.
  induction l as [|y l IH]; intros Hf w H; cbn [fold_left]; [exact H|].
  apply IH.
  - intros x z Hz. apply Hf. now right.
  - apply Hf; [now left | exact H].
Qed.

Lemma indexOf_from_found (x : Window.Node) (l : list Window.Node) (k : nat) (i : Z) :
  List.NoDup l -> nth_error l k = Some x ->
  Window.indexOf_from i x l = (i + Z.of_nat k)%Z.
Proof.
  revert k i. induction l as [|y l IH]; intros k i Hnd Hk.
  - destruct k; discriminate Hk.
  - apply List.NoDup_cons_iff in Hnd as [Hnotin Hnd]. cbn [Window.indexOf_from].
    destruct k as [|k]; cbn [nth_error] in Hk.
    + injection Hk as ->. rewrite Nat.eqb_refl. lia.
    + destruct (Nat.eqb y x) eqn:E.
      * apply Nat.eqb_eq in E. subst y. exfalso. apply Hnotin.
        now apply nth_error_In in Hk.
      * rewrite (IH k (i + 1)%Z Hnd Hk). lia.
Qed.

Lemma indexOf_from_absent (x : Window.Node) (l : list Window.Node) (i : Z) :
  ~ In x l -> Window.indexOf_from i x l = (-1)%Z.
Proof.
  revert i. induction l as [|y l IH]; intros i Hnotin; [reflexivity|].
  cbn [Window.indexOf_from]. destruct (Nat.eqb y x) eqn:E.
  - apply Nat.eqb_eq in E. subst y. exfalso. apply Hnotin. now left.
  - apply IH. intros Hin. apply Hnotin. now right.
Qed.

(** X10. What the observer does with one entry.  Not intersecting: nothing.
    Intersecting: one timer that will add [visible] to the target, due at
    once when the target is not a [service-item] or has no parent, and after
    100 ms times the position of the target among all the children of its
    parent (the first child has position 0) when it is one.  A target that
    is not among the children of the parent it names would be given a delay
    of -100 ms. *)
Theorem reveal_delay (m : Window.Markup) (w : Window.Tab)
    (entry : Window.IntersectionObserverEntry) :
  let node := Window.target entry in
  let scheduled (d : Z) :=
    Window.timeouts w
    ++ [{| Window.id := next_handle (Window.theme w); Window.ms := d;
           Window.callback := Window.addVisible node |}] in
  (Window.isIntersecting entry = false -> Window.reveal m w entry = w)
  /\ (Window.isIntersecting entry = true ->
      ClassList.contains "service-item" (Window.classes w node) = false
      \/ Window.parentElement m node = None ->
      Window.timeouts (Window.reveal m w entry) = scheduled 0%Z)
  /\ (forall parent k,
        Window.isIntersecting entry = true ->
        ClassList.contains "service-item" (Window.classes w node) = true ->
        Window.parentElement m node = Some parent ->
        List.NoDup (Window.children m parent) ->
        nth_error (Window.children m parent) k = Some node ->
        Window.timeouts (Window.reveal m w entry)
        = scheduled (100 * Z.of_nat k)%Z)
  /\ (forall parent,
        Window.isIntersecting entry = true ->
        ClassList.contains "service-item" (Window.classes w node) = true ->
        Window.parentElement m node = Some parent ->
        ~ In node (Window.children m parent) ->
        Window.timeouts (Window.reveal m w entry) = scheduled (-100)%Z).
Proof.
  cbn zeta. unfold Window.reveal. split; [|split; [|split]].
  - now intros ->.
  - intros -> [H | H].
    + now rewrite H.
    + rewrite H. now destruct (ClassList.contains _ _).
  - intros parent k -> Hc Hp Hnd Hk. rewrite Hc, Hp. cbn zeta.
    unfold Window.indexOf. rewrite (indexOf_from_found _ _ k 0 Hnd Hk).
    unfold Window.cardRevealDelayIncrement. cbn [Window.setTimeout snd Window.timeouts
      Window.set_timeouts Window.set_theme].
    do 3 f_equal. lia.
  - intros parent -> Hc Hp Hnotin. rewrite Hc, Hp. cbn zeta.
    unfold Window.indexOf. rewrite (indexOf_from_absent _ _ 0 Hnotin).
    reflexivity.
Qed.

(** The observer watches the elements [querySelectorAll] returned. *)
Lemma observe_adds (w : Window.Tab) (el k : Window.Node) :
  In k (Window.observed (Window.observe w el))
  <-> In k (Window.observed w) \/ k = el.
Proof.
  unfold Window.observe.
  destruct (existsb (Nat.eqb el) (Window.observed w)) eqn:E.
  - split; [now left|]. intros [H | ->]; [exact H|].
    apply existsb_exists in E as (y & Hin & Hy).
    apply Nat.eqb_eq in Hy. now subst y.
  - cbn [Window.observed Window.set_observed]. rewrite in_app_iff. cbn [In].
    split; intros [H | H]; auto.
    destruct H as [-> | []]. now right.
Qed.

Lemma observed_fold (l : list Window.Node) (w : Window.Tab) (k : Window.Node) :
  In k (Window.observed (fold_left Window.observe l w))
  <-> In k (Window.observed w) \/ In k l.
Proof.
  revert w. induction l as [|el l IH]; intros w; cbn [fold_left In].
  - tauto.
  - rewrite IH, observe_adds. split; intros H; intuition.
Qed.

Lemma observed_after_load (doc : Document) (m : Window.Markup) (w0 : Window.Tab)
    (k : Window.Node) :
  Window.observed w0 = [] ->
  (In k (Window.observed (Window.load doc m w0)) <-> In k (Window.revealElements m)).
Proof.
  intros H0. unfold Window.load, Window.initComponents. cbn zeta.
  destruct (0 <? length (Window.revealElements m))%nat eqn:El.
  - rewrite observed_fold. cbn [Window.observed Window.set_observed In]. tauto.
  - apply Nat.ltb_ge in El.
    destruct (Window.revealElements m); [|cbn in El; lia].
    cbn [In]. destruct (Window.has_preloader m);
      cbn [Window.observed Window.set_theme Window.setTimeout snd Window.set_timeouts];
      rewrite H0; tauto.
Qed.

Lemma observed_reveal (m : Window.Markup) (w : Window.Tab)
    (entry : Window.IntersectionObserverEntry) :
  Window.observed (Window.reveal m w entry) = Window.observed w.
Proof.
  unfold Window.reveal. now destruct (Window.isIntersecting entry).
Qed.

Lemma observed_step (doc : Document) (m : Window.Markup) (w : Window.Tab)
    (i : Window.Input) :
  Window.observed (Window.step doc m w i) = Window.observed w.
Proof.
  destruct i as [e | entries].
  - destruct e as [| | event | h]; try reflexivity.
    cbn [Window.step].
    destruct (List.find _ (Window.timeouts w)) as [t|]; [|reflexivity].
    now destruct (Window.callback t).
  - cbn [Window.step]. unfold Window.deliver, Window.observer_callback.
    apply (tab_fold_invariant (fun x => Window.observed x = Window.observed w));
      [|reflexivity].
    intros x y Hx. now rewrite observed_reveal.
Qed.

Lemma observed_run (doc : Document) (m : Window.Markup)
    (inputs : list Window.Input) (w : Window.Tab) :
  Window.observed (Window.run doc m inputs w) = Window.observed w.
Proof.
  unfold Window.run.
  apply (tab_fold_invariant (fun x => Window.observed x = Window.observed w));
    [|reflexivity].
  intros x i Hx. now rewrite observed_step.
Qed.

Lemma hidden_theme (node : Window.Node) (w : Window.Tab) (st : State) :
  hidden node w -> hidden node (Window.set_theme st w).
Proof. exact (fun H => H). Qed.

Lemma hidden_step (doc : Document) (m : Window.Markup) (node : Window.Node)
    (w : Window.Tab) (i : Window.Input) :
  (In node (Window.observed w) -> reports node i = false) ->
  hidden node w -> hidden node (Window.step doc m w i).
Proof.
  intros Hrep [Hv Hp]. destruct i as [e | entries].
  - destruct e as [| | event | h]; try (split; assumption).
    cbn [Window.step].
    destruct (List.find _ (Window.timeouts w)) as [t|] eqn:Ef; [|split; assumption].
    apply find_some in Ef as [Hin _].
    unfold no_reveal_pending in Hp. rewrite List.Forall_forall in Hp.
    pose proof (Hp t Hin) as Hcb.
    assert (Hp' : no_reveal_pending node
                    (Window.set_timeouts
                       (List.filter (fun t => negb (Pos.eqb (Window.id t) h))
                          (Window.timeouts w)) w)).
    { unfold no_reveal_pending. rewrite List.Forall_forall. intros t' Hin'.
      apply filter_In in Hin' as [Hin' _]. now apply Hp. }
    destruct (Window.callback t) as [|n'].
    + split; [exact Hv | exact Hp'].
    + split; [|exact Hp'].
      simpl_tab. rewrite lookup_total_insert_ne; [exact Hv | congruence].
  - cbn [Window.step]. unfold Window.deliver, Window.observer_callback.
    apply (tab_fold_invariant_in (hidden node)); [|split; assumption].
    intros x entry Hin [Hxv Hxp].
    apply filter_In in Hin as [Hin Hobs].
    unfold Window.reveal.
    destruct (Window.isIntersecting entry) eqn:Ei; [|split; assumption].
    split; [exact Hxv|].
    unfold no_reveal_pending. simpl_tab.
    apply List.Forall_app. split; [exact Hxp|].
    constructor; [|constructor]. cbn [Window.callback].
    intros [= Heq].
    assert (Hobs' : In node (Window.observed w)).
    { apply existsb_exists in Hobs as (y & Hy & Hey).
      apply Nat.eqb_eq in Hey. subst y. now rewrite <- Heq. }
    specialize (Hrep Hobs'). cbn [reports] in Hrep.
    assert (Hex : existsb (fun entry => Nat.eqb (Window.target entry) node
                                        && Window.isIntersecting entry) entries = true).
    { apply existsb_exists. exists entry. split; [exact Hin|].
      rewrite Heq, Ei, Nat.eqb_refl. reflexivity. }
    congruence.
Qed.

(** X11. An element gets the class [visible] from the observer only.  In a
    tab with no observer yet, an element without the class, for which no
    timer is pending, still has no [visible] after the page is loaded and
    any inputs are delivered, when the element is not among those
    [querySelectorAll('.reveal')] returned, or when no batch of intersection
    changes reports it intersecting. *)
Theorem reveal_needs_intersection (doc : Document) (m : Window.Markup)
    (w0 : Window.Tab) (inputs : list Window.Input) (node : Window.Node) :
  Window.observed w0 = [] ->
  ClassList.contains "visible" (Window.classes w0 node) = false ->
  no_reveal_pending node w0 ->
  ~ In node (Window.revealElements m)
  \/ Forall (fun i => reports node i = false) inputs ->
  ClassList.contains "visible"
    (Window.classes (Window.run doc m inputs (Window.load doc m w0)) node) = false.
Proof.
  intros H0 Hv Hp Hno.
  destruct (load_tab doc m w0) as (E1 & E2 & E3 & E4 & _).
  cbn zeta in *.
  assert (Hload : hidden node (Window.load doc m w0)).
  { split.
    - unfold Window.classes. now rewrite E4.
    - unfold no_reveal_pending. rewrite E2.
      destruct (Window.has_preloader m); [|exact Hp].
      simpl_tab. apply List.Forall_app. split; [exact Hp|].
      constructor; [discriminate | constructor]. }
  assert (Hinv : hidden node (Window.run doc m inputs (Window.load doc m w0))
                 /\ Window.observed (Window.run doc m inputs (Window.load doc m w0))
                    = Window.observed (Window.load doc m w0)).
  { unfold Window.run.
    apply (tab_fold_invariant_in
             (fun x => hidden node x
                       /\ Window.observed x = Window.observed (Window.load doc m w0)));
      [|split; [exact Hload | reflexivity]].
    intros x i Hin [Hx Ho]. split; [|now rewrite observed_step].
    apply hidden_step; [|exact Hx].
    rewrite Ho, (observed_after_load doc m w0 node H0). intros Hobs.
    destruct Hno as [Hno | Hno]; [contradiction|].
    rewrite List.Forall_forall in Hno. now apply Hno. }
  apply Hinv.
Qed.

Lemma reveal_schedules (m : Window.Markup)
    (entries : list Window.IntersectionObserverEntry)
    (entry : Window.IntersectionObserverEntry) (w : Window.Tab) :
  In entry entries ->
  Window.isIntersecting entry = true ->
  exists t,
    In t (Window.timeouts (fold_left (Window.reveal m) entries w))
    /\ Window.callback t = Window.addVisible (Window.target entry).
Proof.
  revert w. induction entries as [|e l IH]; intros w Hin Hi; [destruct Hin|].
  cbn [fold_left]. destruct Hin as [-> | Hin]; [|now apply IH].
  assert (Hnew : exists t, In t (Window.timeouts (Window.reveal m w entry))
                           /\ Window.callback t = Window.addVisible (Window.target entry)).
  { unfold Window.reveal. rewrite Hi. eexists. split.
    - simpl_tab. apply in_or_app. right. left. reflexivity.
    - reflexivity. }
  destruct Hnew as (t & Ht & Hcb). exists t. split; [|exact Hcb].
  apply (tab_fold_invariant (fun x => In t (Window.timeouts x))); [|exact Ht].
  intros x y. apply reveal_appends.
Qed.

(** X12. No reveal is lost.  In a page that was loaded, an element that
    [querySelectorAll('.reveal')] returned and that a batch of intersection
    changes reports intersecting gets a timer of its own in that batch; when
    that timer fires, whatever the browser delivers before and after, the
    element has the class [visible], and keeps it: nothing in the script
    takes the class off or cancels the timer. *)
Theorem reported_element_revealed (doc : Document) (m : Window.Markup)
    (w0 : Window.Tab) (earlier : list Window.Input)
    (entries : list Window.IntersectionObserverEntry)
    (entry : Window.IntersectionObserverEntry) :
  handles_fresh w0 ->
  In (Window.target entry) (Window.revealElements m) ->
  In entry entries ->
  Window.isIntersecting entry = true ->
  let w := Window.step doc m (Window.run doc m earlier (Window.load doc m w0))
             (Window.Intersections entries) in
  exists t,
    In t (Window.timeouts w)
    /\ Window.callback t = Window.addVisible (Window.target entry)
    /\ forall before after,
         ClassList.contains "visible"
           (Window.classes
              (Window.run doc m
                 (before ++ Window.ThemeEvent (TimerFires (Window.id t)) :: after) w)
              (Window.target entry)) = true.
Proof.
  intros Hf Hr Hin Hi. cbn zeta.
  set (w1 := Window.run doc m earlier (Window.load doc m w0)).
  assert (Hobs : In (Window.target entry) (Window.observed w1)).
  { unfold w1. rewrite observed_run.
    unfold Window.load, Window.initComponents. cbn zeta.
    destruct (0 <? length (Window.revealElements m))%nat eqn:El.
    - rewrite observed_fold. now right.
    - apply Nat.ltb_ge in El.
      destruct (Window.revealElements m); [destruct Hr | cbn in El; lia]. }
  assert (Hfresh : handles_fresh (Window.step doc m w1 (Window.Intersections entries))).
  { apply fresh_step. unfold w1. apply fresh_run. now apply fresh_load. }
  cbn [Window.step] in *. unfold Window.deliver, Window.observer_callback in *.
  destruct (reveal_schedules m
              (List.filter (fun e => existsb (Nat.eqb (Window.target e))
                                       (Window.observed w1)) entries)
              entry w1) as (t & Ht & Hcb); [|exact Hi|].
  { apply filter_In. split; [exact Hin|].
    apply existsb_exists. exists (Window.target entry).
    split; [exact Hobs | apply Nat.eqb_refl]. }
  exists t. split; [exact Ht|]. split; [exact Hcb|].
  intros before after.
  pose proof (pending_timeout_runs doc m t before after _ Hfresh Ht) as Hdone.
  now rewrite Hcb in Hdone.
Qed.

(** ** The handle of the failsafe *)

Lemma moves_same (x y : State) :
  transitionFailsafeTimeoutId y = transitionFailsafeTimeoutId x ->
  next_handle y = next_handle x ->
  failsafe_id_moves x y.
Proof.
  intros H1 H2. split; [unfold handle_le; rewrite H2; apply Pos.le_refl|].
  now left.
Qed.

Lemma failsafe_id_moves_trans (x y z : State) :
  failsafe_id_moves x y -> failsafe_id_moves y z -> failsafe_id_moves x z.
Proof.
  unfold failsafe_id_moves, handle_le.
  intros [L1 H1] [L2 H2]. split; [exact (Pos.le_trans _ _ _ L1 L2)|].
  destruct H2 as [H2 | [H2 | (h & H2 & A & B)]].
  - rewrite H2. destruct H1 as [H1 | [H1 | (h & H1 & A & B)]]; auto.
    right. right. exists h. split; [exact H1|]. split; [exact A|].
    exact (Pos.lt_le_trans _ _ _ B L2).
  - auto.
  - right. right. exists h. split; [exact H2|]. split; [|exact B].
    exact (Pos.le_trans _ _ _ L1 A).
Qed.

Lemma handle_le_by_call (doc : Document) (s : ThemeSetting) (b : bool) (x : State) :
  handle_le x (applyTheme doc s b x).
Proof.
  apply (applyTheme_kept doc handle_le);
    first [exact handle_le_trans | handle_op'].
Qed.

Lemma applyTheme_starts_handle (doc : Document) (s : ThemeSetting) (st : State) :
  nothing_missing doc ->
  isTransitioning st = false ->
  visible_theme st <> s ->
  let st' := applyTheme doc s false st in
  transitionFailsafeTimeoutId st' = Some (next_handle st)
  /\ next_handle st' = Pos.succ (next_handle st).
Proof.
  intros (Ho & Hs & Hm) Ht Hv. cbn zeta.
  rewrite (applyTheme_starts doc Ho Hs Hm s st Ht Hv).
  unfold addEventListener, cancel_pending_failsafe, bookkeeping.
  rewrite (updateToggleButtonState_present doc Hs Hm).
  simpl_state.
  destruct (transitionFailsafeTimeoutId st); simpl_state;
    match goal with |- context [if ?b then _ else _] => destruct b end;
    split; reflexivity.
Qed.

Lemma moves_by_call (doc : Document) (s : ThemeSetting) (b : bool) (x : State) :
  failsafe_id_moves x (applyTheme doc s b x).
Proof.
  destruct (applyTheme_cases doc s b x) as [(_ & H2 & _) | (Hn & -> & Ht & Hv)].
  - split; [apply handle_le_by_call | now left].
  - destruct (applyTheme_starts_handle doc s x Hn Ht Hv) as [Hid Hh].
    cbn zeta in *. split; [apply handle_le_by_call|].
    right. right. exists (next_handle x). split; [exact Hid|].
    split; [apply Pos.le_refl | rewrite Hh; apply Pos.lt_succ_diag_r].
Qed.

Lemma moves_by_reset (doc : Document) (x : State) :
  failsafe_id_moves x (resetTransitionOverlay doc x).
Proof.
  split.
  - apply (resetTransitionOverlay_kept doc handle_le);
      first [exact handle_le_trans | handle_op'].
  - unfold resetTransitionOverlay.
    destruct (themeOverlay doc); simpl_state;
      destruct (transitionFailsafeTimeoutId x) as [h|] eqn:Eid; simpl_state;
      rewrite ?Eid; simpl_state; auto.
Qed.

Ltac moves_op := intros; apply moves_same; reflexivity.

Lemma moves_by_control (doc : Document) (s : ThemeSetting) (x : State) :
  failsafe_id_moves x (updateToggleButtonState doc s x).
Proof.
  split; [apply handle_le_by_control|]. left.
  apply (updateToggleButtonState_elsewhere doc s x).
Qed.

Lemma moves_by_step (doc : Document) (x : State) (e : Event) :
  failsafe_id_moves x (step doc x e).
Proof.
  apply (step_kept doc failsafe_id_moves);
    first [ exact (moves_by_reset doc)
          | exact (moves_by_call doc)
          | intros; apply moves_by_control
          | kept_by failsafe_id_moves failsafe_id_moves_trans moves_op doc ].
Qed.

Lemma moves_by_initComponents (doc : Document) (x : State) :
  failsafe_id_moves x (initComponents doc x).
Proof.
  apply (initComponents_kept doc failsafe_id_moves);
    first [ exact (moves_by_call doc)
          | kept_by failsafe_id_moves failsafe_id_moves_trans moves_op doc ].
Qed.

Lemma apart_theme (w : Window.Tab) (st : State) :
  failsafe_id_moves (Window.theme w) st ->
  handles_fresh w -> failsafe_id_apart w ->
  failsafe_id_apart (Window.set_theme st w).
Proof.
  intros [Hle Hm] [_ Hlt] Ha h Hh. cbn in Hh |- *.
  unfold handle_le in Hle.
  destruct Hm as [Hm | [Hm | (h' & Hm & A & B)]].
  - rewrite Hm in Hh. destruct (Ha h Hh) as [H1 H2].
    split; [exact (Pos.lt_le_trans _ _ _ H1 Hle) | exact H2].
  - congruence.
  - rewrite Hm in Hh. injection Hh as <-. split; [exact B|].
    intros Hin. apply in_map_iff in Hin as (t & He & Hin).
    rewrite List.Forall_forall in Hlt. specialize (Hlt t Hin). cbn in Hlt.
    rewrite He in Hlt.
    exact (Pos.lt_irrefl _ (Pos.lt_le_trans _ _ _ Hlt A)).
Qed.

Lemma apart_setTimeout (cb : Window.TimeoutCallback) (d : Z) (w : Window.Tab) :
  failsafe_id_apart w -> failsafe_id_apart (snd (Window.setTimeout cb d w)).
Proof.
  intros Ha h Hh. cbn in Hh. destruct (Ha h Hh) as [H1 H2]. cbn. split.
  - apply (Pos.lt_trans _ _ _ H1), Pos.lt_succ_diag_r.
  - rewrite map_app, in_app_iff. cbn [map In Window.id].
    intros [Hin | [He | []]]; [contradiction|].
    rewrite He in H1. now apply Pos.lt_irrefl in H1.
Qed.

Lemma apart_filter (f : Window.Timeout -> bool) (w : Window.Tab) :
  failsafe_id_apart w ->
  failsafe_id_apart (Window.set_timeouts (List.filter f (Window.timeouts w)) w).
Proof.
  intros Ha h Hh. destruct (Ha h Hh) as [H1 H2]. split; [exact H1|].
  cbn. intros Hin. apply H2. apply in_map_iff in Hin as (t & He & Hin).
  apply filter_In in Hin as [Hin _]. apply in_map_iff. now exists t.
Qed.

Lemma apart_run_callback (cb : Window.TimeoutCallback) (w : Window.Tab) :
  failsafe_id_apart w -> failsafe_id_apart (Window.run_callback cb w).
Proof. intros H. destruct cb; exact H. Qed.

Lemma apart_step (doc : Document) (m : Window.Markup) (w : Window.Tab)
    (i : Window.Input) :
  handles_fresh w /\ failsafe_id_apart w ->
  handles_fresh (Window.step doc m w i)
  /\ failsafe_id_apart (Window.step doc m w i).
Proof.
  intros [Hf Ha]. split; [now apply fresh_step|].
  destruct i as [e | entries].
  - assert (Ht : failsafe_id_apart (Window.set_theme (step doc (Window.theme w) e) w))
      by (apply apart_theme; [apply moves_by_step | exact Hf | exact Ha]).
    destruct e as [| | event | h]; try exact Ht.
    cbn [Window.step].
    destruct (List.find _ (Window.timeouts w)) as [t|]; [|exact Ht].
    apply apart_run_callback. now apply apart_filter.
  - cbn [Window.step]. unfold Window.deliver, Window.observer_callback.
    apply (tab_fold_invariant failsafe_id_apart); [|exact Ha].
    intros x entry Hx. unfold Window.reveal.
    destruct (Window.isIntersecting entry); [|exact Hx].
    now apply apart_setTimeout.
Qed.

Lemma apart_load (doc : Document) (m : Window.Markup) (w : Window.Tab) :
  handles_fresh w -> failsafe_id_apart w ->
  failsafe_id_apart (Window.load doc m w).
Proof.
  intros Hf Ha.
  set (w1 := if Window.has_preloader m
             then snd (Window.setTimeout Window.hidePreloader 250 w) else w).
  assert (H1 : handles_fresh w1 /\ failsafe_id_apart w1).
  { unfold w1. destruct (Window.has_preloader m); [|now split].
    split; [now apply setTimeout_fresh | now apply apart_setTimeout]. }
  destruct H1 as [Hf1 Ha1].
  pose proof (apart_theme w1 (initComponents doc (Window.theme w1))
                (moves_by_initComponents doc _) Hf1 Ha1) as H.
  destruct (load_tab doc m w) as (E1 & E2 & _). cbn zeta in *. fold w1 in E1, E2.
  intros h Hh. rewrite E1 in Hh. rewrite E1, E2. exact (H h Hh).
Qed.

(** X16. Timer handles.  From a tab whose pending timers have distinct
    handles, none of them the one in [transitionFailsafeTimeoutId]: after the
    page is loaded and after any inputs, the timers of the preloader and of
    the reveals still have distinct handles, and the handle the theme logic
    remembers is none of theirs: the calls
    [clearTimeout(transitionFailsafeTimeoutId)] can only cancel a failsafe. *)
Theorem failsafe_id_names_no_other_timer (doc : Document) (m : Window.Markup)
    (w0 : Window.Tab) (inputs : list Window.Input) :
  handles_fresh w0 ->
  failsafe_id_apart w0 ->
  let w := Window.run doc m inputs (Window.load doc m w0) in
  List.NoDup (map Window.id (Window.timeouts w))
  /\ forall h, transitionFailsafeTimeoutId (Window.theme w) = Some h ->
       ~ In h (map Window.id (Window.timeouts w)).
Proof.
  intros Hf Ha. cbn zeta.
  assert (H : handles_fresh (Window.run doc m inputs (Window.load doc m w0))
              /\ failsafe_id_apart (Window.run doc m inputs (Window.load doc m w0))).
  { unfold Window.run.
    apply (tab_fold_invariant (fun x => handles_fresh x /\ failsafe_id_apart x)).
    - intros x i. apply apart_step.
    - split; [now apply fresh_load | now apply apart_load]. }
  destruct H as [[Hnd _] Hap]. split; [exact Hnd|].
  intros h Hh. now apply Hap.
Qed.

(** * Anchors: the default action and the scroll *)

(** X13. A click on an anchor never does one of the two without the other:
    the default action is prevented exactly when [scrollTo] is called, which
    is exactly when the [href] is a fragment other than a bare '#' that
    selects an element; a scroll is always smooth.  When the selector is
    rejected or selects nothing the browser keeps its default jump. *)
Theorem anchor_prevents_iff_scrolls (page : Page) (href : option string) :
  exists o,
    anchor_click page href = Normal o
    /\ (defaultPrevented o = true <-> scrolledTo o <> None)
    /\ (defaultPrevented o = true <->
        exists h rect_top,
          href = Some h /\ h <> "#" /\ String.prefix "#" h = true
          /\ querySelector page h = Found rect_top)
    /\ (forall opts, scrolledTo o = Some opts -> behavior opts = "smooth").
Proof.
  assert (Hnothing :
            forall P : Prop, ~ P ->
            (defaultPrevented nothing = true <-> scrolledTo nothing <> None)
            /\ (defaultPrevented nothing = true <-> P)
            /\ (forall opts, scrolledTo nothing = Some opts -> behavior opts = "smooth")).
  { intros P HP. cbn. split; [|split].
    - split; [discriminate | congruence].
    - split; [discriminate | contradiction].
    - discriminate. }
  destruct href as [h|].
  2:{ exists nothing. split; [reflexivity|]. apply Hnothing.
      intros (h & r & Hh & _). discriminate. }
  unfold anchor_click.
  destruct (String.eqb h "#" || String.eqb h "" || negb (String.prefix "#" h)) eqn:E.
  { exists nothing. split; [reflexivity|]. apply Hnothing.
    intros (h' & r & [= <-] & Hne & Hp & _).
    rewrite (valid_href h Hne Hp) in E. discriminate. }
  assert (Hvalid : h <> "#" /\ String.prefix "#" h = true).
  { apply orb_false_iff in E as [E1 E2]. apply orb_false_iff in E1 as [E1 _].
    apply String.eqb_neq in E1. apply negb_false_iff in E2. now split. }
  destruct Hvalid as [Hne Hp].
  unfold try_block. destruct (querySelector page h) as [| | rect_top] eqn:Hq.
  - exists nothing. split; [reflexivity|]. apply Hnothing.
    intros (h' & r & [= <-] & _ & _ & Hq'). congruence.
  - exists nothing. split; [reflexivity|]. apply Hnothing.
    intros (h' & r & [= <-] & _ & _ & Hq'). congruence.
  - eexists. split; [reflexivity|]. cbn [defaultPrevented scrolledTo].
    split; [|split].
    + split; [discriminate | reflexivity].
    + split; [|reflexivity]. intros _. exists h, rect_top. auto.
    + intros opts [= <-]. reflexivity.
Qed.

(** * The further theorems at a concrete page *)

(** The tab is loaded, everything comes into view, and the timers fire in
    the order of their delays.  The stored theme is on the body when the
    [load] listener returns; the heading, first child of the section, is due
    at once and the cards after 100, 200 and 300 ms; at the end the
    preloader is dismissed and the four elements are visible. *)
Example loaded_and_revealed :
  let loaded := Window.load complete_doc sample_markup new_tab in
  let reported :=
    Window.run complete_doc sample_markup [Window.Intersections all_in_view] loaded in
  let final :=
    Window.run complete_doc sample_markup
      (map (fun h => Window.ThemeEvent (TimerFires h)) [2; 3; 4; 1; 5]%positive)
      reported in
  body_classList (Window.theme loaded) = ["dark-mode"]
  /\ Window.observed loaded = [1; 2; 3; 4]%nat
  /\ map (fun t => (Window.id t, Window.ms t, Window.callback t))
       (Window.timeouts reported)
     = [ (1%positive, 250%Z, Window.hidePreloader);
         (2%positive, 0%Z, Window.addVisible 1);
         (3%positive, 100%Z, Window.addVisible 2);
         (4%positive, 200%Z, Window.addVisible 3);
         (5%positive, 300%Z, Window.addVisible 4) ]
  /\ body_classList (Window.theme final) = ["dark-mode"; "preloader-done"]
  /\ Window.preloader_classList final = ["loaded"]
  /\ map (Window.classes final) [1; 2; 3; 4; 5]%nat
     = [ ["reveal"; "visible"]; ["service-item"; "reveal"; "visible"];
         ["service-item"; "reveal"; "visible"];
         ["service-item"; "reveal"; "visible"]; [] ]
  /\ Window.timeouts final = [].
Proof. vm_compute. repeat split. Qed.

Lemma new_tab_fresh : handles_fresh new_tab.
Proof. split; constructor. Qed.


Lemma marker_class_never_left_witness :
  ClassList.contains "theme-transition-active"
    (body_classList
       (run complete_doc (ToggleClick :: happy_path)
          (initComponents complete_doc quiet_light_page))) = false.
Proof.
  exact (marker_class_never_left complete_doc (ToggleClick :: happy_path)
           quiet_light_page eq_refl).
Defined.

Lemma overlay_blocks_only_in_transition_witness :
  let st := run complete_doc [ToggleClick; AnimationFrame]
              (initComponents complete_doc quiet_light_page) in
  (pointerEvents (overlay_style st) = "auto" <-> isTransitioning st = true)
  /\ (isTransitioning st = true ->
      exists h,
        timers st = [{| handle := h; delay := 2200; callback := failsafe |}]
        /\ isTransitioning (timer_fires complete_doc h st) = false
        /\ pointerEvents (overlay_style (timer_fires complete_doc h st)) = "none").
Proof.
  apply (overlay_blocks_only_in_transition complete_doc
           [ToggleClick; AnimationFrame] quiet_light_page).
  - exact quiet_light_page_at_rest.
  - discriminate.
Defined.

Lemma degraded_page_switches_at_once_witness :
  let st := run doc_without_sun_icon [ToggleClick; AnimationFrame; ToggleClick]
              (initComponents doc_without_sun_icon quiet_light_page) in
  visible_theme st = currentThemeSetting st
  /\ at_rest st
  /\ overlay_style st = overlay_style quiet_light_page.
Proof.
  apply (degraded_page_switches_at_once doc_without_sun_icon
           [ToggleClick; AnimationFrame; ToggleClick] quiet_light_page).
  - right. left. reflexivity.
  - exact quiet_light_page_at_rest.
Defined.

Lemma preloader_dismissed_witness :
  let w := Window.load complete_doc sample_markup new_tab in
  (visible_theme (Window.theme w) = setting_at_load (Window.theme new_tab)
   /\ stored_is_setting (Window.theme w)
   /\ other_classes (body_classList (Window.theme w))
      = other_classes (body_classList (Window.theme new_tab))
   /\ Window.preloader_classList w = Window.preloader_classList new_tab
   /\ Window.timeouts w
      = Window.timeouts new_tab
        ++ [{| Window.id := next_handle (Window.theme new_tab); Window.ms := 250;
               Window.callback := Window.hidePreloader |}])
  /\ callback_done Window.hidePreloader
       (Window.run complete_doc sample_markup
          ([Window.Intersections all_in_view; Window.ThemeEvent ToggleClick]
           ++ Window.ThemeEvent (TimerFires (next_handle (Window.theme new_tab)))
              :: [Window.ThemeEvent AnimationFrame]) w).
Proof.
  exact (preloader_dismissed complete_doc sample_markup new_tab
           [Window.Intersections all_in_view; Window.ThemeEvent ToggleClick]
           [Window.ThemeEvent AnimationFrame] eq_refl new_tab_fresh).
Defined.

Lemma without_preloader_never_done_witness :
  let w := Window.run complete_doc markup_without_preloader
             [Window.Intersections all_in_view;
              Window.ThemeEvent (TimerFires 1); Window.ThemeEvent ToggleClick]
             (Window.load complete_doc markup_without_preloader new_tab) in
  Window.timeouts (Window.load complete_doc markup_without_preloader new_tab)
  = Window.timeouts new_tab
  /\ no_dismissal_pending w
  /\ ClassList.contains "preloader-done" (body_classList (Window.theme w))
     = ClassList.contains "preloader-done" (body_classList (Window.theme new_tab)).
Proof.
  apply (without_preloader_never_done complete_doc markup_without_preloader new_tab
           [Window.Intersections all_in_view;
            Window.ThemeEvent (TimerFires 1); Window.ThemeEvent ToggleClick]).
  - reflexivity.
  - constructor.
Defined.

Lemma reveal_needs_intersection_witness :
  ClassList.contains "visible"
    (Window.classes
       (Window.run complete_doc sample_markup
          [ Window.Intersections
              [ {| Window.target := 2%nat; Window.isIntersecting := true |};
                {| Window.target := 3%nat; Window.isIntersecting := false |} ];
            Window.ThemeEvent (TimerFires 2) ]
          (Window.load complete_doc sample_markup new_tab))
       3%nat) = false.
Proof.
  apply (reveal_needs_intersection complete_doc sample_markup new_tab).
  - reflexivity.
  - reflexivity.
  - constructor.
  - right. repeat constructor.
Defined.

Lemma reported_element_revealed_witness :
  let entry := {| Window.target := 3%nat; Window.isIntersecting := true |} in
  let w := Window.step complete_doc sample_markup
             (Window.run complete_doc sample_markup [Window.ThemeEvent ToggleClick]
                (Window.load complete_doc sample_markup new_tab))
             (Window.Intersections all_in_view) in
  exists t,
    In t (Window.timeouts w)
    /\ Window.callback t = Window.addVisible (Window.target entry)
    /\ forall before after,
         ClassList.contains "visible"
           (Window.classes
              (Window.run complete_doc sample_markup
                 (before ++ Window.ThemeEvent (TimerFires (Window.id t)) :: after) w)
              (Window.target entry)) = true.
Proof.
  apply (reported_element_revealed complete_doc sample_markup new_tab
           [Window.ThemeEvent ToggleClick] all_in_view
           {| Window.target := 3%nat; Window.isIntersecting := true |}).
  - exact new_tab_fresh.
  - cbn. tauto.
  - cbn. tauto.
  - reflexivity.
Defined.

Lemma transition_after_failsafe_witness :
  let recovered :=
    timer_fires complete_doc (next_handle quiet_light_page)
      (run complete_doc (firstn 1 happy_path)
         (applyTheme complete_doc dark false quiet_light_page)) in
  let final := run complete_doc (ToggleClick :: happy_path) recovered in
  (isTransitioning recovered = false
   /\ timers recovered = []
   /\ overlay_listeners recovered <> []
   /\ visible_theme recovered = dark
   /\ currentThemeSetting recovered = dark
   /\ pointerEvents (overlay_style recovered) = "none")
  /\ (at_rest final
      /\ visible_theme final = other_theme dark
      /\ currentThemeSetting final = other_theme dark
      /\ persisted final = Some (theme_str (other_theme dark))
      /\ toggle_shows (other_theme dark) final
      /\ pointerEvents (overlay_style final) = "none"
      /\ opacity (overlay_style final) = "0").
Proof.
  apply (transition_after_failsafe complete_doc quiet_light_page dark 1).
  - reflexivity.
  - reflexivity.
  - reflexivity.
  - exact quiet_light_page_at_rest.
  - discriminate.
  - lia.
Defined.

Lemma opacity_guards_defined_witness :
  let st := run complete_doc [ToggleClick; AnimationFrame]
              (initComponents complete_doc quiet_light_page) in
  let o := opacity (overlay_style st) in
  (o = "0" \/ o = "1")
  /\ parseFloat o <> NaN
  /\ (js_lt (parseFloat o) (js_of_N 1) = false <-> o = "1")
  /\ (js_gt (parseFloat o) (js_of_N 0) = false <-> o = "0").
Proof.
  apply (opacity_guards_defined complete_doc [ToggleClick; AnimationFrame]
           quiet_light_page).
  - exact quiet_light_page_at_rest.
  - vm_compute. discriminate.
Defined.

Lemma failsafe_id_names_no_other_timer_witness :
  let w := Window.run complete_doc sample_markup
             [Window.ThemeEvent ToggleClick; Window.Intersections all_in_view]
             (Window.load complete_doc sample_markup new_tab) in
  List.NoDup (map Window.id (Window.timeouts w))
  /\ forall h, transitionFailsafeTimeoutId (Window.theme w) = Some h ->
       ~ In h (map Window.id (Window.timeouts w)).
Proof.
  apply (failsafe_id_names_no_other_timer complete_doc sample_markup new_tab
           [Window.ThemeEvent ToggleClick; Window.Intersections all_in_view]).
  - exact new_tab_fresh.
  - intros h H. discriminate H.
Defined.

Lemma anchor_scroll_other_headers_witness :
  anchor_click static_header_page (Some "#services")
  = Normal {| defaultPrevented := true;
              scrolledTo := Some {| top := 1436.5%float; behavior := "smooth" |} |}.
Proof.
  destruct (anchor_scroll_other_headers static_header_page "#services"
              1200.5%float ltac:(discriminate) eq_refl eq_refl) as [H _].
  exact (H {| position := "static"; offsetHeight := 64%float |} eq_refl
           ltac:(discriminate) ltac:(discriminate)).
Defined.
